(** * govtrack.us-web: the bill and bill-term parser (parser/bill_parser.py)

    A shallow embedding of [parser/bill_parser.py] and the properties of
    its reconciliation engine.  Python objects become records, the
    database tables and the module-level caches become fields of one
    explicit [state], and every function that touches them becomes a
    computation in a state-and-exception monad [M]: an exception keeps
    the state reached when it was raised, as in Python. *)

From Stdlib Require Import ZArith Ascii String List Bool Lia.
From stdpp Require Import base option list gmap strings fin_maps.

Local Open Scope Z_scope.
Local Open Scope string_scope.

(** ** Strings as Python 2 byte strings *)

Module Str.

(** [\s] of the [re] module on a byte string: space, \t \n \v \f \r. *)
Definition is_space (c : ascii) : bool :=
  let n := nat_of_ascii c in
  (n =? 32)%nat || ((9 <=? n)%nat && (n <=? 13)%nat).

Definition is_digit (c : ascii) : bool :=
  let n := nat_of_ascii c in (48 <=? n)%nat && (n <=? 57)%nat.

Definition is_lower (c : ascii) : bool :=
  let n := nat_of_ascii c in (97 <=? n)%nat && (n <=? 122)%nat.

Definition is_upper (c : ascii) : bool :=
  let n := nat_of_ascii c in (65 <=? n)%nat && (n <=? 90)%nat.

(** [str.lower] on one byte. *)
Definition lower_char (c : ascii) : ascii :=
  if is_upper c then ascii_of_nat (nat_of_ascii c + 32) else c.

Fixpoint lower (s : string) : string :=
  match s with
  | EmptyString => EmptyString
  | String c t => String (lower_char c) (lower t)
  end.

Definition tab : ascii := ascii_of_nat 9.
Definition newline : ascii := ascii_of_nat 10.

Fixpoint drop_spaces (s : string) : string :=
  match s with
  | String c t => if is_space c then drop_spaces t else s
  | EmptyString => EmptyString
  end.

Definition starts_with_space (s : string) : bool :=
  match s with
  | String c _ => is_space c
  | EmptyString => false
  end.

End Str.

(** ** [normalize_name] *)

(** [re.sub(r'\s{2,}', ' ', name)]: the scanner copies characters until
    it stands on two whitespace characters in a row; it then emits the
    replacement once and, being greedy, consumes the whole run
    ([in_run = true]) before it copies again. *)
Fixpoint sub_ws_runs (in_run : bool) (s : string) : string :=
  match s with
  | EmptyString => EmptyString
  | String c t =>
      if Str.is_space c then
        if in_run then sub_ws_runs true t
        else if Str.starts_with_space t
             then String " " (sub_ws_runs true t)
             else String c (sub_ws_runs false t)
      else String c (sub_ws_runs false t)
  end.

Definition normalize_name (name : string) : string :=
  let name := sub_ws_runs false name in
  Str.lower name.

(** ** Python values: [int()], results and exceptions *)

Inductive exn : Type :=
  | IndexError | TypeError | KeyError | ValueError | AttributeError
  | InvalidNode (attr : string)
  | Bill_DoesNotExist | Committee_DoesNotExist
  | MultipleObjectsReturned | IntegrityError
  | IOError | XMLSyntaxError.

Inductive result (A : Type) : Type :=
  | Ok (a : A)
  | Raise (e : exn).
Arguments Ok {A} a.
Arguments Raise {A} e.

Definition result_bind {A B} (r : result A) (k : A → result B) : result B :=
  match r with
  | Ok a => k a
  | Raise e => Raise e
  end.

Module PyInt.

Definition digit_val (c : ascii) : Z := Z.of_nat (nat_of_ascii c) - 48.

Fixpoint digits (acc : Z) (s : string) : option Z :=
  match s with
  | EmptyString => Some acc
  | String c t =>
      if Str.is_digit c then digits (10 * acc + digit_val c) t else None
  end.

Definition unsigned (s : string) : option Z :=
  match s with
  | EmptyString => None
  | _ => digits 0 s
  end.

Definition strip (s : string) : string :=
  String.rev (Str.drop_spaces (String.rev (Str.drop_spaces s))).

(** [int(s)] for a string: surrounding whitespace, an optional sign,
    at least one decimal digit. *)
Definition of_string (s : string) : option Z :=
  match strip s with
  | String "-" t => Z.opp <$> unsigned t
  | String "+" t => unsigned t
  | t => unsigned t
  end.

(** [int(v)] where [v] comes from [node.get(..)]: [None] is a
    [TypeError], a string that is not a number a [ValueError]. *)
Definition int (v : option string) : result Z :=
  match v with
  | None => Raise TypeError
  | Some s =>
      match of_string s with
      | Some z => Ok z
      | None => Raise ValueError
      end
  end.

End PyInt.

(** ** XML elements (lxml) *)

#[warnings="-register-all"]
Inductive node : Type :=
  | Node (tag : string) (attrib : list (string * string))
         (text : option string) (children : list node).

Definition node_tag (n : node) : string := let (t, _, _, _) := n in t.
Definition node_attrib (n : node) : list (string * string) :=
  let (_, a, _, _) := n in a.
Definition node_text (n : node) : option string := let (_, _, x, _) := n in x.
Definition node_children (n : node) : list node := let (_, _, _, c) := n in c.

Fixpoint assoc (k : string) (l : list (string * string)) : option string :=
  match l with
  | [] => None
  | (k', v) :: l => if decide (k' = k) then Some v else assoc k l
  end.

(** [node.get(name)] *)
Definition node_get (n : node) (name : string) : option string :=
  assoc name (node_attrib n).

(** [node.xpath('./a')] *)
Definition xpath1 (a : string) (n : node) : list node :=
  filter (λ c, node_tag c = a) (node_children n).

(** [node.xpath('./a/b')] *)
Definition xpath2 (a b : string) (n : node) : list node :=
  xpath1 a n ≫= xpath1 b.

(** Python truthiness of an optional string: [None] and [''] are false. *)
Definition truthy (v : option string) : bool :=
  match v with
  | Some (String _ _) => true
  | _ => false
  end.

(** ** The domain model (bill.models, person.models, committee.models) *)

(** Timestamps are kept as the integer the processor parsed them to. *)
Definition datetime : Type := Z.

Inductive TermType : Type := TermType_old | TermType_new.

Global Instance TermType_eq_dec : EqDecision TermType.
Proof. solve_decision. Defined.

Global Instance TermType_countable : Countable TermType.
Proof.
  refine (inj_countable' (λ t, match t with TermType_old => false | TermType_new => true end)
                         (λ b : bool, if b then TermType_new else TermType_old) _).
  by intros [].
Defined.

Record Person : Type := mkPerson {
  person_pk : Z;
  person_name : string;
}.

Record Committee : Type := mkCommittee {
  committee_id : Z;
  committee_code : string;
}.

(** [BillTerm()] has no id and no term type yet; a [CharField] starts as
    the empty string. *)
Record BillTerm : Type := mkBillTerm {
  term_id : option Z;
  term_type : option TermType;
  term_name : string;
}.

Definition BillTerm_new : BillTerm :=
  {| term_id := None; term_type := None; term_name := "" |}.

Definition title_t : Type := option string * option string * option string.

Record Bill : Type := mkBill {
  bill_id : option Z;
  congress : option Z;
  bill_type : option Z;
  number : option Z;
  titles : list title_t;
  title : string;
  introduced_date : option datetime;
  sponsor : option Z;
  sponsor_role : option Z;
  current_status_date : option datetime;
  current_status : option Z;
  major_actions : list (string * Z * string);
}.

(** [Bill()] *)
Definition Bill_new : Bill :=
  {| bill_id := None; congress := None; bill_type := None; number := None;
     titles := []; title := ""; introduced_date := None;
     sponsor := None; sponsor_role := None;
     current_status_date := None; current_status := None;
     major_actions := [] |}.

Definition set_bill_id (v : option Z) (b : Bill) : Bill :=
  mkBill v (congress b) (bill_type b) (number b) (titles b) (title b)
         (introduced_date b) (sponsor b) (sponsor_role b)
         (current_status_date b) (current_status b) (major_actions b).
Definition set_congress (v : option Z) (b : Bill) : Bill :=
  mkBill (bill_id b) v (bill_type b) (number b) (titles b) (title b)
         (introduced_date b) (sponsor b) (sponsor_role b)
         (current_status_date b) (current_status b) (major_actions b).
Definition set_bill_type (v : option Z) (b : Bill) : Bill :=
  mkBill (bill_id b) (congress b) v (number b) (titles b) (title b)
         (introduced_date b) (sponsor b) (sponsor_role b)
         (current_status_date b) (current_status b) (major_actions b).
Definition set_number (v : option Z) (b : Bill) : Bill :=
  mkBill (bill_id b) (congress b) (bill_type b) v (titles b) (title b)
         (introduced_date b) (sponsor b) (sponsor_role b)
         (current_status_date b) (current_status b) (major_actions b).
Definition set_titles (v : list title_t) (b : Bill) : Bill :=
  mkBill (bill_id b) (congress b) (bill_type b) (number b) v (title b)
         (introduced_date b) (sponsor b) (sponsor_role b)
         (current_status_date b) (current_status b) (major_actions b).
Definition set_title (v : string) (b : Bill) : Bill :=
  mkBill (bill_id b) (congress b) (bill_type b) (number b) (titles b) v
         (introduced_date b) (sponsor b) (sponsor_role b)
         (current_status_date b) (current_status b) (major_actions b).
Definition set_introduced_date (v : option datetime) (b : Bill) : Bill :=
  mkBill (bill_id b) (congress b) (bill_type b) (number b) (titles b) (title b)
         v (sponsor b) (sponsor_role b)
         (current_status_date b) (current_status b) (major_actions b).
Definition set_sponsor (v : option Z) (b : Bill) : Bill :=
  mkBill (bill_id b) (congress b) (bill_type b) (number b) (titles b) (title b)
         (introduced_date b) v (sponsor_role b)
         (current_status_date b) (current_status b) (major_actions b).
Definition set_sponsor_role (v : option Z) (b : Bill) : Bill :=
  mkBill (bill_id b) (congress b) (bill_type b) (number b) (titles b) (title b)
         (introduced_date b) (sponsor b) v
         (current_status_date b) (current_status b) (major_actions b).
Definition set_current_status_date (v : option datetime) (b : Bill) : Bill :=
  mkBill (bill_id b) (congress b) (bill_type b) (number b) (titles b) (title b)
         (introduced_date b) (sponsor b) (sponsor_role b)
         v (current_status b) (major_actions b).
Definition set_current_status (v : option Z) (b : Bill) : Bill :=
  mkBill (bill_id b) (congress b) (bill_type b) (number b) (titles b) (title b)
         (introduced_date b) (sponsor b) (sponsor_role b)
         (current_status_date b) v (major_actions b).
Definition set_major_actions (v : list (string * Z * string)) (b : Bill) : Bill :=
  mkBill (bill_id b) (congress b) (bill_type b) (number b) (titles b) (title b)
         (introduced_date b) (sponsor b) (sponsor_role b)
         (current_status_date b) (current_status b) v.

(** The natural key [(congress, bill_type, number)]. *)
Definition bill_key : Type := Z * Z * Z.

Definition natural_key (b : Bill) : option bill_key :=
  c ← congress b; t ← bill_type b; n ← number b; Some (c, t, n).

(** Modelled from the spec: the [Cosponsor] model of bill.models is not
    part of the sources.  Spec section 3 gives it as a join entity between
    Bill and Person with [joined], [withdrawn] and [role], unique per
    [(person, bill)]; its table is therefore a finite map from that pair. *)
Record Cosponsor : Type := mkCosponsor {
  joined : datetime;
  withdrawn : option datetime;
  role : option Z;
}.

(** A [RelatedBill] row, by the three columns the parser writes. *)
Record RelatedBill : Type := mkRelatedBill {
  rb_bill : Z;
  rb_related_bill : Z;
  rb_relation : option string;
}.

Global Instance RelatedBill_eq_dec : EqDecision RelatedBill.
Proof. solve_decision. Defined.

(** A source file on disk: its current signature and, when it is
    well-formed XML, its root element. *)
Record file : Type := mkFile {
  file_signature : Z;
  file_root : option node;
}.

Inductive level : Type := DEBUG | INFO | ERROR.

(** ** The state the parser runs in

    The tables of the database, the two module-level caches
    ([PERSON_CACHE], [TERM_CACHE]), the locals of [main] that its loops
    mutate ([existing_terms], [terms_parsed], [seen_bill_ids]), the log,
    and the calls made to the two collaborators (search index, event
    generator).  Tables with a primary key that the parser reads back are
    maps from that key; [BillTerm] rows are kept in table order, which is
    the order [objects.all()] yields them in. *)
Record state : Type := mkState {
  db_person : list Person;
  db_committee : list Committee;
  db_billterm : list BillTerm;
  billterm_subterms : gmap Z (gset Z);
  db_bill : gmap Z Bill;
  bill_committees : gmap Z (gset Z);
  bill_terms : gmap Z (gset Z);
  db_cosponsor : gmap (Z * Z) Cosponsor;
  db_relatedbill : list RelatedBill;
  db_file : gmap string Z;
  PERSON_CACHE : gmap Z Person;
  TERM_CACHE : gmap (option TermType * string) BillTerm;
  existing_terms : gmap (TermType * string) BillTerm;
  terms_parsed : gset (option Z);
  seen_bill_ids : list (option Z);
  log : list (level * string);
  indexed : list (option Z);
  events : list (option Z);
}.

Definition set_db_billterm (v : list BillTerm) (s : state) : state :=
  mkState (db_person s) (db_committee s) v (billterm_subterms s) (db_bill s) (bill_committees s) (bill_terms s) (db_cosponsor s) (db_relatedbill s) (db_file s) (PERSON_CACHE s) (TERM_CACHE s) (existing_terms s) (terms_parsed s) (seen_bill_ids s) (log s) (indexed s) (events s).
Definition set_billterm_subterms (v : gmap Z (gset Z)) (s : state) : state :=
  mkState (db_person s) (db_committee s) (db_billterm s) v (db_bill s) (bill_committees s) (bill_terms s) (db_cosponsor s) (db_relatedbill s) (db_file s) (PERSON_CACHE s) (TERM_CACHE s) (existing_terms s) (terms_parsed s) (seen_bill_ids s) (log s) (indexed s) (events s).
Definition set_db_bill (v : gmap Z Bill) (s : state) : state :=
  mkState (db_person s) (db_committee s) (db_billterm s) (billterm_subterms s) v (bill_committees s) (bill_terms s) (db_cosponsor s) (db_relatedbill s) (db_file s) (PERSON_CACHE s) (TERM_CACHE s) (existing_terms s) (terms_parsed s) (seen_bill_ids s) (log s) (indexed s) (events s).
Definition set_bill_committees (v : gmap Z (gset Z)) (s : state) : state :=
  mkState (db_person s) (db_committee s) (db_billterm s) (billterm_subterms s) (db_bill s) v (bill_terms s) (db_cosponsor s) (db_relatedbill s) (db_file s) (PERSON_CACHE s) (TERM_CACHE s) (existing_terms s) (terms_parsed s) (seen_bill_ids s) (log s) (indexed s) (events s).
Definition set_bill_terms (v : gmap Z (gset Z)) (s : state) : state :=
  mkState (db_person s) (db_committee s) (db_billterm s) (billterm_subterms s) (db_bill s) (bill_committees s) v (db_cosponsor s) (db_relatedbill s) (db_file s) (PERSON_CACHE s) (TERM_CACHE s) (existing_terms s) (terms_parsed s) (seen_bill_ids s) (log s) (indexed s) (events s).
Definition set_db_cosponsor (v : gmap (Z * Z) Cosponsor) (s : state) : state :=
  mkState (db_person s) (db_committee s) (db_billterm s) (billterm_subterms s) (db_bill s) (bill_committees s) (bill_terms s) v (db_relatedbill s) (db_file s) (PERSON_CACHE s) (TERM_CACHE s) (existing_terms s) (terms_parsed s) (seen_bill_ids s) (log s) (indexed s) (events s).
Definition set_db_relatedbill (v : list RelatedBill) (s : state) : state :=
  mkState (db_person s) (db_committee s) (db_billterm s) (billterm_subterms s) (db_bill s) (bill_committees s) (bill_terms s) (db_cosponsor s) v (db_file s) (PERSON_CACHE s) (TERM_CACHE s) (existing_terms s) (terms_parsed s) (seen_bill_ids s) (log s) (indexed s) (events s).
Definition set_db_file (v : gmap string Z) (s : state) : state :=
  mkState (db_person s) (db_committee s) (db_billterm s) (billterm_subterms s) (db_bill s) (bill_committees s) (bill_terms s) (db_cosponsor s) (db_relatedbill s) v (PERSON_CACHE s) (TERM_CACHE s) (existing_terms s) (terms_parsed s) (seen_bill_ids s) (log s) (indexed s) (events s).
Definition set_PERSON_CACHE (v : gmap Z Person) (s : state) : state :=
  mkState (db_person s) (db_committee s) (db_billterm s) (billterm_subterms s) (db_bill s) (bill_committees s) (bill_terms s) (db_cosponsor s) (db_relatedbill s) (db_file s) v (TERM_CACHE s) (existing_terms s) (terms_parsed s) (seen_bill_ids s) (log s) (indexed s) (events s).
Definition set_TERM_CACHE (v : gmap (option TermType * string) BillTerm) (s : state) : state :=
  mkState (db_person s) (db_committee s) (db_billterm s) (billterm_subterms s) (db_bill s) (bill_committees s) (bill_terms s) (db_cosponsor s) (db_relatedbill s) (db_file s) (PERSON_CACHE s) v (existing_terms s) (terms_parsed s) (seen_bill_ids s) (log s) (indexed s) (events s).
Definition set_existing_terms (v : gmap (TermType * string) BillTerm) (s : state) : state :=
  mkState (db_person s) (db_committee s) (db_billterm s) (billterm_subterms s) (db_bill s) (bill_committees s) (bill_terms s) (db_cosponsor s) (db_relatedbill s) (db_file s) (PERSON_CACHE s) (TERM_CACHE s) v (terms_parsed s) (seen_bill_ids s) (log s) (indexed s) (events s).
Definition set_terms_parsed (v : gset (option Z)) (s : state) : state :=
  mkState (db_person s) (db_committee s) (db_billterm s) (billterm_subterms s) (db_bill s) (bill_committees s) (bill_terms s) (db_cosponsor s) (db_relatedbill s) (db_file s) (PERSON_CACHE s) (TERM_CACHE s) (existing_terms s) v (seen_bill_ids s) (log s) (indexed s) (events s).
Definition set_seen_bill_ids (v : list (option Z)) (s : state) : state :=
  mkState (db_person s) (db_committee s) (db_billterm s) (billterm_subterms s) (db_bill s) (bill_committees s) (bill_terms s) (db_cosponsor s) (db_relatedbill s) (db_file s) (PERSON_CACHE s) (TERM_CACHE s) (existing_terms s) (terms_parsed s) v (log s) (indexed s) (events s).
Definition set_log (v : list (level * string)) (s : state) : state :=
  mkState (db_person s) (db_committee s) (db_billterm s) (billterm_subterms s) (db_bill s) (bill_committees s) (bill_terms s) (db_cosponsor s) (db_relatedbill s) (db_file s) (PERSON_CACHE s) (TERM_CACHE s) (existing_terms s) (terms_parsed s) (seen_bill_ids s) v (indexed s) (events s).
Definition set_indexed (v : list (option Z)) (s : state) : state :=
  mkState (db_person s) (db_committee s) (db_billterm s) (billterm_subterms s) (db_bill s) (bill_committees s) (bill_terms s) (db_cosponsor s) (db_relatedbill s) (db_file s) (PERSON_CACHE s) (TERM_CACHE s) (existing_terms s) (terms_parsed s) (seen_bill_ids s) (log s) v (events s).
Definition set_events (v : list (option Z)) (s : state) : state :=
  mkState (db_person s) (db_committee s) (db_billterm s) (billterm_subterms s) (db_bill s) (bill_committees s) (bill_terms s) (db_cosponsor s) (db_relatedbill s) (db_file s) (PERSON_CACHE s) (TERM_CACHE s) (existing_terms s) (terms_parsed s) (seen_bill_ids s) (log s) (indexed s) v.

(** The persisted part of a state: what a later run of the parser finds. *)
Definition persisted (s : state) :=
  (db_person s, db_committee s, db_billterm s, billterm_subterms s,
   db_bill s, bill_committees s, bill_terms s, db_cosponsor s,
   db_relatedbill s, db_file s).

(** ** The monad: state and exceptions *)

Definition M (A : Type) : Type := state → result A * state.

Global Instance M_ret : MRet M := λ A a s, (Ok a, s).

Global Instance M_bind : MBind M := λ A B k m s,
  match m s with
  | (Ok a, s') => k a s'
  | (Raise e, s') => (Raise e, s')
  end.

Definition raise {A} (e : exn) : M A := λ s, (Raise e, s).

Definition lift {A} (r : result A) : M A := λ s, (r, s).

Definition gets {A} (f : state → A) : M A := λ s, (Ok (f s), s).

Definition modify (f : state → state) : M unit := λ s, (Ok tt, f s).

(** [try: m except <the exceptions h is defined on>: h e] *)
Definition try_except {A} (m : M A) (h : exn → option (M A)) : M A := λ s,
  match m s with
  | (Ok a, s') => (Ok a, s')
  | (Raise e, s') =>
      match h e with
      | Some k => k s'
      | None => (Raise e, s')
      end
  end.

(** [for x in l: body x] *)
Fixpoint for_each {A} (l : list A) (body : A → M unit) : M unit :=
  match l with
  | [] => mret tt
  | x :: l => body x ;; for_each l body
  end.

(** A loop that appends to a list as it goes. *)
Fixpoint collect {A B} (l : list A) (body : A → M (option B)) : M (list B) :=
  match l with
  | [] => mret []
  | x :: l =>
      r ← body x;
      rs ← collect l body;
      mret (match r with Some b => b :: rs | None => rs end)
  end.

(** [l[0]] *)
Definition index0 {A} (l : list A) : M A :=
  match l with
  | x :: _ => mret x
  | [] => raise IndexError
  end.

Definition log_msg (lv : level) (msg : string) : M unit :=
  modify (λ s, set_log (log s ++ [(lv, msg)]) s).

(** What the modules outside the sources contribute: the two code tables,
    the date parser of the base processor, the title policy, a person's
    role at a date, whether the BillTerm table carries the uniqueness
    constraint on (term_type, name), and the files on disk. *)
Record Env : Type := mkEnv {
  BillType_by_xml_code : option string → result Z;
  BillStatus_by_xml_code : option string → result Z;
  parse_datetime : option string → result datetime;
  repr_datetime : datetime → string;
  get_primary_bill_title : Bill → list title_t → string;
  get_role_at_date : Person → option datetime → option Z;
  billterm_unique : bool;
  disk : gmap string file;
}.

(** ** The attribute mapper (parser.processor) *)

(** One entry of a processor's schema: the XML attribute, whether it is
    required, and the coercion followed by the assignment to the mapped
    field. *)
Record attribute (T : Type) : Type := mkAttribute {
  attr_name : string;
  attr_required : bool;
  attr_assign : string → T → result T;
}.
Arguments mkAttribute {T} _ _ _.
Arguments attr_name {T} _.
Arguments attr_required {T} _.
Arguments attr_assign {T} _.

Fixpoint first_missing {T} (schema : list (attribute T)) (n : node) : option string :=
  match schema with
  | [] => None
  | a :: schema =>
      if attr_required a && negb (bool_decide (is_Some (node_get n (attr_name a))))
      then Some (attr_name a)
      else first_missing schema n
  end.

Fixpoint assign_attributes {T} (schema : list (attribute T)) (n : node) (obj : T) : result T :=
  match schema with
  | [] => Ok obj
  | a :: schema =>
      match node_get n (attr_name a) with
      | Some v => result_bind (attr_assign a v obj) (assign_attributes schema n)
      | None => assign_attributes schema n obj
      end
  end.

(** Modelled from the spec: [Processor.process] of parser.processor, the
    base class of both processors, is not part of the sources.  Spec
    section 4.1: given the schema and an XML element it produces the
    populated entity, or fails naming the first missing required
    attribute; it applies the coercion registered for each attribute and
    has no other effect. *)
Definition Processor_process {T} (schema : list (attribute T)) (obj : T) (n : node) : M T :=
  match first_missing schema n with
  | Some a => raise (InvalidNode a)
  | None => lift (assign_attributes schema n obj)
  end.

(** [TermProcessor]: REQUIRED_ATTRIBUTES = ATTRIBUTES = ['value'],
    FIELD_MAPPING = {'value': 'name'}. *)
Definition TermProcessor_schema : list (attribute BillTerm) :=
  [ mkAttribute "value" true
      (λ v t, Ok (mkBillTerm (term_id t) (term_type t) v)) ].

Definition TermProcessor_process (obj : BillTerm) (n : node) : M BillTerm :=
  Processor_process TermProcessor_schema obj n.

(** ** The path of a bill file *)

Module BillPath.

Fixpoint span (p : ascii → bool) (s : string) : string * string :=
  match s with
  | String c t =>
      if p c then let (a, b) := span p t in (String c a, b)
      else (EmptyString, s)
  | EmptyString => (EmptyString, EmptyString)
  end.

Fixpoint strip_prefix (p s : string) : option string :=
  match p with
  | EmptyString => Some s
  | String c p =>
      match s with
      | String d s => if decide (c = d) then strip_prefix p s else None
      | EmptyString => None
      end
  end.

Definition nonempty (s : string) : option string :=
  match s with
  | EmptyString => None
  | _ => Some s
  end.

(** [re.search(r"/(\d+)/bills/([a-z]+)(\d+)\.xml$", fname)], read from
    the end of the name: [$] also matches before one final newline; the
    three groups are bounded by literals or by a change of character
    class, so each is the whole run of its class.  The result is the
    three groups of the match. *)
Definition search (fname : string) : option (string * string * string) :=
  let r := String.rev fname in
  let r := match r with
           | String c t => if decide (c = Str.newline) then t else r
           | EmptyString => r
           end in
  r ← strip_prefix "lmx." r;
  let (d3, r) := span Str.is_digit r in
  d3 ← nonempty d3;
  let (l2, r) := span Str.is_lower r in
  l2 ← nonempty l2;
  r ← strip_prefix "/sllib/" r;
  let (d1, r) := span Str.is_digit r in
  d1 ← nonempty d1;
  _ ← strip_prefix "/" r;
  Some (String.rev d1, String.rev l2, String.rev d3).

End BillPath.

(** The run parameters of [main]. *)
Record options : Type := mkOptions {
  disable_indexing : bool;
  disable_events : bool;
  force : bool;
  slow : bool;
  opt_congress : option string;
  opt_filter : option string;
}.

Definition set_force (v : bool) (o : options) : options :=
  mkOptions (disable_indexing o) (disable_events o) v (slow o)
            (opt_congress o) (opt_filter o).

Section Parser.

Context (E : Env).

(** ** The reference caches *)

Definition load_persons (l : list Person) : gmap Z Person :=
  foldl (λ m x, <[person_pk x := x]> m) ∅ l.

Definition get_person (pk : option string) : M Person :=
  pk ← lift (PyInt.int pk);
  cache ← gets PERSON_CACHE;
  (if decide (cache = ∅)
   then modify (λ s, set_PERSON_CACHE (load_persons (db_person s)) s)
   else mret tt) ;;
  cache ← gets PERSON_CACHE;
  match cache !! pk with
  | Some p => mret p
  | None => raise KeyError
  end.

Definition load_terms (l : list BillTerm)
    (cache : gmap (option TermType * string) BillTerm) :
    gmap (option TermType * string) BillTerm :=
  foldl (λ m term, <[(term_type term, normalize_name (term_name term)) := term]> m)
        cache l.

Definition get_term (name : option string) (congress : option Z) : M BillTerm :=
  cache ← gets TERM_CACHE;
  (if decide (cache = ∅)
   then modify (λ s, set_TERM_CACHE (load_terms (db_billterm s) (TERM_CACHE s)) s)
   else mret tt) ;;
  let tt :=
    if (match congress with Some c => (111 <=? c)%Z | None => false end)
    then TermType_new else TermType_old in
  name ← match name with
         | Some n => mret (normalize_name n)
         | None => raise TypeError
         end;
  cache ← gets TERM_CACHE;
  match cache !! (Some tt, name) with
  | Some t => mret t
  | None => raise KeyError
  end.

(** ** The tables *)

Definition next_id {A} (m : gmap Z A) : Z :=
  1 + foldr Z.max 0 (map_to_list m).*1.

Definition bills_with_key (k : bill_key) (bills : gmap Z Bill) : list (Z * Bill) :=
  map_to_list (filter (λ kv, natural_key kv.2 = Some k) bills).

Definition mk_key (c t n : option Z) : option bill_key :=
  c ← c; t ← t; n ← n; Some (c, t, n).

(** [Bill.objects.get(congress=.., bill_type=.., number=..)] *)
Definition Bill_objects_get (k : option bill_key) : M Bill :=
  match k with
  | None => raise Bill_DoesNotExist
  | Some k =>
      bills ← gets db_bill;
      match bills_with_key k bills with
      | [] => raise Bill_DoesNotExist
      | [(i, b)] => mret (set_bill_id (Some i) b)
      | _ => raise MultipleObjectsReturned
      end
  end.

(** [obj.save()]: an insert under a fresh id when the object has none,
    the write of the row of that id otherwise. *)
Definition Bill_save (obj : Bill) : M Bill :=
  match bill_id obj with
  | Some i =>
      modify (λ s, set_db_bill (<[i := obj]> (db_bill s)) s) ;;
      mret obj
  | None =>
      bills ← gets db_bill;
      let obj := set_bill_id (Some (next_id bills)) obj in
      modify (λ s, set_db_bill (<[next_id bills := obj]> (db_bill s)) s) ;;
      mret obj
  end.

(** The id of a saved object, needed by every relation on it. *)
Definition pk_of (id : option Z) : M Z :=
  match id with
  | Some i => mret i
  | None => raise ValueError
  end.

Definition committees_with_code (code : option string) (l : list Committee) : list Committee :=
  filter (λ c, code = Some (committee_code c)) l.

(** [Committee.objects.get(code=..)] *)
Definition Committee_objects_get (code : option string) : M Committee :=
  l ← gets db_committee;
  match committees_with_code code l with
  | [] => raise Committee_DoesNotExist
  | [c] => mret c
  | _ => raise MultipleObjectsReturned
  end.

(** [Cosponsor.objects.get_or_create(person=.., bill=.., defaults=..)] *)
Definition Cosponsor_get_or_create (person bill : Z) (defaults : Cosponsor) :
    M (Cosponsor * bool) :=
  t ← gets db_cosponsor;
  match t !! (person, bill) with
  | Some ob => mret (ob, false)
  | None =>
      modify (λ s, set_db_cosponsor (<[(person, bill) := defaults]> (db_cosponsor s)) s) ;;
      mret (defaults, true)
  end.

(** [ob.save()] on a cosponsor row *)
Definition Cosponsor_save (person bill : Z) (ob : Cosponsor) : M unit :=
  modify (λ s, set_db_cosponsor (<[(person, bill) := ob]> (db_cosponsor s)) s).


(** ** [BillProcessor] *)

(** REQUIRED_ATTRIBUTES = ATTRIBUTES = ['type', 'session', 'number'],
    FIELD_MAPPING = {'type': 'bill_type', 'session': 'congress'}, with
    [type_handler], [session_handler] and [number_handler]. *)
Definition BillProcessor_schema : list (attribute Bill) :=
  [ mkAttribute "type" true
      (λ v b, result_bind (BillType_by_xml_code E (Some v))
                (λ t, Ok (set_bill_type (Some t) b)));
    mkAttribute "session" true
      (λ v b, result_bind (PyInt.int (Some v))
                (λ c, Ok (set_congress (Some c) b)));
    mkAttribute "number" true
      (λ v b, result_bind (PyInt.int (Some v))
                (λ n, Ok (set_number (Some n) b))) ].

(** ['%s' % v] *)
Definition fmt (v : option string) : string := default "None" v.

Definition process_introduced (obj : Bill) (n : node) : M Bill :=
  elem ← index0 (xpath1 "introduced" n);
  d ← lift (parse_datetime E (node_get elem "datetime"));
  mret (set_introduced_date (Some d) obj).

Definition process_current_status (obj : Bill) (n : node) : M Bill :=
  elem ← index0 (xpath1 "state" n);
  d ← lift (parse_datetime E (node_get elem "datetime"));
  let obj := set_current_status_date (Some d) obj in
  st ← lift (BillStatus_by_xml_code E (node_text elem));
  mret (set_current_status (Some st) obj).

Definition process_titles (obj : Bill) (n : node) : M Bill :=
  let titles :=
    (λ elem, (node_get elem "type", node_get elem "as",
              if truthy (node_text elem) then node_text elem else None))
      <$> xpath2 "titles" "title" n in
  let obj := set_titles titles obj in
  mret (set_title (get_primary_bill_title E obj titles) obj).

Definition process_sponsor (obj : Bill) (n : node) : M Bill :=
  try_except
    (elem ← index0 (xpath1 "sponsor" n);
     p ← get_person (node_get elem "id");
     let obj := set_sponsor (Some (person_pk p)) obj in
     mret (set_sponsor_role (get_role_at_date E p (introduced_date obj)) obj))
    (λ e, match e with
          | IndexError => Some (mret (set_sponsor None obj)) (* no sponsor node *)
          | TypeError => Some (mret (set_sponsor None obj))  (* no id attribute *)
          | _ => None
          end).

(** The body of [for subnode in node.xpath('./cosponsors/cosponsor')]. *)
Definition cosponsor_node (obj : Bill) (subnode : node) : M unit :=
  person ← try_except
             (p ← get_person (node_get subnode "id"); mret (Some p))
             (λ e, match e with
                   | IndexError => Some (mret None)
                   | _ => None
                   end);
  match person with
  | None => mret tt
  | Some person =>
      j ← lift (parse_datetime E (node_get subnode "joined"));
      let value := node_get subnode "withdrawn" in
      w ← (if truthy value
           then d ← lift (parse_datetime E value); mret (Some d)
           else mret None);
      b ← pk_of (bill_id obj);
      r ← Cosponsor_get_or_create (person_pk person) b
            (mkCosponsor j w (get_role_at_date E person (Some j)));
      let ob := r.1 in
      if decide (joined ob ≠ j ∨ withdrawn ob ≠ w)
      then Cosponsor_save (person_pk person) b (mkCosponsor j w (role ob))
      else mret tt
  end.

Definition process_consponsors (obj : Bill) (n : node) : M unit :=
  for_each (xpath2 "cosponsors" "cosponsor" n) (cosponsor_node obj).

(** The loop of [process_committees], which builds [comlist]. *)
Definition find_committees (n : node) : M (list Committee) :=
  collect (xpath2 "committees" "committee" n) (λ subnode,
    if decide (node_get subnode "code" = Some "") then mret None
    else
      try_except
        (com ← Committee_objects_get (node_get subnode "code"); mret (Some com))
        (λ e, match e with
              | Committee_DoesNotExist =>
                  Some (log_msg ERROR ("Could not find committee "
                                         ++ fmt (node_get subnode "code")) ;;
                        mret None)
              | _ => None
              end)).

Definition process_committees (obj : Bill) (n : node) : M unit :=
  comlist ← find_committees n;
  i ← pk_of (bill_id obj);
  modify (λ s, set_bill_committees
                 (<[i := list_to_set (committee_id <$> comlist)]> (bill_committees s)) s).

(** The loop of [process_terms], which builds [termlist]. *)
Definition find_terms (n : node) (congress : option Z) : M (list BillTerm) :=
  collect (xpath2 "subjects" "term" n) (λ subnode,
    let name := node_get subnode "name" in
    try_except
      (t ← get_term name congress; mret (Some t))
      (λ e, match e with
            | KeyError =>
                Some (log_msg ERROR ("Could not find term [name: " ++ fmt name ++ "]") ;;
                      mret None)
            | _ => None
            end)).

Definition process_terms (obj : Bill) (n : node) (congress : option Z) : M unit :=
  termlist ← find_terms n congress;
  i ← pk_of (bill_id obj);
  modify (λ s, set_bill_terms
                 (<[i := list_to_set (omap term_id termlist)]> (bill_terms s)) s).

(** The lookup of one [relatedbills/bill] reference: the keyword
    arguments are evaluated left to right, then the query coerces the
    congress it was given as a string. *)
Definition related_lookup (subnode : node) : M Bill :=
  let c := node_get subnode "session" in
  t ← lift (BillType_by_xml_code E (node_get subnode "type"));
  n ← lift (PyInt.int (node_get subnode "number"));
  c ← match c with
      | None => mret None
      | Some _ => c ← lift (PyInt.int c); mret (Some c)
      end;
  Bill_objects_get (mk_key c (Some t) (Some n)).

(** The body of [for subnode in node.xpath('./relatedbills/bill')], for
    the bill of id [b]. *)
Definition relatedbill_node (b : Z) (subnode : node) : M unit :=
  r ← try_except
        (rb ← related_lookup subnode; mret (Some rb))
        (λ e, match e with
              | Bill_DoesNotExist => Some (mret None)
              | _ => None
              end);
  match r with
  | None => mret tt
  | Some related_bill =>
      rid ← pk_of (bill_id related_bill);
      modify (λ s, set_db_relatedbill
                     (db_relatedbill s
                        ++ [mkRelatedBill b rid (node_get subnode "relation")]) s)
  end.

Definition process_relatedbills (obj : Bill) (n : node) : M unit :=
  b ← pk_of (bill_id obj);
  modify (λ s, set_db_relatedbill (filter (λ r, rb_bill r ≠ b) (db_relatedbill s)) s) ;;
  for_each (xpath2 "relatedbills" "bill" n) (relatedbill_node b).

(** The attribute pass and the four field extractors: everything
    [process] does before it touches the Bill table. *)
Definition process_fields (obj : Bill) (n : node) : M Bill :=
  obj ← Processor_process BillProcessor_schema obj n;
  obj ← process_titles obj n;
  obj ← process_introduced obj n;
  obj ← process_sponsor obj n;
  process_current_status obj n.

(** update existing bill record if one exists, otherwise create a new
    one on save() *)
Definition adopt_id (obj : Bill) : M Bill :=
  try_except
    (b ← Bill_objects_get (mk_key (congress obj) (bill_type obj) (number obj));
     mret (set_bill_id (bill_id b) obj))
    (λ e, match e with
          | Bill_DoesNotExist => Some (mret obj)
          | _ => None
          end).

Definition process (obj : Bill) (n : node) : M Bill :=
  obj ← process_fields obj n;
  obj ← adopt_id obj;
  obj ← Bill_save obj; (* save before using m2m relations *)
  process_committees obj n ;;
  process_terms obj n (congress obj) ;;
  process_consponsors obj n ;;
  process_relatedbills obj n ;;
  mret obj.


(** ** The change tracker (parser.models.File) and the files on disk *)

(** Modelled from the spec: [File.objects.is_changed] of parser.models
    is not part of the sources.  Spec section 4.3: true if no record
    exists for the path or the stored signature differs from the
    current one. *)
Definition File_is_changed (path : string) : M bool :=
  match disk E !! path with
  | None => raise IOError
  | Some f =>
      files ← gets db_file;
      mret (negb (bool_decide (files !! path = Some (file_signature f))))
  end.

(** Modelled from the spec: [File.objects.save_file] of parser.models
    is not part of the sources.  Spec section 4.3: records the current
    signature of the path. *)
Definition File_save_file (path : string) : M unit :=
  match disk E !! path with
  | None => raise IOError
  | Some f => modify (λ s, set_db_file (<[path := file_signature f]> (db_file s)) s)
  end.

(** [os.path.exists(path)] *)
Definition path_exists (path : string) : bool :=
  bool_decide (is_Some (disk E !! path)).

(** [etree.parse(fname)], as the root element of the tree. *)
Definition etree_parse (fname : string) : M node :=
  match disk E !! fname with
  | None => raise IOError
  | Some f =>
      match file_root f with
      | Some root => mret root
      | None => raise XMLSyntaxError
      end
  end.

(** [tree.xpath('/a')] *)
Definition xpath_root (a : string) (root : node) : list node :=
  if decide (node_tag root = a) then [root] else [].

(** [tree.xpath('/a/b')] *)
Definition xpath_root2 (a b : string) (root : node) : list node :=
  xpath_root a root ≫= xpath1 b.

(** [tree.xpath("actions/*[@state]")] *)
Definition xpath_actions (root : node) : list node :=
  filter (λ c, is_Some (node_get c "state"))
         (xpath1 "actions" root ≫= node_children).

(** [axn.xpath("string(@name)")] *)
Definition attr_string (n : node) (name : string) : string :=
  default "" (node_get n name).

(** [axn.xpath("string(text)")] *)
Definition child_text (n : node) : string :=
  match xpath1 "text" n with
  | c :: _ => default "" (node_text c)
  | [] => ""
  end.

(** [bill_index.update_object(b, using="bill")] *)
Definition update_object (b : Bill) : M unit :=
  modify (λ s, set_indexed (indexed s ++ [bill_id b]) s).

(** [b.create_events()] *)
Definition create_events (b : Bill) : M unit :=
  modify (λ s, set_events (events s ++ [bill_id b]) s).

(** ** [main]: the bill files *)

Definition textfile_of (g : string * string * string) : string :=
  let '(g1, g2, g3) := g in
  "data/us/bills.text/" ++ g1 ++ "/" ++ g2 ++ "/" ++ g2 ++ g3 ++ ".txt".

(** [m.group(..)]: an [AttributeError] when the search found nothing. *)
Definition groups (m : option (string * string * string)) :
    M (string * string * string) :=
  match m with
  | Some g => mret g
  | None => raise AttributeError
  end.

(** [Bill.objects.get(congress=m.group(1),
      bill_type=BillType.by_xml_code(m.group(2)), number=m.group(3))] *)
Definition get_by_path (m : option (string * string * string)) : M Bill :=
  g ← groups m;
  t ← lift (BillType_by_xml_code E (Some g.1.2));
  c ← lift (PyInt.int (Some g.1.1));
  n ← lift (PyInt.int (Some g.2));
  Bill_objects_get (mk_key (Some c) (Some t) (Some n)).

(** Lines 287-303: the skip path.  The result says whether the loop
    went on to the next file ([continue]). *)
Definition skip_path (opts : options) (fname : string) : M bool :=
  changed ← File_is_changed fname;
  if negb changed && negb (force opts) then
    let m := BillPath.search fname in
    try_except
      (b ← get_by_path m;
       modify (λ s, set_seen_bill_ids (seen_bill_ids s ++ [bill_id b]) s) ;;
       (* Update the index/events for any bill with recently changed text *)
       g ← groups m;
       let textfile := textfile_of g in
       (if (negb (disable_indexing opts) && negb (disable_events opts))
             && path_exists textfile
        then
          ch ← File_is_changed textfile;
          if ch : bool then
            update_object b ;;      (* index the full text *)
            create_events b ;;      (* events for new bill text documents *)
            File_save_file textfile
          else mret tt
        else mret tt) ;;
       mret true)
      (λ e, match e with
            | Bill_DoesNotExist => Some (mret false) (* just parse as normal *)
            | _ => None
            end)
  else mret false.

(** Lines 312-328: the body of [for node in tree.xpath('/bill')]. *)
Definition reconcile_node (opts : options) (fname : string) (skip_stuff : bool)
    (tree n : node) : M unit :=
  bill ← (if negb skip_stuff then process Bill_new n
          else get_by_path (BillPath.search fname));
  modify (λ s, set_seen_bill_ids (seen_bill_ids s ++ [bill_id bill]) s) ;; (* don't delete me later *)
  actions ← collect (xpath_actions tree) (λ axn,
    d ← lift (parse_datetime E (Some (attr_string axn "datetime")));
    st ← lift (BillStatus_by_xml_code E (Some (attr_string axn "state")));
    mret (Some (repr_datetime E d, st, child_text axn)));
  let bill := set_major_actions actions bill in
  bill ← Bill_save bill;
  (if negb (disable_indexing opts) then update_object bill else mret tt) ;;
  if negb (disable_events opts) then create_events bill else mret tt.

(** Lines 305-331: parse the file and reconcile its bill. *)
Definition parse_file (opts : options) (fname : string) : M unit :=
  let skip_stuff := false in
  tree ← etree_parse fname;
  for_each (xpath_root "bill" tree) (reconcile_node opts fname skip_stuff tree) ;;
  if negb skip_stuff then File_save_file fname else mret tt.

(** The body of [for fname in files]; [options.slow] only makes it
    sleep between the two parts. *)
Definition main_bill_file (opts : options) (fname : string) : M unit :=
  skipped ← skip_path opts fname;
  if skipped : bool then mret tt else parse_file opts fname.

Definition main_bills (opts : options) (files : list string) : M unit :=
  modify (set_seen_bill_ids []) ;;
  for_each files (main_bill_file opts).


(** ** [main]: the bill terms *)

(** [int(term.term_type)]: the enumeration member itself stands for its
    integer; a term without a type has none. *)
Definition int_term_type (t : option TermType) : M TermType :=
  match t with
  | Some t => mret t
  | None => raise TypeError
  end.

Definition next_term_id (rows : list BillTerm) : Z :=
  1 + foldr Z.max 0 (omap term_id rows).

Definition clashes (t : BillTerm) (rows : list BillTerm) : bool :=
  existsb (λ r, bool_decide (term_type r = term_type t ∧ term_name r = term_name t
                             ∧ term_id r ≠ term_id t)) rows.

(** [term.save()]: refused with an [IntegrityError] when the table
    carries the uniqueness constraint and another row has the same
    (term_type, name). *)
Definition BillTerm_save (t : BillTerm) : M BillTerm :=
  rows ← gets db_billterm;
  if billterm_unique E && clashes t rows then raise IntegrityError
  else
    match term_id t with
    | Some i =>
        modify (λ s, set_db_billterm
                       ((λ r, if decide (term_id r = Some i) then t else r) <$> db_billterm s) s) ;;
        mret t
    | None =>
        let t := mkBillTerm (Some (next_term_id rows)) (term_type t) (term_name t) in
        modify (λ s, set_db_billterm (db_billterm s ++ [t]) s) ;;
        mret t
    end.

(** [term.delete()], with the rows of the subterm relation it is in. *)
Definition BillTerm_delete (t : BillTerm) : M unit :=
  modify (λ s, set_db_billterm (filter (λ r, term_id r ≠ term_id t) (db_billterm s)) s) ;;
  match term_id t with
  | Some i =>
      modify (λ s, set_billterm_subterms
                     ((λ subs, subs ∖ {[i]}) <$> delete i (billterm_subterms s)) s)
  | None => mret tt
  end.

(** [term.subterms.clear()] *)
Definition subterms_clear (t : BillTerm) : M unit :=
  i ← pk_of (term_id t);
  modify (λ s, set_billterm_subterms (delete i (billterm_subterms s)) s).

(** [term.subterms.add(subterm)] *)
Definition subterms_add (t sub : BillTerm) : M unit :=
  i ← pk_of (term_id t);
  j ← pk_of (term_id sub);
  modify (λ s, set_billterm_subterms
                 (<[i := {[j]} ∪ default ∅ (billterm_subterms s !! i)]>
                    (billterm_subterms s)) s).

(** [existing_terms[(int(term.term_type), term.name)]] *)
Definition existing_lookup (t : BillTerm) : M BillTerm :=
  k ← int_term_type (term_type t);
  ex ← gets existing_terms;
  match ex !! (k, term_name t) with
  | Some t' => mret t'
  | None => raise KeyError
  end.

(** [existing_terms[(int(term.term_type), term.name)] = term] *)
Definition existing_store (t : BillTerm) : M unit :=
  k ← int_term_type (term_type t);
  modify (λ s, set_existing_terms (<[(k, term_name t) := t]> (existing_terms s)) s).

(** [terms_parsed.add(term.id)] *)
Definition parsed_add (t : BillTerm) : M unit :=
  modify (λ s, set_terms_parsed ({[term_id t]} ∪ terms_parsed s) s).

Definition with_term_type (tt : TermType) (t : BillTerm) : BillTerm :=
  mkBillTerm (term_id t) (Some tt) (term_name t).

(** The body of [for subnode in node.xpath('./term')].  The two copies
    of the loop differ in the order of the two statements that follow
    the lookup, and in the term the debug message names. *)
Definition subterm_node (tt : TermType) (term : BillTerm) (subnode : node) : M unit :=
  subterm ← TermProcessor_process BillTerm_new subnode;
  let subterm := with_term_type tt subterm in
  try_except
    ((* No need to update an existing term because there are no other attributes. *)
     subterm ← existing_lookup subterm;
     match tt with
     | TermType_old => subterms_add term subterm ;; parsed_add subterm
     | TermType_new => parsed_add subterm ;; subterms_add term subterm
     end)
    (λ _, Some (
       try_except
         (log_msg DEBUG ("Created " ++ term_name (match tt with
                                                  | TermType_old => subterm
                                                  | TermType_new => term
                                                  end)) ;;
          subterm ← BillTerm_save subterm;
          subterms_add term subterm ;;
          existing_store subterm ;;
          parsed_add subterm)
         (λ e, match e with
               | IntegrityError =>
                   Some (log_msg ERROR ("Duplicated term " ++ fmt (node_get subnode "value")))
               | _ => None
               end))).

(** Lines 193-202 (227-236 for the new scheme): the term of a top-term
    node, looked up or created. *)
Definition top_term (tt : TermType) (n : node) : M BillTerm :=
  term ← TermProcessor_process BillTerm_new n;
  let term := with_term_type tt term in
  try_except
    ((* No need to update an existing term because there are no other attributes. *)
     term ← existing_lookup term;
     parsed_add term ;;
     mret term)
    (λ _, Some (
       log_msg DEBUG ("Created " ++ term_name term) ;;
       term ← BillTerm_save term;
       subterms_clear term ;;
       mret term)).

(** The body of [for node in tree.xpath('/liv/top-term')]. *)
Definition top_term_node (tt : TermType) (n : node) : M unit :=
  term ← top_term tt n;
  for_each (xpath1 "term" n) (subterm_node tt term).

Definition terms_file (tt : TermType) (fname : string) : M unit :=
  tree ← etree_parse fname;
  for_each (xpath_root2 "liv" "top-term" tree) (top_term_node tt).

(** Lines 181-187: the locals and the snapshot of the existing terms. *)
Definition snapshot_terms : M unit :=
  modify (set_terms_parsed ∅) ;;
  modify (set_existing_terms ∅) ;;
  rows ← gets db_billterm;
  for_each rows existing_store.

(** Lines 257-260 *)
Definition prune_terms : M unit :=
  ex ← gets existing_terms;
  for_each (map_to_list ex).*2 (λ term,
    parsed ← gets terms_parsed;
    if decide (term_id term ∈ parsed) then mret tt
    else log_msg DEBUG ("Deleted " ++ term_name term) ;; BillTerm_delete term).

Definition main_terms : M unit :=
  snapshot_terms ;;
  log_msg INFO "Processing old bill terms" ;;
  terms_file TermType_old "data/us/liv.xml" ;;
  log_msg INFO "Processing new bill terms" ;;
  for_each ["data/us/liv111.xml"; "data/us/crsnet.xml"] (terms_file TermType_new) ;;
  prune_terms.

End Parser.

(** ** [normalize_name], as the blocks of its argument *)

(** The maximal blocks of a string: each block is a run of whitespace or
    a run of other characters, and neighbours differ in kind. *)
Fixpoint blocks (s : string) : list string :=
  match s with
  | EmptyString => []
  | String c t =>
      match blocks t with
      | String d b :: bs =>
          if Bool.eqb (Str.is_space c) (Str.is_space d)
          then String c (String d b) :: bs
          else String c EmptyString :: String d b :: bs
      | _ => [String c EmptyString]
      end
  end.

(** The blocks put back together. *)
Definition join (l : list string) : string := foldr String.append "" l.

(** A whitespace block of two characters or more becomes one space. *)
Definition collapse_long (b : string) : string :=
  if Str.starts_with_space b && (2 <=? String.length b)%nat then " " else b.

(** Every whitespace block, of any length, becomes one space. *)
Definition collapse_any (b : string) : string :=
  if Str.starts_with_space b then " " else b.

Definition normalize_name_blocks (name : string) : string :=
  Str.lower (join (collapse_long <$> blocks name)).

(** The normalization as the specification words it: every run of
    whitespace collapsed to a single space, then lowercased. *)
Definition normalize_name_spec (name : string) : string :=
  Str.lower (join (collapse_any <$> blocks name)).

(** ** Frame and dependency conditions on computations *)

(** [m] leaves the observation [f] of the state as it was, whether it
    returns or raises. *)
Definition preserves {A V} (f : state → V) (m : M A) : Prop :=
  ∀ s, f (m s).2 = f s.

(** The result of [m] (value or exception) is a function of the
    observation [v] of the state it starts in. *)
Definition reads {A V} (v : state → V) (m : M A) : Prop :=
  ∀ s1 s2, v s1 = v s2 → (m s1).1 = (m s2).1.

(** ** What the person cache serves *)

(** The cache [get_person] answers from in state [s]: the cache itself,
    or the Person table when the cache is empty. *)
Definition served_persons (s : state) : gmap Z Person :=
  if decide (PERSON_CACHE s = ∅) then load_persons (db_person s) else PERSON_CACHE s.

(** ** A small instance: environment, database and documents *)

Module Demo.

Definition env (unique : bool) (files : gmap string file) : Env :=
  {| BillType_by_xml_code := λ v,
       match v with
       | Some "hr" => Ok 3 | Some "s" => Ok 2 | Some "h" => Ok 1
       | _ => Raise ValueError
       end;
     BillStatus_by_xml_code := λ v,
       match v with
       | Some "INTRODUCED" => Ok 1 | Some "REFERRED" => Ok 2
       | _ => Raise ValueError
       end;
     parse_datetime := PyInt.int;
     repr_datetime := λ d, "datetime";
     get_primary_bill_title := λ b ts,
       match ts with
       | (_, _, Some t) :: _ => t
       | _ => ""
       end;
     get_role_at_date := λ p d, Some (person_pk p);
     billterm_unique := unique;
     disk := files |}.

Definition empty_state : state :=
  mkState [] [] [] ∅ ∅ ∅ ∅ ∅ [] ∅ ∅ ∅ ∅ ∅ [] [] [] [].

(** Two people and one committee, no bill yet. *)
Definition s0 : state :=
  mkState [mkPerson 400001 "A"; mkPerson 400002 "B"] [mkCommittee 1 "HSAG"]
          [] ∅ ∅ ∅ ∅ ∅ [] ∅ ∅ ∅ ∅ ∅ [] [] [] [].

Definition bill_doc (number : string) (rest : list node) : node :=
  Node "bill" [("type", "hr"); ("session", "111"); ("number", number)] None
       ([ Node "introduced" [("datetime", "100")] None [];
          Node "state" [("datetime", "101")] (Some "INTRODUCED") [];
          Node "titles" [] None
            [Node "title" [("type", "official"); ("as", "introduced")]
                  (Some "An Act") []] ] ++ rest).

(** H.R. 1 of the 111th congress, sponsored by 400001, cosponsored by
    400002, related to itself. *)
Definition hr1 : node :=
  bill_doc "1"
    [ Node "sponsor" [("id", "400001")] None [];
      Node "cosponsors" [] None
        [Node "cosponsor" [("id", "400002"); ("joined", "102")] None []];
      Node "relatedbills" [] None
        [Node "bill" [("session", "111"); ("type", "hr"); ("number", "1");
                      ("relation", "identical")] None [];
         Node "bill" [("session", "111"); ("type", "hr"); ("number", "7");
                      ("relation", "unknown")] None []] ].

Definition no_sponsor : node := bill_doc "2" [].
Definition sponsor_without_id : node := bill_doc "2" [Node "sponsor" [] None []].
Definition unknown_sponsor : node :=
  bill_doc "2" [Node "sponsor" [("id", "999")] None []].

(** The first cosponsor is not in the Person table, the second is. *)
Definition unknown_cosponsor : node :=
  bill_doc "2"
    [ Node "cosponsors" [] None
        [Node "cosponsor" [("id", "999"); ("joined", "102")] None [];
         Node "cosponsor" [("id", "400002"); ("joined", "102")] None []] ].

End Demo.

(** ** Documents that miss a required part *)

(** One of the three required attributes, or the [introduced] or the
    [state] element, is missing. *)
Definition missing_required (n : node) : Prop :=
  node_get n "type" = None ∨ node_get n "session" = None
  ∨ node_get n "number" = None
  ∨ xpath1 "introduced" n = [] ∨ xpath1 "state" n = [].

Module DemoFiles.

(** A bill document without its [number] attribute. *)
Definition bad : node :=
  Node "bill" [("type", "hr"); ("session", "111")] None
       [ Node "introduced" [("datetime", "100")] None [];
         Node "state" [("datetime", "101")] (Some "INTRODUCED") [] ].

Definition bad_path : string := "data/us/111/bills/hr2.xml".
Definition good_path : string := "data/us/111/bills/hr1.xml".

Definition files : gmap string file :=
  {[ bad_path := mkFile 7 (Some bad); good_path := mkFile 8 (Some Demo.hr1) ]}.

Definition opts : options := mkOptions false false false false None None.

End DemoFiles.

Module DemoSkip.

(** The change tracker already holds the current signature of the
    file of H.R. 1, but the Bill table is empty. *)
Definition tracked : state :=
  set_db_file {[ DemoFiles.good_path := 8 ]} Demo.s0.

End DemoSkip.

(** ** Related bills, read off the document *)

Section Related.

Context (E : Env).

(** The Bill a [relatedbills/bill] reference points to among [bills]:
    its id, [None] when no Bill has the key of the reference, an
    exception when the reference cannot be read or the key is held by
    several rows. *)
Definition related_target (bills : gmap Z Bill) (subnode : node) : result (option Z) :=
  result_bind (BillType_by_xml_code E (node_get subnode "type")) (λ t,
  result_bind (PyInt.int (node_get subnode "number")) (λ n,
  result_bind (match node_get subnode "session" with
               | None => Ok None
               | Some c => result_bind (PyInt.int (Some c)) (λ c, Ok (Some c))
               end) (λ c,
  match mk_key c (Some t) (Some n) with
  | None => Ok None
  | Some k =>
      match bills_with_key k bills with
      | [] => Ok None
      | [(i, _)] => Ok (Some i)
      | _ => Raise MultipleObjectsReturned
      end
  end))).

(** The row a reference of the document of bill [b] gives rise to. *)
Definition related_row (bills : gmap Z Bill) (b : Z) (subnode : node) : option RelatedBill :=
  match related_target bills subnode with
  | Ok (Some rid) => Some (mkRelatedBill b rid (node_get subnode "relation"))
  | _ => None
  end.

(** A reference that can be read: a known type code, a number, and a
    session that is a number when it is there. *)
Definition readable_ref (subnode : node) : Prop :=
  (∃ t, BillType_by_xml_code E (node_get subnode "type") = Ok t)
  ∧ (∃ n, PyInt.int (node_get subnode "number") = Ok n)
  ∧ (node_get subnode "session" = None
     ∨ ∃ c, PyInt.int (node_get subnode "session") = Ok c).

End Related.

(** The natural key is unique in the Bill table. *)
Definition key_unique (bills : gmap Z Bill) : Prop :=
  ∀ k, (length (bills_with_key k bills) ≤ 1)%nat.

(** ** The natural key of a document *)

(** The key the three required attributes of a bill element stand for. *)
Definition document_key (E : Env) (n : node) : option bill_key :=
  match PyInt.int (node_get n "session"),
        BillType_by_xml_code E (node_get n "type"),
        PyInt.int (node_get n "number") with
  | Ok c, Ok t, Ok nn => Some (c, t, nn)
  | _, _, _ => None
  end.

(** What [process] does once the bill is saved. *)
Definition relations (E : Env) (obj : Bill) (n : node) : M Bill :=
  process_committees obj n ;;
  process_terms obj n (congress obj) ;;
  process_consponsors E obj n ;;
  process_relatedbills E obj n ;;
  mret obj.

(** [m] returns no other value than [a]. *)
Definition returns_only {A} (a : A) (m : M A) : Prop :=
  ∀ s o, (m s).1 = Ok o → o = a.

Module DemoUpsert.

(** H.R. 1 of the 111th congress is in the table under id 5, with an old
    title; bill 5 has one related-bill row, bill 6 another. *)
Definition old_hr1 : Bill :=
  set_title "Old title" (set_number (Some 1) (set_bill_type (Some 3)
    (set_congress (Some 111) (set_bill_id (Some 5) Bill_new)))).

Definition present : state :=
  set_db_relatedbill [mkRelatedBill 5 9 (Some "stale"); mkRelatedBill 6 5 (Some "other")]
    (set_db_bill {[ 5 := old_hr1 ]} Demo.s0).

End DemoUpsert.

(** ** The index of the existing terms *)

(** The dictionary the snapshot loop of [main] builds from the rows of
    the BillTerm table: keyed by the term type and the name as stored, a
    later row replacing an earlier one of the same key. *)
Definition term_index (rows : list BillTerm) : gmap (TermType * string) BillTerm :=
  foldl (λ m t, match term_type t with
                | Some k => <[(k, term_name t) := t]> m
                | None => m
                end) ∅ rows.

Module DemoTerms.

Definition liv (tops : list node) : file := mkFile 1 (Some (Node "liv" [] None tops)).

Definition top (name : string) : node := Node "top-term" [("value", name)] None [].

(** The two files of the new scheme each define the top term
    Agriculture; the old scheme is empty. *)
Definition twice : gmap string file :=
  {[ "data/us/liv.xml" := liv [];
     "data/us/liv111.xml" := liv [top "Agriculture"];
     "data/us/crsnet.xml" := liv [top "Agriculture"] ]}.

(** The new scheme defines the top term agriculture, in lower case. *)
Definition lower_case : gmap string file :=
  {[ "data/us/liv.xml" := liv [];
     "data/us/liv111.xml" := liv [top "agriculture"];
     "data/us/crsnet.xml" := liv [] ]}.

Definition agriculture : BillTerm := mkBillTerm (Some 1) (Some TermType_new) "Agriculture".

(** The table holds the term Agriculture of the new scheme. *)
Definition stored : state := set_db_billterm [agriculture] Demo.empty_state.

End DemoTerms.

(** ** What the term cache serves *)

(** The cache [get_term] answers from in state [s]. *)
Definition served_terms (s : state) : gmap (option TermType * string) BillTerm :=
  if decide (TERM_CACHE s = ∅) then load_terms (db_billterm s) (TERM_CACHE s)
  else TERM_CACHE s.

(** What [process] reads and never changes: the reference tables and
    what the two caches serve. *)
Definition inputs (s : state) :=
  (db_person s, db_committee s, db_billterm s, served_persons s, served_terms s).

(** ** Cosponsors, read off the document *)

(** What one cosponsor reference contributes: the person, the two dates
    and the role the person held when joining. *)
Definition cos_entry : Type := Z * datetime * option datetime * option Z.

(** The entry of a [cosponsors/cosponsor] reference, against the persons
    [pc] the cache serves. *)
Definition cosponsor_entry (E : Env) (pc : gmap Z Person) (subnode : node) : result cos_entry :=
  result_bind (PyInt.int (node_get subnode "id")) (λ pk,
  match pc !! pk with
  | None => Raise KeyError
  | Some p =>
      result_bind (parse_datetime E (node_get subnode "joined")) (λ j,
      result_bind (if truthy (node_get subnode "withdrawn")
                   then result_bind (parse_datetime E (node_get subnode "withdrawn"))
                          (λ d, Ok (Some d))
                   else Ok None) (λ w,
      Ok (person_pk p, j, w, get_role_at_date E p (Some j))))
  end).

(** The Cosponsor table after the entry [e] of the bill [b]: the dates
    are those of the entry; the role is the one the row had, or the
    entry's when the row is new. *)
Definition cosponsor_step (b : Z) (K : gmap (Z * Z) Cosponsor) (e : cos_entry) :
    gmap (Z * Z) Cosponsor :=
  let '(pk, j, w, r0) := e in
  <[(pk, b) := mkCosponsor j w (default r0 (role <$> K !! (pk, b)))]> K.

(** What a sequence of entries does to one row of the table. *)
Definition cosponsor_chain (b : Z) (key : Z * Z) (o : option Cosponsor) (es : list cos_entry) :
    option Cosponsor :=
  foldl (λ o e, let '(pk, j, w, r0) := e in
                if decide ((pk, b) = key)
                then Some (mkCosponsor j w (default r0 (role <$> o)))
                else o) o es.

(** A function on a row that is the identity, or sets the two dates to
    fixed values and keeps the role of a row that was there. *)
Definition dates_only (G : option Cosponsor → option Cosponsor) : Prop :=
  (∀ o, G o = o)
  ∨ ∃ j w, ∀ o, ∃ r, G o = Some (mkCosponsor j w r) ∧ ∀ x, o = Some x → r = role x.

(** [m] can be run again: from a state [t] that reads like the state [s]
    it was run from and whose tables are those the run it was part of
    left, it ends as it ended and leaves the tables alone. *)
Definition runs_again {A} (m : M A) : Prop :=
  ∀ s r s1 t,
    m s = (r, s1) →
    inputs t = inputs s → db_bill t = db_bill s → persisted t = persisted s1 →
    ∃ t', m t = (r, t') ∧ persisted t' = persisted t.

(** * Further properties of the parser *)

(** ** The shape of a normalized name *)

(** No two whitespace characters stand next to each other. *)
Fixpoint no_ws_pair (s : string) : bool :=
  match s with
  | String c t => negb (Str.is_space c && Str.starts_with_space t) && no_ws_pair t
  | EmptyString => true
  end.

(** Every character satisfies [p]. *)
Fixpoint all_chars (p : ascii → bool) (s : string) : bool :=
  match s with
  | String c t => p c && all_chars p t
  | EmptyString => true
  end.

(** ** The reference caches *)

Definition set_db_person (v : list Person) (s : state) : state :=
  mkState v (db_committee s) (db_billterm s) (billterm_subterms s) (db_bill s) (bill_committees s) (bill_terms s) (db_cosponsor s) (db_relatedbill s) (db_file s) (PERSON_CACHE s) (TERM_CACHE s) (existing_terms s) (terms_parsed s) (seen_bill_ids s) (log s) (indexed s) (events s).

(** [TermType.new if congress >= 111 else TermType.old]; in Python 2
    [None] compares below every integer. *)
Definition term_scheme (congress : option Z) : TermType :=
  if (match congress with Some c => (111 <=? c)%Z | None => false end)
  then TermType_new else TermType_old.

Module DemoCaches.

Definition terms : state :=
  set_db_billterm
    [ mkBillTerm (Some 1) (Some TermType_old) "Armed  Forces";
      mkBillTerm (Some 2) (Some TermType_new) "Armed Forces" ]
    Demo.s0.

Definition warm : state :=
  set_PERSON_CACHE {[ 400001 := mkPerson 400001 "A" ]} Demo.s0.

End DemoCaches.

(** ** Committees and subject terms, read off the document *)

(** The [code] attributes of the [committees/committee] elements. *)
Definition committee_codes (n : node) : list (option string) :=
  (λ subnode, node_get subnode "code") <$> xpath2 "committees" "committee" n.

(** The codes the loop looks up: every one but the empty string. *)
Definition looked_up (codes : list (option string)) : list (option string) :=
  filter (λ c, c ≠ Some "") codes.

(** No two committees share a code. *)
Definition codes_unique (l : list Committee) : Prop :=
  ∀ code, (length (committees_with_code code l) ≤ 1)%nat.

Definition committees_found (l : list Committee) (codes : list (option string)) :
    list Committee :=
  looked_up codes ≫= (λ c, committees_with_code c l).

Definition committee_errors (l : list Committee) (codes : list (option string)) :
    list (level * string) :=
  (λ c, (ERROR, "Could not find committee " ++ fmt c))
    <$> filter (λ c, committees_with_code c l = []) (looked_up codes).

(** The [name] attributes of the [subjects/term] elements. *)
Definition term_names (n : node) : list (option string) :=
  (λ subnode, node_get subnode "name") <$> xpath2 "subjects" "term" n.

Definition term_of (cache : gmap (option TermType * string) BillTerm)
    (congress : option Z) (name : string) : option BillTerm :=
  cache !! (Some (term_scheme congress), normalize_name name).

Definition terms_found (cache : gmap (option TermType * string) BillTerm)
    (congress : option Z) (names : list string) : list BillTerm :=
  omap (term_of cache congress) names.

Definition term_errors (cache : gmap (option TermType * string) BillTerm)
    (congress : option Z) (names : list string) : list (level * string) :=
  (λ nm, (ERROR, "Could not find term [name: " ++ nm ++ "]"))
    <$> filter (λ nm, term_of cache congress nm = None) names.

Module DemoRelations.

(** A document that names the committee HSAG, an unknown committee, a
    blank code, and two subject terms of which one is known. *)
Definition doc : node :=
  Demo.bill_doc "1"
    [ Node "committees" [] None
        [ Node "committee" [("code", "HSAG")] None [];
          Node "committee" [("code", "XXXX")] None [];
          Node "committee" [("code", "")] None [] ];
      Node "subjects" [] None
        [ Node "term" [("name", "armed  FORCES")] None [];
          Node "term" [("name", "Taxation")] None [] ] ].

(** The same subjects, with a term element that has no name. *)
Definition nameless : node :=
  Demo.bill_doc "1"
    [ Node "subjects" [] None
        [ Node "term" [("name", "armed  FORCES")] None [];
          Node "term" [] None [] ] ].

Definition saved : Bill := set_bill_id (Some 1) Bill_new.

Definition state0 : state :=
  set_bill_terms {[ 1 := {[ 7 ]} ]}
    (set_bill_committees {[ 1 := {[ 9 ]} ]} DemoCaches.terms).

End DemoRelations.

(** The person of a cosponsor entry. *)
Definition entry_person (e : cos_entry) : Z := e.1.1.1.

Module DemoBroken.

(** The second related-bill reference has no number. *)
Definition doc : node :=
  Demo.bill_doc "1"
    [ Node "relatedbills" [] None
        [Node "bill" [("session", "111"); ("type", "hr"); ("number", "1");
                      ("relation", "identical")] None [];
         Node "bill" [("session", "111"); ("type", "hr")] None [];
         Node "bill" [("session", "111"); ("type", "hr"); ("number", "1");
                      ("relation", "rule")] None []] ].

End DemoBroken.

(** ** The loop over the bill files *)

(** The tables the parser reconciles, the change records apart. *)
Definition tables (s : state) :=
  (db_person s, db_committee s, db_billterm s, billterm_subterms s,
   db_bill s, bill_committees s, bill_terms s, db_cosponsor s, db_relatedbill s).

(** The signature to record for the text of a bill: that of the file at
    [path], when the file exists and the change records do not hold its
    signature. *)
Definition changed_text (E : Env) (s : state) (path : string) : option Z :=
  match disk E !! path with
  | Some f =>
      if bool_decide (db_file s !! path = Some (file_signature f)) then None
      else Some (file_signature f)
  | None => None
  end.

Module DemoRun.

Definition text_path : string := "data/us/bills.text/111/hr/hr1.txt".

(** The file of H.R. 1 and the text of the bill. *)
Definition files : gmap string file :=
  {[ DemoFiles.good_path := mkFile 8 (Some Demo.hr1);
     text_path := mkFile 3 None ]}.

(** H.R. 1 is in the Bill table under id 5 and its file is recorded as
    processed; the text of the bill is not. *)
Definition tracked : state :=
  set_db_file {[ DemoFiles.good_path := 8 ]} DemoUpsert.present.

End DemoRun.

(** One entry of [major_actions], read off an action element. *)
Definition action_of (E : Env) (axn : node) : result (string * Z * string) :=
  result_bind (parse_datetime E (Some (attr_string axn "datetime"))) (λ d,
  result_bind (BillStatus_by_xml_code E (Some (attr_string axn "state"))) (λ st,
  Ok (repr_datetime E d, st, child_text axn))).

(** The entries of the action elements, up to the first that cannot be
    read. *)
Fixpoint actions_of (E : Env) (l : list node) : result (list (string * Z * string)) :=
  match l with
  | [] => Ok []
  | axn :: l =>
      result_bind (action_of E axn) (λ a,
      result_bind (actions_of E l) (λ rs, Ok (a :: rs)))
  end.

Module DemoActions.

Definition tree (state_code : string) : node :=
  Demo.bill_doc "1"
    [ Node "actions" [] None
        [ Node "action" [("datetime", "100"); ("state", state_code)] None
            [Node "text" [] (Some "Introduced in House") []];
          Node "action" [("datetime", "101")] None [] ] ].

(** A document with one major action, and the same with a status code
    that is not in the table. *)
Definition good : node := tree "INTRODUCED".
Definition bad : node := tree "NO SUCH STATUS".

Definition not_a_bill : node := Node "amendment" [] None [].

Definition files : gmap string file :=
  {[ DemoFiles.good_path := mkFile 8 (Some good);
     DemoFiles.bad_path := mkFile 9 (Some not_a_bill) ]}.

End DemoActions.

(** ** The bill terms *)

(** The term of a node of name [nm] in the scheme [k], before it is
    saved. *)
Definition fresh_term (k : TermType) (nm : string) : BillTerm :=
  mkBillTerm None (Some k) nm.

(** The same term once inserted in the table [rows]. *)
Definition inserted_term (rows : list BillTerm) (k : TermType) (nm : string) : BillTerm :=
  mkBillTerm (Some (next_term_id rows)) (Some k) nm.

(** The save of a new term of that scheme and name is refused. *)
Definition save_refused (E : Env) (rows : list BillTerm) (k : TermType) (nm : string) : bool :=
  billterm_unique E && clashes (fresh_term k nm) rows.

(** The term whose name the debug message of the subterm branch shows:
    the subterm in the loop of the old scheme, the parent term in the
    loop of the new scheme. *)
Definition created_message (k : TermType) (parent : BillTerm) (nm : string) : level * string :=
  (DEBUG, "Created " ++ match k with
                        | TermType_old => nm
                        | TermType_new => term_name parent
                        end).

(** A row that the pruning loop deletes: a term of the snapshot with
    the id of the row was not seen. *)
Definition doomed (ex : gmap (TermType * string) BillTerm) (parsed : gset (option Z))
    (r : BillTerm) : Prop :=
  Exists (λ v, term_id v = term_id r ∧ term_id v ∉ parsed) (map_to_list ex).*2.

Global Instance doomed_dec ex parsed r : Decision (doomed ex parsed r).
Proof. unfold doomed. apply _. Defined.

Module DemoSubterms.

Definition parent : BillTerm := mkBillTerm (Some 1) (Some TermType_new) "Agriculture".

Definition subnode : node := Node "term" [("value", "Farms")] None [].

(** The parent term is stored; nothing is indexed yet. *)
Definition fresh : state := set_db_billterm [parent] Demo.empty_state.

(** A term Farms of the new scheme is stored but not in the index of
    the existing terms. *)
Definition unindexed : state :=
  set_db_billterm [parent; mkBillTerm (Some 2) (Some TermType_new) "Farms"]
    Demo.empty_state.

(** Three stored terms, all in the index; only the second was seen. *)
Definition to_prune : state :=
  set_terms_parsed {[ Some 2 ]}
    (set_existing_terms
       (term_index [ mkBillTerm (Some 1) (Some TermType_old) "A";
                     mkBillTerm (Some 2) (Some TermType_old) "B" ])
       (set_db_billterm
          [ mkBillTerm (Some 1) (Some TermType_old) "A";
            mkBillTerm (Some 2) (Some TermType_old) "B";
            mkBillTerm (Some 3) (Some TermType_new) "C" ]
          Demo.empty_state)).

End DemoSubterms.

(** ** The names of the bill files *)

(** The name of the file of a bill under a directory [pre]:
    [<pre>/<congress>/bills/<type><number>.xml]. *)
Definition bill_file_name (pre congress type number : string) : string :=
  pre ++ "/" ++ congress ++ "/bills/" ++ type ++ number ++ ".xml".

(** A string of one character or more, all of them in the class [p]. *)
Definition run_of (p : ascii → bool) (s : string) : Prop :=
  s ≠ "" ∧ all_chars p s = true.

(** The first character of [s], when there is one, is not in [p]. *)
Definition stops (p : ascii → bool) (s : string) : Prop :=
  match s with
  | String c _ => p c = false
  | EmptyString => True
  end.

(** The file [fname] is skipped in state [s], for the Bill of id [i]:
    its signature is on record, its name gives the key of that Bill, and
    the text of the bill is not a changed file, or indexing or events
    are disabled. *)
Definition skipped_for (E : Env) (opts : options) (s : state) (fname : string) (i : Z) : Prop :=
  ∃ f g c t nn b,
    disk E !! fname = Some f ∧ db_file s !! fname = Some (file_signature f)
    ∧ BillPath.search fname = Some g
    ∧ BillType_by_xml_code E (Some g.1.2) = Ok t
    ∧ PyInt.int (Some g.1.1) = Ok c ∧ PyInt.int (Some g.2) = Ok nn
    ∧ bills_with_key (c, t, nn) (db_bill s) = [(i, b)]
    ∧ (if negb (disable_indexing opts) && negb (disable_events opts)
       then changed_text E s (textfile_of g) else None) = None.

(** ** Running a file again *)

(** [m] does not depend on the part of the state that [g] overwrites,
    and does not write it: running [m] after [g] is running [m] and then
    [g]. *)
Definition commutes {A} (g : state → state) (m : M A) : Prop :=
  ∀ s, m (g s) = ((m s).1, g (m s).2).

(** The tables [process] reconciles around the Bill row: the reference
    tables and the relationship tables. *)
Definition relation_tables (s : state) :=
  (db_person s, db_committee s, db_billterm s, billterm_subterms s,
   bill_committees s, bill_terms s, db_cosponsor s, db_relatedbill s).

(** * Properties *)

(** ** Name normalization *)

Lemma append_String (c : ascii) (a b : string) :
  String c a +:+ b = String c (a +:+ b).
Proof. reflexivity. Qed.

Lemma append_empty (b : string) : "" +:+ b = b.
Proof. reflexivity. Qed.

Lemma join_cons (b : string) (bs : list string) : join (b :: bs) = b +:+ join bs.
Proof. reflexivity. Qed.

Lemma sub_ws_runs_in_run (s : string) :
  Str.starts_with_space s = false → sub_ws_runs true s = sub_ws_runs false s.
Proof.
  destruct s as [|c t]; simpl; [done|].
  by intros ->.
Qed.

Lemma blocks_unfold (c : ascii) (t : string) :
  blocks (String c t) =
  match blocks t with
  | String d b :: bs =>
      if Bool.eqb (Str.is_space c) (Str.is_space d)
      then String c (String d b) :: bs
      else String c EmptyString :: String d b :: bs
  | _ => [String c EmptyString]
  end.
Proof. reflexivity. Qed.

Lemma blocks_head (c : ascii) (t : string) :
  ∃ b bs, blocks (String c t) = String c b :: bs.
Proof.
  rewrite blocks_unfold. destruct (blocks t) as [|[|d b] bs]; eauto.
  destruct (Bool.eqb _ _); eauto.
Qed.

Lemma blocks_same (c d : ascii) (t : string) :
  Str.is_space c = Str.is_space d →
  ∃ b bs, blocks (String d t) = String d b :: bs
          ∧ blocks (String c (String d t)) = String c (String d b) :: bs.
Proof.
  intros Hcd. destruct (blocks_head d t) as (b & bs & H).
  exists b, bs. split; [done|].
  rewrite (blocks_unfold c), H, Hcd. by rewrite Bool.eqb_reflx.
Qed.

Lemma blocks_diff (c d : ascii) (t : string) :
  Str.is_space c ≠ Str.is_space d →
  blocks (String c (String d t)) = String c EmptyString :: blocks (String d t).
Proof.
  intros Hcd. destruct (blocks_head d t) as (b & bs & H).
  rewrite (blocks_unfold c), H.
  destruct (Bool.eqb _ _) eqn:Heq; [|done].
  by apply Bool.eqb_prop in Heq.
Qed.

(** The blocks of a string are a partition of it. *)
Lemma blocks_join (s : string) : join (blocks s) = s.
Proof.
  induction s as [|c [|d t] IH]; [done..|].
  destruct (decide (Str.is_space c = Str.is_space d)) as [Hcd|Hcd].
  - destruct (blocks_same c d t Hcd) as (b & bs & H1 & H2).
    rewrite H2. rewrite H1 in IH. rewrite join_cons, !append_String in *.
    by rewrite IH.
  - rewrite (blocks_diff c d t Hcd). by rewrite join_cons, IH.
Qed.

Lemma collapse_long_other (c : ascii) (b : string) :
  Str.is_space c = false → collapse_long (String c b) = String c b.
Proof. intros Hc. unfold collapse_long. cbn. by rewrite Hc. Qed.

Lemma collapse_long_single (c : ascii) :
  collapse_long (String c "") = String c "".
Proof. unfold collapse_long. cbn. by rewrite andb_false_r. Qed.

Lemma collapse_long_run (c d : ascii) (b : string) :
  Str.is_space c = true → collapse_long (String c (String d b)) = " ".
Proof. intros Hc. unfold collapse_long. cbn. by rewrite Hc. Qed.

(** How the collapsed blocks of a string grow at its head. *)
Lemma collapsed_other (c : ascii) (t : string) :
  Str.is_space c = false →
  join (collapse_long <$> blocks (String c t))
  = String c (join (collapse_long <$> blocks t)).
Proof.
  intros Hc. destruct t as [|d t].
  { cbn. by rewrite collapse_long_other. }
  destruct (decide (Str.is_space c = Str.is_space d)) as [Hcd|Hcd].
  - destruct (blocks_same c d t Hcd) as (b & bs & -> & ->).
    rewrite !fmap_cons, !join_cons, !collapse_long_other by congruence.
    by rewrite !append_String.
  - rewrite (blocks_diff c d t Hcd).
    by rewrite fmap_cons, join_cons, collapse_long_single.
Qed.

Lemma collapsed_lone (c : ascii) (t : string) :
  Str.is_space c = true → Str.starts_with_space t = false →
  join (collapse_long <$> blocks (String c t))
  = String c (join (collapse_long <$> blocks t)).
Proof.
  intros Hc Ht. destruct t as [|d t].
  { cbn. by rewrite collapse_long_single. }
  cbn in Ht. rewrite (blocks_diff c d t) by congruence.
  by rewrite fmap_cons, join_cons, collapse_long_single.
Qed.

Lemma collapsed_run (c d : ascii) (t : string) :
  Str.is_space c = true → Str.is_space d = true →
  Str.starts_with_space t = true →
  join (collapse_long <$> blocks (String c (String d t)))
  = join (collapse_long <$> blocks (String d t)).
Proof.
  intros Hc Hd Ht. destruct t as [|e t]; [done|]. cbn in Ht.
  destruct (blocks_same d e t) as (b & bs & H1 & H2); [congruence|].
  rewrite (blocks_unfold c), H2, Hc, Hd. cbn [Bool.eqb].
  by rewrite !fmap_cons, !join_cons, !collapse_long_run.
Qed.

Lemma collapsed_pair (c d : ascii) (t : string) :
  Str.is_space c = true → Str.is_space d = true →
  Str.starts_with_space t = false →
  join (collapse_long <$> blocks (String c (String d t)))
  = String " " (join (collapse_long <$> blocks t)).
Proof.
  intros Hc Hd Ht.
  destruct (blocks_same c d t) as (b & bs & H1 & H2); [congruence|].
  rewrite H2, fmap_cons, join_cons, collapse_long_run by done.
  destruct t as [|e t].
  - cbn in H1. by simplify_eq.
  - cbn in Ht. rewrite (blocks_diff d e t) in H1 by congruence.
    by simplify_eq.
Qed.

(** The scanner of [re.sub] and the block reading agree: outside a
    match the scanner yields the collapsed blocks, and on the second
    character of a run it has emitted the space the run collapses to. *)
Lemma sub_ws_runs_blocks (s : string) :
  sub_ws_runs false s = join (collapse_long <$> blocks s)
  ∧ ∀ c, Str.is_space c = true → Str.starts_with_space s = true →
      join (collapse_long <$> blocks (String c s)) = String " " (sub_ws_runs true s).
Proof.
  induction s as [|d t [IHP IHR]]; [done|].
  split.
  - cbn [sub_ws_runs].
    destruct (Str.is_space d) eqn:Hd.
    + destruct (Str.starts_with_space t) eqn:Ht.
      * by rewrite (IHR d Hd).
      * by rewrite IHP, collapsed_lone.
    + by rewrite IHP, collapsed_other.
  - intros c Hc Hd. cbn in Hd. cbn [sub_ws_runs]. rewrite Hd.
    destruct (Str.starts_with_space t) eqn:Ht.
    + rewrite collapsed_run by done. by apply IHR.
    + rewrite collapsed_pair by done.
      by rewrite (sub_ws_runs_in_run _ Ht), IHP.
Qed.

(** C8 (as amended): [normalize_name] replaces every maximal run of two
    or more whitespace characters by a single space, leaves a lone
    whitespace character as it is, and lowercases the result. *)
Theorem normalize_name_collapses_long_runs (name : string) :
  normalize_name name = normalize_name_blocks name.
Proof.
  unfold normalize_name, normalize_name_blocks.
  by rewrite (proj1 (sub_ws_runs_blocks name)).
Qed.

(** C8 (as stated) fails on a lone tab: it is kept, where collapsing
    every run of whitespace would turn it into a space. *)
Lemma normalize_name_keeps_lone_tab :
  normalize_name (String "a" (String Str.tab "B"))
    = String "a" (String Str.tab "b")
  ∧ normalize_name_spec (String "a" (String Str.tab "B")) = "a b"
  ∧ normalize_name (String "a" (String Str.tab "B"))
    ≠ normalize_name_spec (String "a" (String Str.tab "B")).
Proof. split; [|split]; [reflexivity..|discriminate]. Qed.

(** ** The monad *)

Lemma bind_unfold {A B} (m : M A) (k : A → M B) (s : state) :
  (m ≫= k) s = match m s with
               | (Ok a, s') => k a s'
               | (Raise e, s') => (Raise e, s')
               end.
Proof. reflexivity. Qed.

Lemma ret_unfold {A} (a : A) (s : state) : (mret a : M A) s = (Ok a, s).
Proof. reflexivity. Qed.

Lemma raise_unfold {A} (e : exn) (s : state) : (raise e : M A) s = (Raise e, s).
Proof. reflexivity. Qed.

Lemma lift_unfold {A} (r : result A) (s : state) : lift r s = (r, s).
Proof. reflexivity. Qed.

Lemma gets_unfold {A} (f : state → A) (s : state) : gets f s = (Ok (f s), s).
Proof. reflexivity. Qed.

Lemma modify_unfold (f : state → state) (s : state) : modify f s = (Ok tt, f s).
Proof. reflexivity. Qed.

(** Running the head of a computation. *)
Ltac msimp :=
  repeat first
    [ rewrite bind_unfold | rewrite ret_unfold | rewrite raise_unfold
    | rewrite lift_unfold | rewrite gets_unfold | rewrite modify_unfold ].

Tactic Notation "msimp" "in" hyp(H) :=
  repeat first
    [ rewrite bind_unfold in H | rewrite ret_unfold in H | rewrite raise_unfold in H
    | rewrite lift_unfold in H | rewrite gets_unfold in H | rewrite modify_unfold in H ].

Lemma bind_ok {A B} (m : M A) (k : A → M B) (s s' : state) (a : A) :
  m s = (Ok a, s') → (m ≫= k) s = k a s'.
Proof. intros H. by rewrite bind_unfold, H. Qed.

Lemma bind_raise {A B} (m : M A) (k : A → M B) (s s' : state) (e : exn) :
  m s = (Raise e, s') → (m ≫= k) s = (Raise e, s').
Proof. intros H. by rewrite bind_unfold, H. Qed.

Lemma bind_assoc {A B C} (m : M A) (k1 : A → M B) (k2 : B → M C) (s : state) :
  ((m ≫= k1) ≫= k2) s = (m ≫= λ a, k1 a ≫= k2) s.
Proof. rewrite !bind_unfold. by destruct (m s) as [[a|e] s']. Qed.

Lemma for_each_app {A} (l1 l2 : list A) (body : A → M unit) (s : state) :
  for_each (l1 ++ l2) body s = (for_each l1 body ;; for_each l2 body) s.
Proof.
  revert s. induction l1 as [|x l1 IH]; intros s; cbn [for_each app].
  - done.
  - rewrite !bind_unfold. destruct (body x s) as [[[]|e] s']; [|done].
    rewrite IH. by rewrite bind_unfold.
Qed.

Section Preserves.

Context {V : Type} (f : state → V).

Lemma preserves_ret {A} (a : A) : preserves f (mret a : M A).
Proof. by intros s. Qed.

Lemma preserves_raise {A} (e : exn) : preserves f (raise e : M A).
Proof. by intros s. Qed.

Lemma preserves_lift {A} (r : result A) : preserves f (lift r).
Proof. by intros s. Qed.

Lemma preserves_gets {A} (g : state → A) : preserves f (gets g).
Proof. by intros s. Qed.

Lemma preserves_modify (g : state → state) :
  (∀ s, f (g s) = f s) → preserves f (modify g).
Proof. intros H s. apply H. Qed.

Lemma preserves_bind {A B} (m : M A) (k : A → M B) :
  preserves f m → (∀ a, preserves f (k a)) → preserves f (m ≫= k).
Proof.
  intros Hm Hk s. rewrite bind_unfold. specialize (Hm s).
  destruct (m s) as [[a|e] s']; cbn in *; [|done].
  by rewrite Hk.
Qed.

Lemma preserves_try {A} (m : M A) (h : exn → option (M A)) :
  preserves f m → (∀ e k, h e = Some k → preserves f k) →
  preserves f (try_except m h).
Proof.
  intros Hm Hh s. unfold try_except. specialize (Hm s).
  destruct (m s) as [[a|e] s']; cbn in *; [done|].
  destruct (h e) as [k|] eqn:He; [|done].
  by rewrite (Hh _ _ He).
Qed.

Lemma preserves_for_each {A} (l : list A) (body : A → M unit) :
  (∀ x, preserves f (body x)) → preserves f (for_each l body).
Proof.
  intros Hb. induction l as [|x l IH]; cbn [for_each].
  - apply preserves_ret.
  - apply preserves_bind; [apply Hb | done].
Qed.

Lemma preserves_collect {A B} (l : list A) (body : A → M (option B)) :
  (∀ x, preserves f (body x)) → preserves f (collect l body).
Proof.
  intros Hb. induction l as [|x l IH]; cbn [collect].
  - apply preserves_ret.
  - apply preserves_bind; [apply Hb | intros r].
    apply preserves_bind; [done | intros rs]. apply preserves_ret.
Qed.

Lemma preserves_index0 {A} (l : list A) : preserves f (index0 l).
Proof. destruct l; [apply preserves_raise | apply preserves_ret]. Qed.

End Preserves.

Lemma preserves_run {A V} (f : state → V) (m : M A) (s s' : state) (r : result A) :
  preserves f m → m s = (r, s') → f s' = f s.
Proof. intros Hp Hm. specialize (Hp s). by rewrite Hm in Hp. Qed.

(** Frame conditions are proved by walking the computation. *)
Ltac preserves_step :=
  lazymatch goal with
  | |- preserves _ (mbind _ _) => apply preserves_bind; [|intros ?]
  | |- preserves _ (mret _) => apply preserves_ret
  | |- preserves _ (raise _) => apply preserves_raise
  | |- preserves _ (lift _) => apply preserves_lift
  | |- preserves _ (gets _) => apply preserves_gets
  | |- preserves _ (modify _) => apply preserves_modify; intros ?; reflexivity
  | |- preserves _ (index0 _) => apply preserves_index0
  | |- preserves _ (try_except _ _) =>
      apply preserves_try; [|intros [] ? ?; simplify_eq]
  | |- preserves _ (for_each _ _) => apply preserves_for_each; intros ?
  | |- preserves _ (collect _ _) => apply preserves_collect; intros ?
  | |- preserves _ (match ?x with _ => _ end) => destruct x
  | |- preserves _ (let _ := _ in _) => lazy zeta
  end.

Ltac solve_preserves := repeat preserves_step.

Section Frames.

Context (E : Env).

Lemma get_person_frame {V} (f : state → V) pk :
  (∀ c s, f (set_PERSON_CACHE c s) = f s) → preserves f (get_person pk).
Proof.
  intros Hf. unfold get_person. solve_preserves.
  apply preserves_modify. intros s. apply Hf.
Qed.

Lemma get_term_frame {V} (f : state → V) name c :
  (∀ c s, f (set_TERM_CACHE c s) = f s) → preserves f (get_term name c).
Proof.
  intros Hf. unfold get_term. solve_preserves.
  apply preserves_modify. intros s. apply Hf.
Qed.

Lemma Bill_objects_get_frame {V} (f : state → V) k :
  preserves f (Bill_objects_get k).
Proof. unfold Bill_objects_get. solve_preserves. Qed.

Lemma adopt_id_frame {V} (f : state → V) obj : preserves f (adopt_id obj).
Proof. unfold adopt_id. solve_preserves. all: apply Bill_objects_get_frame. Qed.

Lemma Bill_save_frame {V} (f : state → V) obj :
  (∀ c s, f (set_db_bill c s) = f s) → preserves f (Bill_save obj).
Proof.
  intros Hf. unfold Bill_save. solve_preserves.
  all: apply preserves_modify; intros s; apply Hf.
Qed.

(** The field extractors change the state through [get_person] only. *)
Lemma process_fields_frame_gen {V} (f : state → V) obj n :
  (∀ pk, preserves f (get_person pk)) →
  preserves f (process_fields E obj n).
Proof.
  intros Hf.
  unfold process_fields, Processor_process, process_titles,
    process_introduced, process_sponsor, process_current_status.
  solve_preserves. all: apply Hf.
Qed.

Lemma process_fields_frame {V} (f : state → V) obj n :
  (∀ c s, f (set_PERSON_CACHE c s) = f s) →
  preserves f (process_fields E obj n).
Proof. intros Hf. apply process_fields_frame_gen. intros pk. by apply get_person_frame. Qed.

Lemma find_committees_frame {V} (f : state → V) n :
  (∀ c s, f (set_log c s) = f s) → preserves f (find_committees n).
Proof.
  intros Hl. unfold find_committees, Committee_objects_get, log_msg.
  solve_preserves. all: apply preserves_modify; intros s; apply Hl.
Qed.

Lemma process_committees_frame {V} (f : state → V) obj n :
  (∀ c s, f (set_log c s) = f s) →
  (∀ c s, f (set_bill_committees c s) = f s) →
  preserves f (process_committees obj n).
Proof.
  intros Hl Hf. unfold process_committees, pk_of.
  apply preserves_bind; [by apply find_committees_frame|intros comlist].
  solve_preserves. all: apply preserves_modify; intros s; apply Hf.
Qed.

Lemma find_terms_frame_gen {V} (f : state → V) n c :
  (∀ c s, f (set_log c s) = f s) →
  (∀ nm c, preserves f (get_term nm c)) →
  preserves f (find_terms n c).
Proof.
  intros Hl Hc. unfold find_terms, log_msg.
  solve_preserves.
  all: first [apply Hc | apply preserves_modify; intros s; apply Hl].
Qed.

Lemma process_terms_frame_gen {V} (f : state → V) obj n c :
  (∀ c s, f (set_log c s) = f s) →
  (∀ nm c, preserves f (get_term nm c)) →
  (∀ c s, f (set_bill_terms c s) = f s) →
  preserves f (process_terms obj n c).
Proof.
  intros Hl Hc Hf. unfold process_terms, pk_of.
  apply preserves_bind; [by apply find_terms_frame_gen|intros termlist].
  solve_preserves. all: apply preserves_modify; intros s; apply Hf.
Qed.

Lemma process_terms_frame {V} (f : state → V) obj n c :
  (∀ c s, f (set_log c s) = f s) →
  (∀ c s, f (set_TERM_CACHE c s) = f s) →
  (∀ c s, f (set_bill_terms c s) = f s) →
  preserves f (process_terms obj n c).
Proof.
  intros Hl Hc Hf. apply process_terms_frame_gen; [done| |done].
  intros nm c'. by apply get_term_frame.
Qed.

Lemma cosponsor_node_frame_gen {V} (f : state → V) obj subnode :
  (∀ pk, preserves f (get_person pk)) →
  (∀ c s, f (set_db_cosponsor c s) = f s) →
  preserves f (cosponsor_node E obj subnode).
Proof.
  intros Hc Hf.
  unfold cosponsor_node, Cosponsor_get_or_create, Cosponsor_save, pk_of.
  solve_preserves.
  all: first [apply Hc | apply preserves_modify; intros s; apply Hf].
Qed.

Lemma process_consponsors_frame_gen {V} (f : state → V) obj n :
  (∀ pk, preserves f (get_person pk)) →
  (∀ c s, f (set_db_cosponsor c s) = f s) →
  preserves f (process_consponsors E obj n).
Proof.
  intros Hc Hf. unfold process_consponsors.
  apply preserves_for_each. intros subnode. by apply cosponsor_node_frame_gen.
Qed.

Lemma process_consponsors_frame {V} (f : state → V) obj n :
  (∀ c s, f (set_PERSON_CACHE c s) = f s) →
  (∀ c s, f (set_db_cosponsor c s) = f s) →
  preserves f (process_consponsors E obj n).
Proof.
  intros Hc Hf. apply process_consponsors_frame_gen; [|done].
  intros pk. by apply get_person_frame.
Qed.

Lemma related_lookup_frame {V} (f : state → V) subnode :
  preserves f (related_lookup E subnode).
Proof.
  unfold related_lookup. solve_preserves.
  all: apply Bill_objects_get_frame.
Qed.

Lemma process_relatedbills_frame {V} (f : state → V) obj n :
  (∀ c s, f (set_db_relatedbill c s) = f s) →
  preserves f (process_relatedbills E obj n).
Proof.
  intros Hf.
  unfold process_relatedbills, relatedbill_node, pk_of.
  solve_preserves.
  all: first [apply related_lookup_frame
             | apply preserves_modify; intros s; apply Hf].
Qed.

End Frames.

Ltac munfold :=
  unfold mbind, mret, M_bind, M_ret, raise, lift, gets, modify, try_except, index0 in *.

(** ** Sponsor and cosponsors *)

Section Sponsor.

Context (E : Env).

Lemma get_person_None (s : state) : get_person None s = (Raise TypeError, s).
Proof. reflexivity. Qed.

Lemma get_person_served (v : option string) (pk : Z) (s : state) :
  PyInt.int v = Ok pk →
  get_person v s =
    (match served_persons s !! pk with
     | Some p => Ok p
     | None => Raise KeyError
     end,
     set_PERSON_CACHE (served_persons s) s).
Proof.
  intros Hpk. unfold get_person, served_persons. munfold. rewrite Hpk.
  destruct (decide (PERSON_CACHE s = ∅)) as [Hc|Hc]; cbn.
  - destruct (load_persons (db_person s) !! pk); reflexivity.
  - destruct s; cbn in *. destruct (PERSON_CACHE0 !! pk); reflexivity.
Qed.

(** C3 (as amended): a document without a sponsor node, or whose
    sponsor node has no id attribute, gets a null sponsor and no error,
    the state being left as it was; an id that is a number the person
    cache does not hold raises a [KeyError] out of [process_sponsor]. *)
Theorem process_sponsor_absent_or_unknown (obj : Bill) (n : node) (s : state) :
  (xpath1 "sponsor" n = [] →
     process_sponsor E obj n s = (Ok (set_sponsor None obj), s))
  ∧ (∀ elem rest, xpath1 "sponsor" n = elem :: rest →
       node_get elem "id" = None →
       process_sponsor E obj n s = (Ok (set_sponsor None obj), s))
  ∧ (∀ elem rest pk, xpath1 "sponsor" n = elem :: rest →
       PyInt.int (node_get elem "id") = Ok pk →
       served_persons s !! pk = None →
       (process_sponsor E obj n s).1 = Raise KeyError).
Proof.
  split; [|split].
  - intros Hn. unfold process_sponsor. munfold. by rewrite Hn.
  - intros elem rest Hn Hid. unfold process_sponsor.
    unfold try_except. rewrite bind_unfold, Hn. cbn [index0 mret M_ret].
    rewrite bind_unfold, Hid, get_person_None. done.
  - intros elem rest pk Hn Hid Hpk. unfold process_sponsor.
    unfold try_except. rewrite bind_unfold, Hn. cbn [index0 mret M_ret].
    rewrite bind_unfold, (get_person_served _ pk) by done.
    by rewrite Hpk.
Qed.

End Sponsor.

Lemma process_sponsor_absent_or_unknown_witness :
  process_sponsor (Demo.env true ∅) Bill_new Demo.no_sponsor Demo.s0
    = (Ok (set_sponsor None Bill_new), Demo.s0)
  ∧ process_sponsor (Demo.env true ∅) Bill_new Demo.sponsor_without_id Demo.s0
    = (Ok (set_sponsor None Bill_new), Demo.s0)
  ∧ (process_sponsor (Demo.env true ∅) Bill_new Demo.unknown_sponsor Demo.s0).1
    = Raise KeyError.
Proof.
  pose proof (process_sponsor_absent_or_unknown (Demo.env true ∅) Bill_new) as H.
  split; [|split].
  - apply (proj1 (H Demo.no_sponsor Demo.s0)). reflexivity.
  - apply (proj1 (proj2 (H Demo.sponsor_without_id Demo.s0)) (Node "sponsor" [] None []) []);
      reflexivity.
  - apply (proj2 (proj2 (H Demo.unknown_sponsor Demo.s0))
             (Node "sponsor" [("id", "999")] None []) [] 999);
      [reflexivity | reflexivity | vm_compute; reflexivity].
Defined.

(** C3 (as stated) fails when the id does not resolve: sponsor 999 is
    not a person, and the document fails with a [KeyError]. *)
Lemma process_sponsor_unknown_id_raises :
  xpath1 "sponsor" Demo.unknown_sponsor = [Node "sponsor" [("id", "999")] None []]
  ∧ served_persons Demo.s0 !! 999 = None
  ∧ (process_sponsor (Demo.env true ∅) Bill_new Demo.unknown_sponsor Demo.s0).1
    = Raise KeyError
  ∧ (process (Demo.env true ∅) Bill_new Demo.unknown_sponsor Demo.s0).1
    = Raise KeyError.
Proof. repeat split; vm_compute; reflexivity. Qed.

(** C4 fails on the code: the except clause of the cosponsor loop names
    [IndexError], while the lookup in the person cache raises
    [KeyError].  The first cosponsor of this document is not a known
    person: instead of being dropped it stops the loop and the document,
    and the second cosponsor, a known person, is never recorded. *)
Lemma process_consponsors_unknown_id_raises :
  let r := process_consponsors (Demo.env true ∅) (set_bill_id (Some 1) Bill_new)
             Demo.unknown_cosponsor Demo.s0 in
  r.1 = Raise KeyError ∧ map_to_list (db_cosponsor r.2) = []
  ∧ (process (Demo.env true ∅) Bill_new Demo.unknown_cosponsor Demo.s0).1
    = Raise KeyError.
Proof. repeat split; vm_compute; reflexivity. Qed.

(** ** A document that misses a required part *)

Section Containment.

Context (E : Env).

Lemma process_fields_missing (obj : Bill) (n : node) (s : state) :
  missing_required n → ∃ e, (process_fields E obj n s).1 = Raise e.
Proof.
  intros Hmiss. unfold process_fields.
  rewrite bind_unfold.
  destruct (Processor_process (BillProcessor_schema E) obj n s)
    as [[obj1|e] s1] eqn:H1; [|by eexists].
  assert (∀ a, first_missing (BillProcessor_schema E) n = Some a → False) as Hfm.
  { intros a Ha. unfold Processor_process in H1. rewrite Ha in H1. done. }
  cbn in Hfm.
  destruct Hmiss as [Hm|[Hm|[Hm|Hmiss]]].
  1-3: exfalso; rewrite ?Hm in Hfm; cbn in Hfm;
       repeat (match type of Hfm with
               | context [bool_decide ?P] => destruct (bool_decide P)
               end; cbn in Hfm); by eapply Hfm.
  rewrite bind_unfold. unfold process_titles at 1. cbn [mret M_ret].
  rewrite bind_unfold.
  destruct (process_introduced E _ n s1) as [[obj2|e] s2] eqn:H2; [|by eexists].
  rewrite bind_unfold.
  destruct (process_sponsor E obj2 n s2) as [[obj3|e] s3] eqn:H3; [|by eexists].
  destruct Hmiss as [Hm|Hm].
  - unfold process_introduced in H2. rewrite bind_unfold, Hm in H2. done.
  - unfold process_current_status. rewrite bind_unfold, Hm. by eexists.
Qed.

Lemma process_missing (obj : Bill) (n : node) (s : state) :
  missing_required n →
  ∃ e s', process E obj n s = (Raise e, s') ∧ persisted s' = persisted s.
Proof.
  intros Hmiss. destruct (process_fields_missing obj n s Hmiss) as [e He].
  pose proof (process_fields_frame E persisted obj n (λ _ _, eq_refl) s) as Hp.
  unfold process. rewrite bind_unfold.
  destruct (process_fields E obj n s) as [r s'].
  cbn in He, Hp. subst r. eauto.
Qed.

Lemma skip_path_forced (opts : options) (fname : string) (f : file) (s : state) :
  disk E !! fname = Some f →
  force opts = true ∨ db_file s !! fname ≠ Some (file_signature f) →
  skip_path E opts fname s = (Ok false, s).
Proof.
  intros Hf Hc. unfold skip_path, File_is_changed. rewrite Hf.
  munfold. destruct Hc as [->|Hc].
  - by rewrite andb_false_r.
  - by rewrite bool_decide_eq_false_2.
Qed.

Lemma main_bill_file_missing (opts : options) (fname : string) (f : file)
    (n : node) (s : state) :
  disk E !! fname = Some f → file_root f = Some n → node_tag n = "bill" →
  missing_required n →
  force opts = true ∨ db_file s !! fname ≠ Some (file_signature f) →
  ∃ e s', main_bill_file E opts fname s = (Raise e, s')
          ∧ persisted s' = persisted s.
Proof.
  intros Hf Hroot Htag Hmiss Hc.
  unfold main_bill_file.
  rewrite (bind_ok _ _ _ _ _ (skip_path_forced opts fname f s Hf Hc)).
  unfold parse_file, etree_parse. rewrite Hf, Hroot.
  destruct (process_missing Bill_new n s Hmiss) as (e & s' & Hp & Hs').
  exists e, s'. split; [|done].
  rewrite bind_unfold. cbn [mret M_ret]. lazy zeta.
  unfold xpath_root. rewrite decide_True by done.
  cbn [for_each]. rewrite !bind_unfold.
  unfold reconcile_node at 1. cbn [negb]. by rewrite bind_unfold, Hp.
Qed.

(** C5 (as amended): a bill document that misses a required attribute
    or element raises an error when it is processed; nothing catches it
    in the loop over the files, so the run stops there: the persisted
    state, change records included, is the one the files before it
    left, and no later file is processed. *)
Theorem missing_required_stops_run (opts : options) (before rest : list string)
    (fname : string) (f : file) (n : node) (s0 s : state) :
  main_bills E opts before s0 = (Ok tt, s) →
  disk E !! fname = Some f → file_root f = Some n → node_tag n = "bill" →
  missing_required n →
  force opts = true ∨ db_file s !! fname ≠ Some (file_signature f) →
  ∃ e s', main_bills E opts (before ++ fname :: rest) s0 = (Raise e, s')
          ∧ persisted s' = persisted s.
Proof.
  intros Hbefore Hf Hroot Htag Hmiss Hc.
  destruct (main_bill_file_missing opts fname f n s Hf Hroot Htag Hmiss Hc)
    as (e & s' & Hp & Hs').
  exists e, s'. split; [|done].
  unfold main_bills in *. rewrite bind_unfold in *.
  cbn [modify] in *. rewrite for_each_app, bind_unfold, Hbefore.
  cbn [for_each]. by rewrite bind_unfold, Hp.
Qed.

End Containment.

Lemma missing_required_stops_run_witness :
  ∃ e s', main_bills (Demo.env true DemoFiles.files) DemoFiles.opts
            ([] ++ DemoFiles.bad_path :: [DemoFiles.good_path]) Demo.s0
          = (Raise e, s')
          ∧ persisted s' = persisted (set_seen_bill_ids [] Demo.s0).
Proof.
  apply (missing_required_stops_run (Demo.env true DemoFiles.files) DemoFiles.opts
           [] [DemoFiles.good_path] DemoFiles.bad_path
           (mkFile 7 (Some DemoFiles.bad)) DemoFiles.bad).
  - reflexivity.
  - vm_compute; reflexivity.
  - reflexivity.
  - reflexivity.
  - right; right; left. reflexivity.
  - right. vm_compute. discriminate.
Defined.

(** C5 (as stated) fails: after the document without a number the run
    does not go on to the next file.  Alone, the second file is
    reconciled into one bill; behind the first it never is. *)
Lemma run_stops_at_bad_document :
  let E := Demo.env true DemoFiles.files in
  let both := main_bills E DemoFiles.opts
                [DemoFiles.bad_path; DemoFiles.good_path] Demo.s0 in
  let alone := main_bills E DemoFiles.opts [DemoFiles.good_path] Demo.s0 in
  both.1 = Raise (InvalidNode "number")
  ∧ map_to_list (db_bill both.2) = []
  ∧ alone.1 = Ok tt
  ∧ (map_to_list (db_bill alone.2)).*1 = [1].
Proof. repeat split; vm_compute; reflexivity. Qed.

(** ** The skip path *)

Section SkipPath.

Context (E : Env).

Lemma File_is_changed_eq (path : string) (f : file) (s : state) :
  disk E !! path = Some f →
  File_is_changed E path s
  = (Ok (negb (bool_decide (db_file s !! path = Some (file_signature f)))), s).
Proof. intros Hf. unfold File_is_changed. by rewrite Hf. Qed.

Lemma get_by_path_absent (fname : string) (g : string * string * string)
    (c t nn : Z) (s : state) :
  BillPath.search fname = Some g →
  BillType_by_xml_code E (Some g.1.2) = Ok t →
  PyInt.int (Some g.1.1) = Ok c → PyInt.int (Some g.2) = Ok nn →
  bills_with_key (c, t, nn) (db_bill s) = [] →
  get_by_path E (BillPath.search fname) s = (Raise Bill_DoesNotExist, s).
Proof.
  intros -> Ht Hc Hn Hb. unfold get_by_path, groups, Bill_objects_get.
  munfold. rewrite Ht, Hc, Hn. cbn. by rewrite Hb.
Qed.

(** With the file unchanged and the run not forced, but no Bill of the
    key read off the path, the skip path does nothing and tells the loop
    to go on with the file. *)
Lemma skip_path_absent (opts : options) (fname : string) (f : file)
    (g : string * string * string) (c t nn : Z) (s : state) :
  disk E !! fname = Some f →
  db_file s !! fname = Some (file_signature f) →
  force opts = false →
  BillPath.search fname = Some g →
  BillType_by_xml_code E (Some g.1.2) = Ok t →
  PyInt.int (Some g.1.1) = Ok c → PyInt.int (Some g.2) = Ok nn →
  bills_with_key (c, t, nn) (db_bill s) = [] →
  skip_path E opts fname s = (Ok false, s).
Proof.
  intros Hf Hsig Hforce Hg Ht Hc Hn Hb.
  unfold skip_path.
  rewrite (bind_ok _ _ _ _ _ (File_is_changed_eq fname f s Hf)).
  rewrite Hforce, bool_decide_eq_true_2 by done. cbn [negb andb].
  unfold try_except. rewrite bind_unfold.
  by rewrite (get_by_path_absent fname g c t nn s).
Qed.

End SkipPath.

(** ** Related bills *)

Section RelatedBills.

Context (E : Env).

Lemma related_target_readable (bills : gmap Z Bill) (subnode : node) :
  readable_ref E subnode → key_unique bills →
  ∃ o, related_target E bills subnode = Ok o.
Proof.
  intros ([t Ht] & [n Hn] & Hc) Hu. unfold related_target.
  rewrite Ht, Hn. cbn [result_bind].
  assert (∃ c, match node_get subnode "session" with
               | None => Ok None
               | Some c => result_bind (PyInt.int (Some c)) (λ c, Ok (Some c))
               end = Ok c) as [c ->].
  { destruct Hc as [->|[c Hc]]; [by eexists|].
    destruct (node_get subnode "session"); [|done].
    rewrite Hc. by eexists. }
  cbn [result_bind]. destruct (mk_key c (Some t) (Some n)) as [k|]; [|by eexists].
  specialize (Hu k).
  destruct (bills_with_key k bills) as [|[i b] [|? ?]]; cbn in Hu; [by eexists..|lia].
Qed.

(** One turn of the loop over the references. *)
Lemma related_step (b : Z) (subnode : node) (s : state) :
  relatedbill_node E b subnode s
  = match related_target E (db_bill s) subnode with
    | Ok o =>
        (Ok tt,
         match o with
         | Some rid =>
             set_db_relatedbill
               (db_relatedbill s ++ [mkRelatedBill b rid (node_get subnode "relation")]) s
         | None => s
         end)
    | Raise Bill_DoesNotExist => (Ok tt, s)
    | Raise e => (Raise e, s)
    end.
Proof.
  unfold relatedbill_node, related_lookup, related_target, Bill_objects_get. munfold.
  destruct (BillType_by_xml_code E (node_get subnode "type")) as [t|e]; [|by destruct e].
  destruct (PyInt.int (node_get subnode "number")) as [n|e]; [|by destruct e].
  cbn [result_bind].
  destruct (node_get subnode "session") as [c|]; cbn.
  - destruct (PyInt.of_string c) as [c'|]; cbn; [|done].
    destruct (bills_with_key (c', t, n) (db_bill s)) as [|[i b'] [|? ?]]; done.
  - done.
Qed.

Lemma related_loop (b : Z) (refs : list node) (s : state) :
  (∀ subnode, subnode ∈ refs → ∃ o, related_target E (db_bill s) subnode = Ok o) →
  for_each refs (relatedbill_node E b) s
  = (Ok tt, set_db_relatedbill
              (db_relatedbill s ++ omap (related_row E (db_bill s) b) refs) s).
Proof.
  revert s. induction refs as [|x refs IH]; intros s Hok.
  - cbn. rewrite app_nil_r. by destruct s.
  - cbn [for_each]. rewrite bind_unfold, related_step.
    destruct (Hok x) as [o Ho]; [by left|].
    assert (omap (related_row E (db_bill s) b) (x :: refs)
            = (match o with
               | Some rid => [mkRelatedBill b rid (node_get x "relation")]
               | None => []
               end ++ omap (related_row E (db_bill s) b) refs)%list) as ->.
    { cbn. unfold related_row at 1. rewrite Ho. by destruct o. }
    rewrite Ho. destruct o as [rid|].
    + rewrite IH.
      * unfold set_db_relatedbill. cbn. by rewrite <- app_assoc.
      * intros y Hy. apply Hok. by right.
    + rewrite IH; [done|]. intros y Hy. apply Hok. by right.
Qed.

(** C9 (as amended): when every related-bill reference of the document
    can be read and the natural key is unique in the Bill table,
    reconciling the related bills of a saved bill deletes every
    RelatedBill row of that bill, then appends one row for each
    reference of the document whose target Bill exists, in document
    order; a reference without target Bill adds nothing, and nothing is
    logged: apart from the RelatedBill table the state is as it was. *)
Theorem process_relatedbills_full_replace (obj : Bill) (n : node) (b : Z) (s : state) :
  bill_id obj = Some b →
  (∀ subnode, subnode ∈ xpath2 "relatedbills" "bill" n → readable_ref E subnode) →
  key_unique (db_bill s) →
  process_relatedbills E obj n s
  = (Ok tt,
     set_db_relatedbill
       (filter (λ r, rb_bill r ≠ b) (db_relatedbill s)
          ++ omap (related_row E (db_bill s) b) (xpath2 "relatedbills" "bill" n)) s).
Proof.
  intros Hid Hrefs Hu. unfold process_relatedbills. rewrite Hid.
  rewrite bind_unfold. cbn [pk_of mret M_ret]. rewrite bind_unfold. cbn [modify].
  rewrite related_loop.
  - by destruct s.
  - intros subnode Hin. cbn. apply related_target_readable; auto.
Qed.

End RelatedBills.

Lemma key_unique_singleton (i : Z) (b : Bill) : key_unique {[ i := b ]}.
Proof.
  intros k. unfold bills_with_key. rewrite map_filter_singleton.
  case_decide.
  - by rewrite map_to_list_singleton.
  - rewrite map_to_list_empty. cbn. lia.
Qed.

Lemma process_relatedbills_full_replace_witness :
  process_relatedbills (Demo.env true ∅) (set_bill_id (Some 5) Bill_new)
    Demo.hr1 DemoUpsert.present
  = (Ok tt,
     set_db_relatedbill
       [mkRelatedBill 6 5 (Some "other"); mkRelatedBill 5 5 (Some "identical")]
       DemoUpsert.present).
Proof.
  rewrite (process_relatedbills_full_replace (Demo.env true ∅) _ Demo.hr1 5).
  - vm_compute. reflexivity.
  - reflexivity.
  - intros subnode Hin. vm_compute in Hin.
    apply list_elem_of_In in Hin. cbn in Hin.
    destruct Hin as [<-|[<-|[]]].
    + split; [by exists 3|]. split; [by exists 1|]. right. by exists 111.
    + split; [by exists 3|]. split; [by exists 7|]. right. by exists 111.
  - apply key_unique_singleton.
Defined.

(** C9 (as stated) fails on a reference that cannot be read.  The
    second of the three references of this document has no number: the
    rows of the bill are deleted, the first reference is recorded, the
    second raises a [TypeError] that the loop does not catch, and the
    third, whose target exists, is never recorded.  The rows of the bill
    are then not the resolvable references of the document. *)
Lemma process_relatedbills_unreadable_reference :
  let E := Demo.env true ∅ in
  let bill := set_bill_id (Some 5) Bill_new in
  let r := process_relatedbills E bill DemoBroken.doc DemoUpsert.present in
  db_relatedbill DemoUpsert.present
    = [mkRelatedBill 5 9 (Some "stale"); mkRelatedBill 6 5 (Some "other")]
  ∧ omap (related_row E (db_bill DemoUpsert.present) 5)
         (xpath2 "relatedbills" "bill" DemoBroken.doc)
    = [mkRelatedBill 5 5 (Some "identical"); mkRelatedBill 5 5 (Some "rule")]
  ∧ r.1 = Raise TypeError
  ∧ db_relatedbill r.2
    = [mkRelatedBill 6 5 (Some "other"); mkRelatedBill 5 5 (Some "identical")]
  ∧ (process E Bill_new DemoBroken.doc DemoUpsert.present).1 = Raise TypeError
  ∧ db_relatedbill (process E Bill_new DemoBroken.doc DemoUpsert.present).2
    = [mkRelatedBill 6 5 (Some "other"); mkRelatedBill 5 5 (Some "identical")].
Proof. repeat split; vm_compute; reflexivity. Qed.

(** ** The upsert *)

Section Upsert.

Context (E : Env).

Lemma bills_with_key_singleton (k : bill_key) (bills : gmap Z Bill) (i : Z) (b : Bill) :
  bills_with_key k bills = [(i, b)] →
  filter (λ kv, natural_key kv.2 = Some k) bills = {[ i := b ]}.
Proof.
  intros H. apply map_to_list_inj. unfold bills_with_key in H.
  by rewrite H, map_to_list_singleton.
Qed.

Lemma bills_with_key_lookup (k : bill_key) (bills : gmap Z Bill) (i : Z) (b : Bill) :
  bills_with_key k bills = [(i, b)] →
  bills !! i = Some b ∧ natural_key b = Some k.
Proof.
  intros H%bills_with_key_singleton.
  assert (filter (λ kv : Z * Bill, natural_key kv.2 = Some k) bills !! i = Some b) as Hl.
  { by rewrite H, lookup_singleton_eq. }
  by apply map_lookup_filter_Some in Hl.
Qed.

(** Writing a row of key [k] over the only row of key [k] leaves it the
    only one. *)
Lemma bills_with_key_update (k : bill_key) (bills : gmap Z Bill) (i : Z) (b obj : Bill) :
  bills_with_key k bills = [(i, b)] → natural_key obj = Some k →
  bills_with_key k (<[i := obj]> bills) = [(i, obj)].
Proof.
  intros H%bills_with_key_singleton Hk. unfold bills_with_key.
  rewrite map_filter_insert_True by done.
  by rewrite H, insert_singleton_eq, map_to_list_singleton.
Qed.

(** The id an insert picks is not in the table. *)
Lemma next_id_fresh {A} (m : gmap Z A) : m !! next_id m = None.
Proof.
  destruct (m !! next_id m) as [x|] eqn:Hx; [|done]. exfalso.
  apply elem_of_map_to_list in Hx.
  assert (∀ l : list (Z * A), (next_id m, x) ∈ l → (next_id m ≤ foldr Z.max 0 l.*1)%Z) as Hmax.
  { induction l as [|[j y] l IH]; intros Hin.
    - by apply elem_of_nil in Hin.
    - cbn. apply elem_of_cons in Hin as [[= <- <-]|Hin]; [lia|].
      specialize (IH Hin). lia. }
  specialize (Hmax _ Hx). unfold next_id in Hmax at 1. lia.
Qed.

Lemma natural_key_set_bill_id (v : option Z) (b : Bill) :
  natural_key (set_bill_id v b) = natural_key b.
Proof. reflexivity. Qed.

Lemma Bill_objects_get_found (k : bill_key) (i : Z) (b : Bill) (s : state) :
  bills_with_key k (db_bill s) = [(i, b)] →
  Bill_objects_get (Some k) s = (Ok (set_bill_id (Some i) b), s).
Proof. intros H. unfold Bill_objects_get. munfold. by rewrite H. Qed.

Lemma Bill_objects_get_absent (k : bill_key) (s : state) :
  bills_with_key k (db_bill s) = [] →
  Bill_objects_get (Some k) s = (Raise Bill_DoesNotExist, s).
Proof. intros H. unfold Bill_objects_get. munfold. by rewrite H. Qed.

Lemma adopt_id_found (obj : Bill) (k : bill_key) (i : Z) (b : Bill) (s : state) :
  natural_key obj = Some k → bills_with_key k (db_bill s) = [(i, b)] →
  adopt_id obj s = (Ok (set_bill_id (Some i) obj), s).
Proof.
  intros Hk Hb. unfold adopt_id, try_except.
  change (mk_key (congress obj) (bill_type obj) (number obj)) with (natural_key obj).
  rewrite Hk, bind_unfold, (Bill_objects_get_found k i b) by done. done.
Qed.

Lemma adopt_id_absent (obj : Bill) (k : bill_key) (s : state) :
  natural_key obj = Some k → bills_with_key k (db_bill s) = [] →
  adopt_id obj s = (Ok obj, s).
Proof.
  intros Hk Hb. unfold adopt_id, try_except.
  change (mk_key (congress obj) (bill_type obj) (number obj)) with (natural_key obj).
  rewrite Hk, bind_unfold, (Bill_objects_get_absent k) by done. done.
Qed.

End Upsert.

(** Inversion of a successful bind. *)
Ltac bind_inv H :=
  rewrite bind_unfold in H;
  match type of H with
  | match ?X with _ => _ end = _ =>
      let a := fresh "a" in
      let s := fresh "s" in
      let Hm := fresh "Hm" in
      destruct X as [[a|?] s] eqn:Hm; [|discriminate H]
  end.

Section Fields.

Context (E : Env).

Lemma Processor_process_bill (obj0 obj : Bill) (n : node) (s s1 : state) :
  Processor_process (BillProcessor_schema E) obj0 n s = (Ok obj, s1) →
  s1 = s ∧ document_key E n = natural_key obj ∧ is_Some (natural_key obj)
  ∧ bill_id obj = bill_id obj0.
Proof.
  unfold Processor_process, document_key. cbn.
  destruct (node_get n "type") as [vt|]; cbn; [|done].
  destruct (node_get n "session") as [vs|]; cbn; [|done].
  destruct (node_get n "number") as [vn|]; cbn; [|done].
  unfold lift.
  destruct (BillType_by_xml_code E (Some vt)) as [t|]; cbn; [|done].
  destruct (PyInt.of_string vs) as [c|]; cbn; [|done].
  destruct (PyInt.of_string vn) as [nn|]; cbn; [|done].
  intros [= <- <-]. cbn. eauto.
Qed.

Lemma process_sponsor_keeps (obj0 obj : Bill) (n : node) (s s1 : state) :
  process_sponsor E obj0 n s = (Ok obj, s1) →
  natural_key obj = natural_key obj0 ∧ bill_id obj = bill_id obj0.
Proof.
  unfold process_sponsor, try_except. rewrite bind_unfold.
  destruct (index0 (xpath1 "sponsor" n) s) as [[elem|e] s2].
  - rewrite bind_unfold.
    destruct (get_person (node_get elem "id") s2) as [[p|e] s3].
    + by intros [= <- <-].
    + destruct e; try done; by intros [= <- <-].
  - destruct e; try done; by intros [= <- <-].
Qed.

Lemma process_fields_key (obj0 obj : Bill) (n : node) (s s1 : state) :
  process_fields E obj0 n s = (Ok obj, s1) →
  document_key E n = natural_key obj ∧ is_Some (natural_key obj)
  ∧ bill_id obj = bill_id obj0.
Proof.
  unfold process_fields. intros H.
  bind_inv H. apply Processor_process_bill in Hm as (-> & Hk & Hs & Hid).
  bind_inv H. unfold process_titles in Hm. injection Hm as <- <-.
  bind_inv H. unfold process_introduced in Hm.
  bind_inv Hm. bind_inv Hm. injection Hm as <- <-.
  bind_inv H. apply process_sponsor_keeps in Hm as [Hk3 Hid3].
  unfold process_current_status in H.
  bind_inv H. bind_inv H. bind_inv H. injection H as <- <-.
  change (natural_key a0 = natural_key a) in Hk3.
  change (bill_id a0 = bill_id a) in Hid3.
  change (document_key E n = natural_key a0 ∧ is_Some (natural_key a0)
          ∧ bill_id a0 = bill_id obj0).
  by rewrite Hk3, Hid3.
Qed.

End Fields.

Lemma returns_only_bind {A B} (b : B) (m : M A) (k : A → M B) :
  (∀ a, returns_only b (k a)) → returns_only b (m ≫= k).
Proof.
  intros Hk s o. rewrite bind_unfold.
  destruct (m s) as [[a|e] s']; [apply Hk | done].
Qed.

Lemma returns_only_ret {A} (a : A) : returns_only a (mret a : M A).
Proof. intros s o [= <-]. done. Qed.

Section Process.

Context (E : Env).

Lemma process_unfold (obj0 : Bill) (n : node) (s : state) :
  process E obj0 n s
  = (obj ← process_fields E obj0 n; obj ← adopt_id obj; obj ← Bill_save obj;
     relations E obj n) s.
Proof. reflexivity. Qed.

Lemma relations_frame {V} (f : state → V) (obj : Bill) (n : node) :
  (∀ c s, f (set_log c s) = f s) →
  (∀ c s, f (set_PERSON_CACHE c s) = f s) →
  (∀ c s, f (set_TERM_CACHE c s) = f s) →
  (∀ c s, f (set_bill_committees c s) = f s) →
  (∀ c s, f (set_bill_terms c s) = f s) →
  (∀ c s, f (set_db_cosponsor c s) = f s) →
  (∀ c s, f (set_db_relatedbill c s) = f s) →
  preserves f (relations E obj n).
Proof.
  intros. unfold relations.
  apply preserves_bind; [by apply process_committees_frame|intros _].
  apply preserves_bind; [by apply process_terms_frame|intros _].
  apply preserves_bind; [by apply process_consponsors_frame|intros _].
  apply preserves_bind; [by apply process_relatedbills_frame|intros _].
  apply preserves_ret.
Qed.

Lemma relations_returns (obj : Bill) (n : node) : returns_only obj (relations E obj n).
Proof.
  unfold relations. repeat (apply returns_only_bind; intros _).
  apply returns_only_ret.
Qed.

Lemma process_fields_raises (obj0 : Bill) (n : node) (s s1 : state) (e : exn) :
  process_fields E obj0 n s = (Raise e, s1) →
  process E obj0 n s = (Raise e, s1).
Proof. intros H. by rewrite process_unfold, (bind_raise _ _ _ _ _ H). Qed.

Lemma process_found (n : node) (s s1 : state) (obj b : Bill) (k : bill_key) (i : Z) :
  document_key E n = Some k →
  bills_with_key k (db_bill s) = [(i, b)] →
  process_fields E Bill_new n s = (Ok obj, s1) →
  process E Bill_new n s
  = relations E (set_bill_id (Some i) obj) n
      (set_db_bill (<[i := set_bill_id (Some i) obj]> (db_bill s1)) s1)
  ∧ db_bill s1 = db_bill s ∧ natural_key obj = Some k.
Proof.
  intros Hdoc Hrow Hfields.
  destruct (process_fields_key E _ _ _ _ _ Hfields) as (Hk & _ & _).
  rewrite Hdoc in Hk. symmetry in Hk.
  pose proof (preserves_run db_bill _ _ _ _
                (process_fields_frame E db_bill Bill_new n (λ _ _, eq_refl)) Hfields) as Hfr.
  split; [|done].
  rewrite process_unfold, (bind_ok _ _ _ _ _ Hfields).
  rewrite (bind_ok _ _ _ _ _ (adopt_id_found obj k i b s1 Hk ltac:(by rewrite Hfr))).
  reflexivity.
Qed.

(** C1: when the Bill table holds a row with the natural key of the
    document, reconciling the document creates no row: the ids of the
    table are the same afterwards and the row is still the only one of
    its key.  When the fields of the document can be extracted, the
    processed bill is written over that row under the id of that row, and
    the bill [process] returns carries that id. *)
Theorem process_updates_existing (n : node) (s : state) (b : Bill)
    (k : bill_key) (i : Z) :
  document_key E n = Some k →
  bills_with_key k (db_bill s) = [(i, b)] →
  let r := process E Bill_new n s in
  dom (db_bill r.2) = dom (db_bill s)
  ∧ (∃ b', bills_with_key k (db_bill r.2) = [(i, b')])
  ∧ (∀ obj s1, process_fields E Bill_new n s = (Ok obj, s1) →
       db_bill r.2 = <[i := set_bill_id (Some i) obj]> (db_bill s))
  ∧ (∀ o, r.1 = Ok o → bill_id o = Some i ∧ db_bill r.2 !! i = Some o).
Proof.
  intros Hdoc Hrow r.
  destruct (bills_with_key_lookup _ _ _ _ Hrow) as [Hi _].
  destruct (process_fields E Bill_new n s) as [[obj|e] s1] eqn:Hfields.
  - destruct (process_found n s s1 obj b k i Hdoc Hrow Hfields) as (Hr & Hfr & Hk).
    assert (db_bill r.2 = <[i := set_bill_id (Some i) obj]> (db_bill s)) as Hdb.
    { unfold r. rewrite Hr, <- Hfr.
      by rewrite (relations_frame db_bill _ n). }
    split; [|split; [|split]].
    + rewrite Hdb, dom_insert_L. apply elem_of_dom_2 in Hi.
      apply subseteq_union_1_L. by apply singleton_subseteq_l.
    + eexists. rewrite Hdb. by apply (bills_with_key_update k _ i b).
    + by intros obj' s1' [= <- <-].
    + intros o Ho. unfold r in Ho. rewrite Hr in Ho.
      apply relations_returns in Ho. subst o.
      split; [done|]. by rewrite Hdb, lookup_insert_eq.
  - pose proof (preserves_run db_bill _ _ _ _
                  (process_fields_frame E db_bill Bill_new n (λ _ _, eq_refl)) Hfields) as Hfr.
    unfold r. rewrite (process_fields_raises _ _ _ _ _ Hfields). cbn [fst snd].
    rewrite Hfr. split; [done|]. split; [by eexists|]. split; [done|done].
Qed.

End Process.

Lemma process_updates_existing_witness :
  let r := process (Demo.env true ∅) Bill_new Demo.hr1 DemoUpsert.present in
  dom (db_bill r.2) = dom (db_bill DemoUpsert.present)
  ∧ (∃ b', bills_with_key (111, 3, 1) (db_bill r.2) = [(5, b')])
  ∧ (∀ obj s1,
       process_fields (Demo.env true ∅) Bill_new Demo.hr1 DemoUpsert.present
       = (Ok obj, s1) →
       db_bill r.2 = <[5 := set_bill_id (Some 5) obj]> (db_bill DemoUpsert.present))
  ∧ (∀ o, r.1 = Ok o → bill_id o = Some 5 ∧ db_bill r.2 !! 5 = Some o).
Proof.
  apply (process_updates_existing (Demo.env true ∅) Demo.hr1 DemoUpsert.present
           DemoUpsert.old_hr1 (111, 3, 1) 5).
  - reflexivity.
  - vm_compute. reflexivity.
Defined.

(** ** The bill terms *)

(** C6 fails on the code: a top term created from the first file is put
    neither into [existing_terms] nor into [terms_parsed], as a created
    subterm is, so the second file defining it does not find it.  With
    the uniqueness constraint on the table its second save is refused and
    the run stops; without the constraint the term is stored twice. *)
Lemma main_terms_top_term_twice :
  let constrained := main_terms (Demo.env true DemoTerms.twice) Demo.empty_state in
  let free := main_terms (Demo.env false DemoTerms.twice) Demo.empty_state in
  constrained.1 = Raise IntegrityError
  ∧ free.1 = Ok tt
  ∧ db_billterm free.2
    = [mkBillTerm (Some 1) (Some TermType_new) "Agriculture";
       mkBillTerm (Some 2) (Some TermType_new) "Agriculture"].
Proof. repeat split; vm_compute; reflexivity. Qed.

(** C7 (as stated) fails: the stored term Agriculture and the node
    agriculture have the same normalized name and the same
    classification, yet the node does not reuse the stored term: a second
    term is created, and the stored one, not seen, is deleted. *)
Lemma main_terms_ignores_normalization :
  let r := main_terms (Demo.env true DemoTerms.lower_case) DemoTerms.stored in
  normalize_name "Agriculture" = normalize_name "agriculture"
  ∧ r.1 = Ok tt
  ∧ db_billterm r.2 = [mkBillTerm (Some 2) (Some TermType_new) "agriculture"].
Proof. repeat split; vm_compute; reflexivity. Qed.

Section Terms.

Context (E : Env).

Lemma term_index_snoc (rows : list BillTerm) (x : BillTerm) :
  term_index (rows ++ [x])
  = match term_type x with
    | Some k => <[(k, term_name x) := x]> (term_index rows)
    | None => term_index rows
    end.
Proof. unfold term_index. by rewrite foldl_app. Qed.

(** An entry of the index is a row of the table, filed under its own
    type and its own name. *)
Lemma term_index_lookup (rows : list BillTerm) (k : TermType) (nm : string) (t : BillTerm) :
  term_index rows !! (k, nm) = Some t →
  t ∈ rows ∧ term_type t = Some k ∧ term_name t = nm.
Proof.
  induction rows as [|x rows IH] using rev_ind; [done|].
  rewrite term_index_snoc. intros H.
  destruct (term_type x) as [kx|] eqn:Hx.
  - destruct (decide ((kx, term_name x) = (k, nm))) as [Heq|Hne].
    + rewrite Heq, lookup_insert_eq in H. simplify_eq.
      split; [|done]. apply elem_of_app. right. by left.
    + rewrite lookup_insert_ne in H by done.
      destruct (IH H) as (? & ? & ?). split; [|done].
      apply elem_of_app. by left.
  - destruct (IH H) as (? & ? & ?). split; [|done]. apply elem_of_app. by left.
Qed.

(** Every typed row of the table has an entry under its type and name. *)
Lemma term_index_member (rows : list BillTerm) (k : TermType) (t : BillTerm) :
  t ∈ rows → term_type t = Some k →
  is_Some (term_index rows !! (k, term_name t)).
Proof.
  induction rows as [|x rows IH] using rev_ind; [by intros ?%elem_of_nil|].
  rewrite term_index_snoc. intros Hin Ht.
  destruct (term_type x) as [kx|] eqn:Hx.
  - destruct (decide ((kx, term_name x) = (k, term_name t))) as [Heq|Hne].
    + rewrite Heq, lookup_insert_eq. by eexists.
    + rewrite lookup_insert_ne by done. apply IH; [|done].
      apply elem_of_app in Hin as [Hin|Hin]; [done|].
      apply list_elem_of_singleton in Hin. subst x. congruence.
  - apply IH; [|done].
    apply elem_of_app in Hin as [Hin|Hin]; [done|].
    apply list_elem_of_singleton in Hin. subst x. congruence.
Qed.

Lemma existing_store_loop (rows : list BillTerm) (s : state) :
  (∀ r, r ∈ rows → is_Some (term_type r)) →
  for_each rows existing_store s
  = (Ok tt,
     set_existing_terms
       (foldl (λ m t, match term_type t with
                      | Some k => <[(k, term_name t) := t]> m
                      | None => m
                      end) (existing_terms s) rows) s).
Proof.
  revert s. induction rows as [|x rows IH]; intros s Hty.
  - by destruct s.
  - cbn [for_each foldl]. rewrite bind_unfold.
    destruct (Hty x) as [k Hk]; [by left|].
    unfold existing_store at 1. rewrite Hk. cbn [int_term_type]. msimp.
    rewrite IH by (intros r Hr; apply Hty; by right). done.
Qed.

Lemma snapshot_terms_index (s : state) :
  (∀ r, r ∈ db_billterm s → is_Some (term_type r)) →
  snapshot_terms s
  = (Ok tt, set_existing_terms (term_index (db_billterm s)) (set_terms_parsed ∅ s)).
Proof.
  intros Hty. unfold snapshot_terms. munfold.
  rewrite (existing_store_loop (db_billterm s)) by done. done.
Qed.

Lemma top_term_reuse (k : TermType) (n : node) (nm : string) (t : BillTerm) (s : state) :
  node_get n "value" = Some nm →
  existing_terms s !! (k, nm) = Some t →
  top_term E k n s = (Ok t, set_terms_parsed ({[term_id t]} ∪ terms_parsed s) s).
Proof.
  intros Hn Hex. unfold top_term, TermProcessor_process, Processor_process.
  cbn. rewrite Hn. cbn. unfold existing_lookup. munfold. cbn.
  by rewrite Hex.
Qed.

Lemma subterm_reuse (k : TermType) (term : BillTerm) (p : Z) (subnode : node)
    (nm : string) (t : BillTerm) (j : Z) (s : state) :
  term_id term = Some p →
  node_get subnode "value" = Some nm →
  existing_terms s !! (k, nm) = Some t → term_id t = Some j →
  subterm_node E k term subnode s
  = (Ok tt,
     set_terms_parsed ({[Some j]} ∪ terms_parsed s)
       (set_billterm_subterms
          (<[p := {[j]} ∪ default ∅ (billterm_subterms s !! p)]> (billterm_subterms s)) s)).
Proof.
  intros Hp Hn Hex Hj. unfold subterm_node, TermProcessor_process, Processor_process.
  cbn. rewrite Hn. cbn. unfold existing_lookup, subterms_add, parsed_add. munfold. cbn.
  rewrite Hex, Hp, Hj. by destruct k.
Qed.

(** C7 (as amended): the snapshot indexes the existing terms by
    classification and name as stored, without normalization; after it, a
    top-term node whose name is exactly the name of a stored term of the
    classification reuses a stored term of that classification and name
    and marks it seen, the table being left as it was; a subterm node
    does the same and is attached to its parent. *)
Theorem terms_reused_by_exact_name (k : TermType) (n : node) (nm : string)
    (t : BillTerm) (s : state) :
  (∀ r, r ∈ db_billterm s → is_Some (term_type r)) →
  node_get n "value" = Some nm →
  t ∈ db_billterm s → term_type t = Some k → term_name t = nm →
  ∃ t',
    let s1 := set_existing_terms (term_index (db_billterm s)) (set_terms_parsed ∅ s) in
    snapshot_terms s = (Ok tt, s1)
    ∧ existing_terms s1 !! (k, nm) = Some t'
    ∧ t' ∈ db_billterm s ∧ term_type t' = Some k ∧ term_name t' = nm
    ∧ top_term E k n s1
      = (Ok t', set_terms_parsed ({[term_id t']} ∪ terms_parsed s1) s1)
    ∧ ∀ parent p j, term_id parent = Some p → term_id t' = Some j →
        subterm_node E k parent n s1
        = (Ok tt,
           set_terms_parsed ({[Some j]} ∪ terms_parsed s1)
             (set_billterm_subterms
                (<[p := {[j]} ∪ default ∅ (billterm_subterms s1 !! p)]>
                   (billterm_subterms s1)) s1)).
Proof.
  intros Hty Hn Hin Hk Hnm.
  destruct (term_index_member _ _ _ Hin Hk) as [t' Ht']. rewrite Hnm in Ht'.
  destruct (term_index_lookup _ _ _ _ Ht') as (Hin' & Hk' & Hnm').
  exists t'. cbn zeta. split; [by apply snapshot_terms_index|].
  split; [done|]. repeat (split; [done|]). split.
  - by apply (top_term_reuse k n nm).
  - intros parent p j Hp Hj. by apply (subterm_reuse k parent p n nm t' j).
Qed.

End Terms.

Lemma terms_reused_by_exact_name_witness :
  ∃ t',
    let s1 := set_existing_terms (term_index (db_billterm DemoTerms.stored))
                (set_terms_parsed ∅ DemoTerms.stored) in
    snapshot_terms DemoTerms.stored = (Ok tt, s1)
    ∧ existing_terms s1 !! (TermType_new, "Agriculture") = Some t'
    ∧ t' ∈ db_billterm DemoTerms.stored
    ∧ term_type t' = Some TermType_new ∧ term_name t' = "Agriculture"
    ∧ top_term (Demo.env true ∅) TermType_new (DemoTerms.top "Agriculture") s1
      = (Ok t', set_terms_parsed ({[term_id t']} ∪ terms_parsed s1) s1)
    ∧ ∀ parent p j, term_id parent = Some p → term_id t' = Some j →
        subterm_node (Demo.env true ∅) TermType_new parent (DemoTerms.top "Agriculture") s1
        = (Ok tt,
           set_terms_parsed ({[Some j]} ∪ terms_parsed s1)
             (set_billterm_subterms
                (<[p := {[j]} ∪ default ∅ (billterm_subterms s1 !! p)]>
                   (billterm_subterms s1)) s1)).
Proof.
  apply (terms_reused_by_exact_name (Demo.env true ∅) TermType_new
           (DemoTerms.top "Agriculture") "Agriculture" DemoTerms.agriculture
           DemoTerms.stored).
  - intros r Hr. apply list_elem_of_singleton in Hr. subst r. by eexists.
  - reflexivity.
  - by left.
  - reflexivity.
  - reflexivity.
Defined.

(** ** What a computation depends on *)

Section Reads.

Context {V : Type} (v : state → V).

Lemma reads_ret {A} (a : A) : reads v (mret a : M A).
Proof. by intros s1 s2 _. Qed.

Lemma reads_raise {A} (e : exn) : reads v (raise e : M A).
Proof. by intros s1 s2 _. Qed.

Lemma reads_lift {A} (r : result A) : reads v (lift r).
Proof. by intros s1 s2 _. Qed.

Lemma reads_modify (g : state → state) : reads v (modify g).
Proof. by intros s1 s2 _. Qed.

Lemma reads_gets {A} (g : state → A) :
  (∀ s1 s2, v s1 = v s2 → g s1 = g s2) → reads v (gets g).
Proof. intros Hg s1 s2 Hv. cbn. by rewrite (Hg s1 s2). Qed.

Lemma reads_bind {A B} (m : M A) (k : A → M B) :
  reads v m → preserves v m → (∀ a, reads v (k a)) → reads v (m ≫= k).
Proof.
  intros Hm Hp Hk s1 s2 Hv. rewrite !bind_unfold.
  pose proof (Hm s1 s2 Hv) as Hr.
  pose proof (Hp s1) as H1. pose proof (Hp s2) as H2.
  destruct (m s1) as [r1 s1'], (m s2) as [r2 s2']. cbn in *. subst r2.
  destruct r1 as [a|e]; [|done].
  apply Hk. congruence.
Qed.

Lemma reads_try {A} (m : M A) (h : exn → option (M A)) :
  reads v m → preserves v m → (∀ e k, h e = Some k → reads v k) →
  reads v (try_except m h).
Proof.
  intros Hm Hp Hh s1 s2 Hv. unfold try_except.
  pose proof (Hm s1 s2 Hv) as Hr.
  pose proof (Hp s1) as H1. pose proof (Hp s2) as H2.
  destruct (m s1) as [r1 s1'], (m s2) as [r2 s2']. cbn in *. subst r2.
  destruct r1 as [a|e]; [done|].
  destruct (h e) as [k|] eqn:He; [|done].
  apply (Hh _ _ He). congruence.
Qed.

Lemma reads_for_each {A} (l : list A) (body : A → M unit) :
  (∀ x, reads v (body x)) → (∀ x, preserves v (body x)) →
  reads v (for_each l body).
Proof.
  intros Hr Hp. induction l as [|x l IH]; cbn [for_each].
  - apply reads_ret.
  - apply reads_bind; [apply Hr | apply Hp | done].
Qed.

Lemma reads_collect {A B} (l : list A) (body : A → M (option B)) :
  (∀ x, reads v (body x)) → (∀ x, preserves v (body x)) →
  reads v (collect l body).
Proof.
  intros Hr Hp. induction l as [|x l IH]; cbn [collect].
  - apply reads_ret.
  - apply reads_bind; [apply Hr | apply Hp | intros r].
    apply reads_bind; [done | by apply preserves_collect | intros rs].
    apply reads_ret.
Qed.

Lemma reads_index0 {A} (l : list A) : reads v (index0 l).
Proof. destruct l; [apply reads_raise | apply reads_ret]. Qed.

End Reads.

(** A run can be replayed from any state with the same observation. *)
Lemma reads_replay {A V} (v : state → V) (m : M A) (s s' s2 : state) (r : result A) :
  reads v m → m s = (r, s') → v s2 = v s → ∃ s2', m s2 = (r, s2').
Proof.
  intros Hr Hm Hv. specialize (Hr s2 s Hv). rewrite Hm in Hr.
  destruct (m s2) as [r2 s2']. cbn in Hr. subst r2. by eexists.
Qed.

Section Caches.

Lemma served_persons_warm (s : state) :
  served_persons (set_PERSON_CACHE (served_persons s) s) = served_persons s.
Proof.
  unfold served_persons. cbn.
  destruct (decide (PERSON_CACHE s = ∅)) as [Hc|Hc].
  - by destruct (decide (load_persons (db_person s) = ∅)).
  - by rewrite decide_False.
Qed.

Lemma get_person_preserves_served (pk : option string) :
  preserves served_persons (get_person pk).
Proof.
  intros s. destruct (PyInt.int pk) as [k|e] eqn:Hpk.
  - rewrite (get_person_served pk k s Hpk). cbn. apply served_persons_warm.
  - unfold get_person. rewrite bind_unfold, Hpk. done.
Qed.

Lemma get_person_reads_served (pk : option string) :
  reads served_persons (get_person pk).
Proof.
  intros s1 s2 Hv. destruct (PyInt.int pk) as [k|e] eqn:Hpk.
  - rewrite !(get_person_served pk k _ Hpk). cbn. by rewrite Hv.
  - unfold get_person. rewrite !bind_unfold, Hpk. done.
Qed.

Lemma served_terms_warm (s : state) :
  served_terms (set_TERM_CACHE (served_terms s) s) = served_terms s.
Proof.
  unfold served_terms. cbn [set_TERM_CACHE TERM_CACHE db_billterm].
  destruct (decide (TERM_CACHE s = ∅)) as [Hc|Hc].
  - destruct (decide (load_terms (db_billterm s) (TERM_CACHE s) = ∅)) as [He|]; [|done].
    rewrite He. by rewrite Hc in He.
  - by rewrite decide_False.
Qed.

Lemma get_term_served (name : option string) (c : option Z) (s : state) :
  get_term name c s
  = (match name with
     | None => Raise TypeError
     | Some nm =>
         match served_terms s !! (Some (if match c with
                                            | Some c => (111 <=? c)%Z
                                            | None => false
                                            end
                                         then TermType_new else TermType_old),
                                  normalize_name nm) with
         | Some t => Ok t
         | None => Raise KeyError
         end
     end,
     set_TERM_CACHE (served_terms s) s).
Proof.
  unfold get_term, served_terms. msimp.
  destruct (decide (TERM_CACHE s = ∅)) as [Hc|Hc]; msimp; cbn.
  - destruct name as [nm|]; msimp; cbn; [|done].
    by destruct (_ !! _).
  - destruct name as [nm|]; msimp; cbn.
    + destruct s; cbn in *. by destruct (_ !! _).
    + by destruct s.
Qed.

Lemma get_term_preserves_served (name : option string) (c : option Z) :
  preserves served_terms (get_term name c).
Proof. intros s. rewrite get_term_served. cbn. apply served_terms_warm. Qed.

Lemma get_term_reads_served (name : option string) (c : option Z) :
  reads served_terms (get_term name c).
Proof. intros s1 s2 Hv. rewrite !get_term_served. cbn. by rewrite Hv. Qed.

End Caches.

Ltac reads_step :=
  lazymatch goal with
  | |- reads _ (mbind _ _) => apply reads_bind; [| |intros ?]
  | |- reads _ (mret _) => apply reads_ret
  | |- reads _ (raise _) => apply reads_raise
  | |- reads _ (lift _) => apply reads_lift
  | |- reads _ (modify _) => apply reads_modify
  | |- reads _ (index0 _) => apply reads_index0
  | |- reads _ (try_except _ _) =>
      apply reads_try; [| |intros [] ? ?; simplify_eq]
  | |- reads _ (for_each _ _) => apply reads_for_each; intros ?
  | |- reads _ (collect _ _) => apply reads_collect; intros ?
  | |- reads _ (match ?x with _ => _ end) => destruct x
  | |- reads _ (let _ := _ in _) => lazy zeta
  | |- preserves _ _ => preserves_step
  end.

Ltac solve_reads := repeat reads_step.

(** ** Reconciling twice *)

Section Again.

Context (E : Env).

Lemma get_person_inputs (pk : option string) : preserves inputs (get_person pk).
Proof.
  intros s. pose proof (get_person_preserves_served pk s) as H.
  pose proof (get_person_frame (λ s, (db_person s, db_committee s, db_billterm s,
                                      served_terms s)) pk (λ _ _, eq_refl) s) as H'.
  unfold inputs. cbn in *. congruence.
Qed.

Lemma get_term_inputs (nm : option string) (c : option Z) :
  preserves inputs (get_term nm c).
Proof.
  intros s. pose proof (get_term_preserves_served nm c s) as H.
  pose proof (get_term_frame (λ s, (db_person s, db_committee s, db_billterm s,
                                    served_persons s)) nm c (λ _ _, eq_refl) s) as H'.
  unfold inputs. cbn in *. congruence.
Qed.

Lemma process_fields_reads (obj : Bill) (n : node) :
  reads served_persons (process_fields E obj n).
Proof.
  unfold process_fields, Processor_process, process_titles,
    process_introduced, process_sponsor, process_current_status.
  solve_reads.
  all: first [apply get_person_reads_served | apply get_person_preserves_served].
Qed.

Lemma find_committees_reads (n : node) : reads db_committee (find_committees n).
Proof.
  unfold find_committees, Committee_objects_get, log_msg.
  solve_reads.
  all: first [by apply reads_gets | apply preserves_gets
             | apply preserves_modify; intros s; reflexivity].
Qed.

Lemma find_terms_reads (n : node) (c : option Z) : reads served_terms (find_terms n c).
Proof.
  unfold find_terms, log_msg.
  solve_reads.
  all: first [apply get_term_reads_served | apply get_term_preserves_served
             | apply preserves_modify; intros s; reflexivity].
Qed.

End Again.

Section AgainTables.

Context (E : Env).

Lemma set_db_bill_same (s : state) : set_db_bill (db_bill s) s = s.
Proof. by destruct s. Qed.

Lemma set_bill_committees_same (s : state) :
  set_bill_committees (bill_committees s) s = s.
Proof. by destruct s. Qed.

Lemma set_bill_terms_same (s : state) : set_bill_terms (bill_terms s) s = s.
Proof. by destruct s. Qed.

Lemma set_db_cosponsor_same (s : state) : set_db_cosponsor (db_cosponsor s) s = s.
Proof. by destruct s. Qed.

Lemma set_db_relatedbill_same (s : state) :
  set_db_relatedbill (db_relatedbill s) s = s.
Proof. by destruct s. Qed.

Lemma bills_with_key_insert_absent (k : bill_key) (bills : gmap Z Bill) (i : Z) (obj : Bill) :
  bills_with_key k bills = [] → natural_key obj = Some k →
  bills_with_key k (<[i := obj]> bills) = [(i, obj)].
Proof.
  unfold bills_with_key. intros H%map_to_list_empty_iff Hk.
  rewrite map_filter_insert_True by done.
  by rewrite H, insert_empty, map_to_list_singleton.
Qed.

(** The identity resolution and the save that follows it: the bill ends
    up in the table under one id, as the only row of its key. *)
Lemma upsert_spec (obj obj' obj'' : Bill) (k : bill_key) (s s' s'' : state) :
  natural_key obj = Some k → bill_id obj = None →
  adopt_id obj s = (Ok obj', s') → Bill_save obj' s' = (Ok obj'', s'') →
  ∃ i, obj'' = set_bill_id (Some i) obj
       ∧ s'' = set_db_bill (<[i := obj'']> (db_bill s)) s
       ∧ bills_with_key k (db_bill s'') = [(i, obj'')].
Proof.
  intros Hk Hid Ha Hs.
  destruct (bills_with_key k (db_bill s)) as [|[i b] [|? ?]] eqn:Hb.
  - rewrite (adopt_id_absent obj k s Hk Hb) in Ha. injection Ha as <- <-.
    unfold Bill_save in Hs. rewrite Hid in Hs. msimp in Hs.
    injection Hs as <- <-. eexists. split; [done|]. split; [done|].
    cbn. by apply bills_with_key_insert_absent.
  - rewrite (adopt_id_found obj k i b s Hk Hb) in Ha. injection Ha as <- <-.
    unfold Bill_save in Hs. cbn [bill_id set_bill_id] in Hs. msimp in Hs.
    injection Hs as <- <-. exists i. split; [done|]. split; [done|].
    cbn. by apply (bills_with_key_update k _ i b).
  - exfalso. unfold adopt_id, try_except in Ha.
    change (mk_key (congress obj) (bill_type obj) (number obj))
      with (natural_key obj) in Ha.
    rewrite Hk in Ha. unfold Bill_objects_get in Ha.
    msimp in Ha. rewrite Hb in Ha. by msimp in Ha.
Qed.

(** The same two steps on a table that already holds the bill: the
    state is left as it was. *)
Lemma upsert_again (obj : Bill) (k : bill_key) (i : Z) (t : state) :
  natural_key obj = Some k →
  bills_with_key k (db_bill t) = [(i, set_bill_id (Some i) obj)] →
  (obj' ← adopt_id obj; Bill_save obj') t = (Ok (set_bill_id (Some i) obj), t).
Proof.
  intros Hk Hb.
  rewrite (bind_ok _ _ _ _ _ (adopt_id_found obj k i _ t Hk Hb)).
  unfold Bill_save. cbn [bill_id set_bill_id]. msimp.
  destruct (bills_with_key_lookup _ _ _ _ Hb) as [Hi _].
  by rewrite (insert_id _ _ _ Hi), set_db_bill_same.
Qed.

Lemma process_committees_again (obj : Bill) (n : node) (i : Z) (s s' t : state)
    (r : result unit) :
  bill_id obj = Some i →
  process_committees obj n s = (r, s') →
  db_committee t = db_committee s → bill_committees t = bill_committees s' →
  ∃ t', process_committees obj n t = (r, t') ∧ persisted t' = persisted t.
Proof.
  intros Hid Hrun Hin Hout. unfold process_committees in *. rewrite Hid in *.
  rewrite bind_unfold in Hrun.
  destruct (find_committees n s) as [rc sa] eqn:Hm.
  destruct (reads_replay db_committee _ _ _ t _ (find_committees_reads n) Hm Hin)
    as [ta Hta].
  pose proof (preserves_run persisted _ _ _ _
                (find_committees_frame persisted n (λ _ _, eq_refl)) Hta) as Hp.
  pose proof (preserves_run bill_committees _ _ _ _
                (find_committees_frame bill_committees n (λ _ _, eq_refl)) Hta) as Hc.
  rewrite bind_unfold, Hta. destruct rc as [comlist|e].
  - cbn [pk_of] in Hrun. msimp in Hrun. injection Hrun as <- <-.
    eexists. cbn [pk_of]. msimp. split; [done|].
    rewrite Hc, Hout. cbn. rewrite insert_insert_eq.
    cbn in Hout. by rewrite <- Hout, <- Hc, set_bill_committees_same.
  - injection Hrun as <- <-. by eexists.
Qed.

Lemma process_terms_again (obj : Bill) (n : node) (c : option Z) (i : Z) (s s' t : state)
    (r : result unit) :
  bill_id obj = Some i →
  process_terms obj n c s = (r, s') →
  served_terms t = served_terms s → bill_terms t = bill_terms s' →
  ∃ t', process_terms obj n c t = (r, t') ∧ persisted t' = persisted t.
Proof.
  intros Hid Hrun Hin Hout. unfold process_terms in *. rewrite Hid in *.
  rewrite bind_unfold in Hrun.
  destruct (find_terms n c s) as [rc sa] eqn:Hm.
  destruct (reads_replay served_terms _ _ _ t _ (find_terms_reads n c) Hm Hin)
    as [ta Hta].
  assert (∀ nm c, preserves persisted (get_term nm c)) as Hgp.
  { intros. by apply get_term_frame. }
  assert (∀ nm c, preserves bill_terms (get_term nm c)) as Hgt.
  { intros. by apply get_term_frame. }
  pose proof (preserves_run persisted _ _ _ _
                (find_terms_frame_gen persisted n c (λ _ _, eq_refl) Hgp) Hta) as Hp.
  pose proof (preserves_run bill_terms _ _ _ _
                (find_terms_frame_gen bill_terms n c (λ _ _, eq_refl) Hgt) Hta) as Hc.
  rewrite bind_unfold, Hta. destruct rc as [termlist|e].
  - cbn [pk_of] in Hrun. msimp in Hrun. injection Hrun as <- <-.
    eexists. cbn [pk_of]. msimp. split; [done|].
    rewrite Hc, Hout. cbn. rewrite insert_insert_eq.
    cbn in Hout. by rewrite <- Hout, <- Hc, set_bill_terms_same.
  - injection Hrun as <- <-. by eexists.
Qed.

End AgainTables.

Section AgainRelated.

Context (E : Env).

(** The loop over the references appends rows of the bill, the same
    from every state with the same Bill table, and ends the same way. *)
Lemma related_loop_delta (b : Z) (refs : list node) (s s' : state) (r : result unit) :
  for_each refs (relatedbill_node E b) s = (r, s') →
  ∃ rows, Forall (λ row, rb_bill row = b) rows
    ∧ s' = set_db_relatedbill (db_relatedbill s ++ rows) s
    ∧ ∀ t, db_bill t = db_bill s →
        for_each refs (relatedbill_node E b) t
        = (r, set_db_relatedbill (db_relatedbill t ++ rows) t).
Proof.
  revert s. induction refs as [|x refs IH]; intros s Hrun.
  - injection Hrun as <- <-. exists []. split; [done|].
    split; [|intros t _]; cbn; rewrite app_nil_r; by rewrite set_db_relatedbill_same.
  - cbn [for_each] in Hrun. rewrite bind_unfold, related_step in Hrun.
    assert (∀ t, db_bill t = db_bill s →
              for_each (x :: refs) (relatedbill_node E b) t
              = match related_target E (db_bill s) x with
                | Ok (Some rid) =>
                    for_each refs (relatedbill_node E b)
                      (set_db_relatedbill
                         (db_relatedbill t ++ [mkRelatedBill b rid (node_get x "relation")]) t)
                | Ok None | Raise Bill_DoesNotExist =>
                    for_each refs (relatedbill_node E b) t
                | Raise e => (Raise e, t)
                end) as Hstep.
    { intros t Ht. cbn [for_each]. rewrite bind_unfold, related_step, Ht.
      destruct (related_target E (db_bill s) x) as [[rid|]|e]; try done.
      by destruct e. }
    destruct (related_target E (db_bill s) x) as [[rid|]|e] eqn:Hx.
    + apply IH in Hrun as (rows & Hrows & -> & Hall).
      exists (mkRelatedBill b rid (node_get x "relation") :: rows).
      split; [by constructor|]. split.
      * unfold set_db_relatedbill. cbn. by rewrite <- app_assoc.
      * intros t Ht. rewrite (Hstep t Ht), Hall by done.
        unfold set_db_relatedbill. cbn. by rewrite <- app_assoc.
    + apply IH in Hrun as (rows & Hrows & -> & Hall).
      exists rows. split; [done|]. split; [done|].
      intros t Ht. by rewrite (Hstep t Ht), Hall.
    + assert (e = Bill_DoesNotExist ∨ e ≠ Bill_DoesNotExist) as [->|Hne].
      { destruct e; auto. }
      * apply IH in Hrun as (rows & Hrows & -> & Hall).
        exists rows. split; [done|]. split; [done|].
        intros t Ht. by rewrite (Hstep t Ht), Hall.
      * exists []. split; [done|].
        assert ((r, s') = (Raise e, s)) as [= -> ->] by (by destruct e).
        split; [cbn; by rewrite app_nil_r, set_db_relatedbill_same|].
        intros t Ht. rewrite (Hstep t Ht). cbn.
        rewrite app_nil_r, set_db_relatedbill_same. by destruct e.
Qed.

Lemma filter_other_bill (b : Z) (rows : list RelatedBill) :
  Forall (λ row, rb_bill row = b) rows →
  filter (λ r, rb_bill r ≠ b) rows = [].
Proof.
  induction 1 as [|row rows Hrow _ IH]; [done|].
  by rewrite filter_cons_False by (by intros ?).
Qed.

Lemma filter_twice {A} (P : A → Prop) `{!∀ x, Decision (P x)} (l : list A) :
  filter P (filter P l) = filter P l.
Proof.
  induction l as [|x l IH]; [done|].
  destruct (decide (P x)) as [Hx|Hx].
  - rewrite (filter_cons_True P x l Hx), filter_cons_True by done. by rewrite IH.
  - by rewrite (filter_cons_False P x l Hx).
Qed.

Lemma process_relatedbills_again (obj : Bill) (n : node) (b : Z) (s s' t : state)
    (r : result unit) :
  bill_id obj = Some b →
  process_relatedbills E obj n s = (r, s') →
  db_bill t = db_bill s → db_relatedbill t = db_relatedbill s' →
  process_relatedbills E obj n t = (r, t).
Proof.
  intros Hid Hrun Hin Hout. unfold process_relatedbills in *. rewrite Hid in *.
  cbn [pk_of] in *. msimp in Hrun. msimp.
  apply related_loop_delta in Hrun as (rows & Hrows & -> & Hall).
  rewrite Hall by done. f_equal. cbn in *.
  rewrite Hout, filter_app, filter_twice, (filter_other_bill b rows Hrows), app_nil_r.
  rewrite <- Hout. by destruct t.
Qed.

End AgainRelated.

Section AgainCosponsors.

Context (E : Env).

Lemma PyInt_int_raises (v : option string) (e : exn) :
  PyInt.int v = Raise e → e = TypeError ∨ e = ValueError.
Proof.
  unfold PyInt.int. destruct v as [x|]; [|intros [= <-]; by left].
  destruct (PyInt.of_string x); [done|]. intros [= <-]. by right.
Qed.

Lemma Cosponsor_eta (ob : Cosponsor) :
  mkCosponsor (joined ob) (withdrawn ob) (role ob) = ob.
Proof. by destruct ob. Qed.

(** One turn of the cosponsor loop, as an entry and a step on the
    table; a turn that raises has not touched the table. *)
Lemma cosponsor_node_spec (obj : Bill) (b : Z) (subnode : node) (s : state) :
  bill_id obj = Some b →
  match cosponsor_entry E (served_persons s) subnode with
  | Ok e =>
      cosponsor_node E obj subnode s
      = (Ok tt, set_db_cosponsor (cosponsor_step b (db_cosponsor s) e)
                  (set_PERSON_CACHE (served_persons s) s))
  | Raise ex =>
      ∃ sx, cosponsor_node E obj subnode s = (Raise ex, sx)
            ∧ db_cosponsor sx = db_cosponsor s
  end.
Proof.
  intros Hid. unfold cosponsor_entry, cosponsor_node, try_except.
  rewrite Hid. rewrite (bind_unfold _ _ s), (bind_unfold _ _ s).
  destruct (PyInt.int (node_get subnode "id")) as [pk|ex] eqn:Hpk; cbn [result_bind].
  - rewrite (get_person_served _ pk s Hpk).
    destruct (served_persons s !! pk) as [p|]; [|by eexists].
    msimp.
    destruct (parse_datetime E (node_get subnode "joined")) as [j|ex]; [|by eexists].
    cbn [result_bind]. msimp.
    assert (∀ (w : option datetime) (s1 : state),
      (b0 ← pk_of (Some b);
       r ← Cosponsor_get_or_create (person_pk p) b0
             (mkCosponsor j w (get_role_at_date E p (Some j)));
       (if decide (joined r.1 ≠ j ∨ withdrawn r.1 ≠ w)
        then Cosponsor_save (person_pk p) b0 (mkCosponsor j w (role r.1))
        else mret tt)) s1
      = (Ok tt, set_db_cosponsor
                  (cosponsor_step b (db_cosponsor s1)
                     (person_pk p, j, w, get_role_at_date E p (Some j))) s1)) as Hstep.
    { intros w s1. cbn [pk_of]. msimp. unfold Cosponsor_get_or_create. msimp.
      unfold cosponsor_step.
      destruct (db_cosponsor s1 !! (person_pk p, b)) as [ob|] eqn:Hob; msimp; cbn.
      - case_decide as Hd.
        + done.
        + msimp. f_equal.
          assert (joined ob = j ∧ withdrawn ob = w) as [<- <-].
          { split; apply dec_stable; intros Hne; apply Hd; auto. }
          rewrite Cosponsor_eta, insert_id by done. by destruct s1.
      - rewrite decide_False by (intros [?|?]; done).
        msimp. done. }
    destruct (truthy (node_get subnode "withdrawn")).
    + msimp.
      destruct (parse_datetime E (node_get subnode "withdrawn")) as [d|ex];
        cbn [result_bind]; [|by eexists].
      msimp. exact (Hstep (Some d) (set_PERSON_CACHE (served_persons s) s)).
    + cbn [result_bind]. msimp.
      exact (Hstep None (set_PERSON_CACHE (served_persons s) s)).
  - assert (get_person (node_get subnode "id") s = (Raise ex, s)) as ->.
    { unfold get_person. by rewrite bind_unfold, Hpk. }
    exists s. by destruct (PyInt_int_raises _ _ Hpk) as [-> | ->].
Qed.

Lemma cosponsor_step_lookup (b : Z) (K : gmap (Z * Z) Cosponsor) (e : cos_entry)
    (key : Z * Z) :
  cosponsor_step b K e !! key = cosponsor_chain b key (K !! key) [e].
Proof.
  destruct e as [[[pk j] w] r0]. unfold cosponsor_step, cosponsor_chain. cbn.
  case_decide as Hk.
  - subst key. by rewrite lookup_insert_eq.
  - by rewrite lookup_insert_ne.
Qed.

Lemma cosponsor_fold_lookup (b : Z) (es : list cos_entry) (K : gmap (Z * Z) Cosponsor)
    (key : Z * Z) :
  foldl (cosponsor_step b) K es !! key = cosponsor_chain b key (K !! key) es.
Proof.
  revert K. induction es as [|e es IH]; intros K; [done|].
  cbn [foldl]. rewrite IH, cosponsor_step_lookup. done.
Qed.

Lemma cosponsor_chain_snoc (b : Z) (key : Z * Z) (o : option Cosponsor)
    (es : list cos_entry) (e : cos_entry) :
  cosponsor_chain b key o (es ++ [e])
  = cosponsor_chain b key (cosponsor_chain b key o es) [e].
Proof. unfold cosponsor_chain. by rewrite foldl_app. Qed.

Lemma cosponsor_chain_dates_only (b : Z) (key : Z * Z) (es : list cos_entry) :
  dates_only (λ o, cosponsor_chain b key o es).
Proof.
  induction es as [|e es IH] using rev_ind; [by left|].
  destruct e as [[[pk j] w] r0].
  destruct (decide ((pk, b) = key)) as [Hk|Hk].
  - right. exists j, w. intros o. rewrite cosponsor_chain_snoc.
    cbn. rewrite decide_True by done. eexists. split; [done|].
    intros x ->. destruct IH as [Hid|(j' & w' & Hset)].
    + by rewrite Hid.
    + destruct (Hset (Some x)) as (r & -> & Hr). cbn. by apply Hr.
  - destruct IH as [Hid|(j' & w' & Hset)].
    + left. intros o. rewrite cosponsor_chain_snoc. cbn.
      by rewrite decide_False, Hid.
    + right. exists j', w'. intros o. rewrite cosponsor_chain_snoc. cbn.
      rewrite decide_False by done. apply Hset.
Qed.

Lemma dates_only_idem (G : option Cosponsor → option Cosponsor) (o : option Cosponsor) :
  dates_only G → G (G o) = G o.
Proof.
  intros [Hid|(j & w & Hset)]; [by rewrite !Hid|].
  destruct (Hset o) as (r & Ho & _). rewrite Ho.
  destruct (Hset (Some (mkCosponsor j w r))) as (r' & -> & Hr').
  by rewrite (Hr' _ eq_refl).
Qed.

(** Running the entries of a document over the table they produced
    changes nothing. *)
Lemma cosponsor_fold_idem (b : Z) (es : list cos_entry) (K : gmap (Z * Z) Cosponsor) :
  foldl (cosponsor_step b) (foldl (cosponsor_step b) K es) es
  = foldl (cosponsor_step b) K es.
Proof.
  apply map_eq. intros key. rewrite !cosponsor_fold_lookup.
  apply (dates_only_idem (λ o, cosponsor_chain b key o es)).
  apply cosponsor_chain_dates_only.
Qed.

Lemma served_persons_step (K : gmap (Z * Z) Cosponsor) (s : state) :
  served_persons (set_db_cosponsor K (set_PERSON_CACHE (served_persons s) s))
  = served_persons s.
Proof. apply served_persons_warm. Qed.

(** The cosponsor loop runs the same entries over the table, and ends
    the same way, from every state whose cache serves the same persons. *)
Lemma cosponsors_loop_delta (obj : Bill) (b : Z) (nodes : list node) (s s' : state)
    (r : result unit) :
  bill_id obj = Some b →
  for_each nodes (cosponsor_node E obj) s = (r, s') →
  ∃ es, db_cosponsor s' = foldl (cosponsor_step b) (db_cosponsor s) es
    ∧ ∀ t, served_persons t = served_persons s →
        ∃ t', for_each nodes (cosponsor_node E obj) t = (r, t')
              ∧ db_cosponsor t' = foldl (cosponsor_step b) (db_cosponsor t) es.
Proof.
  intros Hid. revert s. induction nodes as [|x nodes IH]; intros s Hrun.
  - injection Hrun as <- <-. exists []. split; [done|]. intros t _. by exists t.
  - cbn [for_each] in Hrun. rewrite bind_unfold in Hrun.
    pose proof (cosponsor_node_spec obj b x s Hid) as Hx.
    destruct (cosponsor_entry E (served_persons s) x) as [e|ex] eqn:He.
    + rewrite Hx in Hrun. apply IH in Hrun as (es & Hdb & Hall).
      exists (e :: es). split; [done|]. intros t Ht.
      pose proof (cosponsor_node_spec obj b x t Hid) as Hxt.
      rewrite Ht, He in Hxt.
      destruct (Hall (set_db_cosponsor (cosponsor_step b (db_cosponsor t) e)
                        (set_PERSON_CACHE (served_persons s) t))) as (t' & Hrun' & Hdb').
      { rewrite (served_persons_step _ s), <- Ht. apply served_persons_step. }
      exists t'. split; [|done].
      cbn [for_each]. by rewrite bind_unfold, Hxt.
    + destruct Hx as (sx & Hsx & Hdb). rewrite Hsx in Hrun. injection Hrun as <- <-.
      exists []. split; [done|]. intros t Ht.
      pose proof (cosponsor_node_spec obj b x t Hid) as Hxt.
      rewrite Ht, He in Hxt. destruct Hxt as (tx & Htx & Hdbt).
      exists tx. split; [|done]. cbn [for_each]. by rewrite bind_unfold, Htx.
Qed.

Lemma process_consponsors_again (obj : Bill) (n : node) (b : Z) (s s' t : state)
    (r : result unit) :
  bill_id obj = Some b →
  process_consponsors E obj n s = (r, s') →
  served_persons t = served_persons s → db_cosponsor t = db_cosponsor s' →
  ∃ t', process_consponsors E obj n t = (r, t') ∧ persisted t' = persisted t.
Proof.
  intros Hid Hrun Hin Hout. unfold process_consponsors in *.
  destruct (cosponsors_loop_delta obj b _ s s' r Hid Hrun) as (es & Hdb & Hall).
  destruct (Hall t Hin) as (t' & Hrun' & Hdb').
  exists t'. split; [done|].
  assert (db_cosponsor t' = db_cosponsor t) as Hsame.
  { by rewrite Hdb', Hout, Hdb, cosponsor_fold_idem. }
  pose proof (preserves_run _ _ _ _ _
                (process_consponsors_frame E
                   (λ s, persisted (set_db_cosponsor (db_cosponsor t) s)) obj n
                   (λ _ _, eq_refl) (λ _ _, eq_refl)) Hrun') as Hfr.
  cbn beta in Hfr. rewrite <- Hsame in Hfr at 1.
  by rewrite !set_db_cosponsor_same in Hfr.
Qed.

End AgainCosponsors.

Lemma persisted_components (s t : state) :
  persisted s = persisted t →
  db_bill s = db_bill t ∧ bill_committees s = bill_committees t
  ∧ bill_terms s = bill_terms t ∧ db_cosponsor s = db_cosponsor t
  ∧ db_relatedbill s = db_relatedbill t.
Proof. unfold persisted. intros [= ]. auto. Qed.

Lemma inputs_components (s t : state) :
  inputs s = inputs t →
  db_committee s = db_committee t ∧ served_persons s = served_persons t
  ∧ served_terms s = served_terms t.
Proof. unfold inputs. intros [= ]. auto. Qed.

Lemma runs_again_ret {A} (a : A) : runs_again (mret a : M A).
Proof. intros s r s1 t [= <- <-] _ _ _. by exists t. Qed.

(** A phase that writes the component [c] of the tables, followed by a
    continuation that leaves [c] alone. *)
Lemma runs_again_bind {A B V} (c : state → V) (m : M A) (k : A → M B) :
  (∀ s r s' t, m s = (r, s') →
     inputs t = inputs s → db_bill t = db_bill s → c t = c s' →
     ∃ t', m t = (r, t') ∧ persisted t' = persisted t) →
  (∀ s t, persisted s = persisted t → c s = c t) →
  preserves inputs m → preserves db_bill m →
  (∀ a, preserves c (k a)) →
  (∀ a, runs_again (k a)) →
  runs_again (m ≫= k).
Proof.
  intros Hm Hc Hin Hdb Hk Hagain s r s1 t Hrun It Bt Pt.
  rewrite bind_unfold in Hrun.
  destruct (m s) as [rm s'] eqn:Hms.
  pose proof (preserves_run _ _ _ _ _ Hin Hms) as Is'.
  pose proof (preserves_run _ _ _ _ _ Hdb Hms) as Bs'.
  destruct rm as [a|e].
  - pose proof (preserves_run _ _ _ _ _ (Hk a) Hrun) as Cs1.
    destruct (Hm s (Ok a) s' t Hms It Bt) as (t' & Hmt & Pt').
    { rewrite (Hc _ _ Pt). done. }
    pose proof (preserves_run _ _ _ _ _ Hin Hmt) as It'.
    destruct (Hagain a s' r s1 t' Hrun) as (t'' & Hkt & Pt'').
    + congruence.
    + destruct (persisted_components _ _ Pt') as (-> & _). congruence.
    + congruence.
    + exists t''. rewrite (bind_ok _ _ _ _ _ Hmt). split; [done|congruence].
  - injection Hrun as <- <-.
    destruct (Hm s (Raise e) s' t Hms It Bt) as (t' & Hmt & Pt').
    { by apply Hc. }
    exists t'. by rewrite (bind_raise _ _ _ _ _ Hmt).
Qed.

Section Idempotence.

Context (E : Env).

(** Nothing in [process] changes what it reads from the reference
    tables and the caches. *)
Lemma phases_keep_inputs (obj : Bill) (n : node) (c : option Z) :
  preserves inputs (process_fields E obj n)
  ∧ preserves inputs (adopt_id obj)
  ∧ preserves inputs (Bill_save obj)
  ∧ preserves inputs (process_committees obj n)
  ∧ preserves inputs (process_terms obj n c)
  ∧ preserves inputs (process_consponsors E obj n)
  ∧ preserves inputs (process_relatedbills E obj n).
Proof.
  repeat split.
  - apply process_fields_frame_gen, get_person_inputs.
  - apply adopt_id_frame.
  - by apply Bill_save_frame.
  - by apply process_committees_frame.
  - apply process_terms_frame_gen; [done|apply get_term_inputs|done].
  - apply process_consponsors_frame_gen; [apply get_person_inputs|done].
  - by apply process_relatedbills_frame.
Qed.

(** The relationship phases of a saved bill can be run again. *)
Lemma relations_again (obj : Bill) (n : node) (i : Z) :
  bill_id obj = Some i → runs_again (relations E obj n).
Proof.
  intros Hid. unfold relations.
  destruct (phases_keep_inputs obj n (congress obj)) as (_ & _ & _ & Kc & Kt & Kk & Kr).
  apply (runs_again_bind bill_committees).
  { intros s r s' t Hrun It _ Ct.
    apply (process_committees_again obj n i s s' t r Hid Hrun); [|done].
    by destruct (inputs_components _ _ It) as (-> & _). }
  { intros s t Hp. by destruct (persisted_components _ _ Hp) as (_ & -> & _). }
  { done. }
  { by apply process_committees_frame. }
  { intros _. apply preserves_bind; [by apply process_terms_frame|intros _].
    apply preserves_bind; [by apply process_consponsors_frame|intros _].
    apply preserves_bind; [by apply process_relatedbills_frame|intros _].
    apply preserves_ret. }
  intros _. apply (runs_again_bind bill_terms).
  { intros s r s' t Hrun It _ Ct.
    apply (process_terms_again obj n _ i s s' t r Hid Hrun); [|done].
    by destruct (inputs_components _ _ It) as (_ & _ & ->). }
  { intros s t Hp. by destruct (persisted_components _ _ Hp) as (_ & _ & -> & _). }
  { done. }
  { by apply process_terms_frame. }
  { intros _. apply preserves_bind; [by apply process_consponsors_frame|intros _].
    apply preserves_bind; [by apply process_relatedbills_frame|intros _].
    apply preserves_ret. }
  intros _. apply (runs_again_bind db_cosponsor).
  { intros s r s' t Hrun It _ Ct.
    apply (process_consponsors_again E obj n i s s' t r Hid Hrun); [|done].
    by destruct (inputs_components _ _ It) as (_ & -> & _). }
  { intros s t Hp. by destruct (persisted_components _ _ Hp) as (_ & _ & _ & -> & _). }
  { done. }
  { by apply process_consponsors_frame. }
  { intros _. apply preserves_bind; [by apply process_relatedbills_frame|intros _].
    apply preserves_ret. }
  intros _. apply (runs_again_bind db_relatedbill).
  { intros s r s' t Hrun _ Bt Rt. exists t. split; [|done].
    by apply (process_relatedbills_again E obj n i s s' t r Hid Hrun). }
  { intros s t Hp. by destruct (persisted_components _ _ Hp) as (_ & _ & _ & _ & ->). }
  { done. }
  { by apply process_relatedbills_frame. }
  { intros _. apply preserves_ret. }
  intros _. apply runs_again_ret.
Qed.

Lemma relations_inputs (obj : Bill) (n : node) : preserves inputs (relations E obj n).
Proof.
  destruct (phases_keep_inputs obj n (congress obj)) as (_ & _ & _ & Kc & Kt & Kk & Kr).
  unfold relations. repeat (apply preserves_bind; [done|intros _]).
  apply preserves_ret.
Qed.

Lemma adopt_id_reads (obj : Bill) : reads db_bill (adopt_id obj).
Proof.
  unfold adopt_id, Bill_objects_get. solve_reads.
  all: first [by apply reads_gets | apply preserves_gets].
Qed.

Lemma Bill_save_returns (obj : Bill) (s : state) :
  ∃ o s', Bill_save obj s = (Ok o, s').
Proof. unfold Bill_save. destruct (bill_id obj); msimp; eauto. Qed.

(** C2: reconciling a document a second time, from the state the first
    run left, ends as the first run ended (the same bill under the same
    id, or the same exception) and leaves every table as the first run
    left it: no row of Bill, Cosponsor or RelatedBill, and no committee
    or term assignment, is added, removed or changed. *)
Theorem process_idempotent (n : node) (s : state) :
  let first := process E Bill_new n s in
  ∃ s2, process E Bill_new n first.2 = (first.1, s2)
        ∧ persisted s2 = persisted first.2.
Proof.
  intros first. unfold first. clear first.
  destruct (process E Bill_new n s) as [r s1] eqn:Hrun. cbn [fst snd].
  rewrite process_unfold, bind_unfold in Hrun.
  destruct (process_fields E Bill_new n s) as [rf sa] eqn:Hf.
  destruct (phases_keep_inputs Bill_new n None) as (Kf & _).
  assert (∀ t, inputs t = inputs s →
            ∃ ta, process_fields E Bill_new n t = (rf, ta)
                  ∧ persisted ta = persisted t ∧ inputs ta = inputs t) as Hfields.
  { intros t It. destruct (inputs_components _ _ It) as (_ & Hsp & _).
    destruct (reads_replay served_persons _ _ _ t _
                (process_fields_reads E Bill_new n) Hf Hsp) as [ta Hta].
    exists ta. split; [done|]. split.
    - apply (preserves_run persisted _ _ _ _
               (process_fields_frame E persisted Bill_new n (λ _ _, eq_refl)) Hta).
    - apply (preserves_run _ _ _ _ _ Kf Hta). }
  pose proof (preserves_run _ _ _ _ _ Kf Hf) as Isa.
  destruct rf as [obj|e].
  2:{ (* the fields could not be extracted *)
    injection Hrun as <- <-.
    destruct (Hfields sa Isa) as (ta & Hta & Pta & _).
    exists ta. by rewrite process_unfold, (bind_raise _ _ _ _ _ Hta). }
  destruct (process_fields_key E _ _ _ _ _ Hf) as (_ & [k Hkey] & Hnoid).
  rewrite bind_unfold in Hrun.
  destruct (adopt_id obj sa) as [ra sa'] eqn:Ha.
  pose proof (preserves_run (λ s, s) _ _ _ _ (adopt_id_frame _ obj) Ha) as Hsa'.
  cbn beta in Hsa'. subst sa'.
  destruct ra as [obj'|e].
  2:{ (* several rows hold the key *)
    injection Hrun as <- <-.
    destruct (Hfields sa Isa) as (ta & Hta & Pta & _).
    destruct (persisted_components _ _ Pta) as (Bta & _).
    destruct (reads_replay db_bill _ _ _ ta _ (adopt_id_reads obj) Ha Bta) as [tb Htb].
    pose proof (preserves_run (λ s, s) _ _ _ _ (adopt_id_frame _ obj) Htb) as Htb'.
    cbn beta in Htb'. subst tb.
    exists ta. split; [|done].
    by rewrite process_unfold, (bind_ok _ _ _ _ _ Hta), (bind_raise _ _ _ _ _ Htb). }
  rewrite bind_unfold in Hrun.
  destruct (Bill_save_returns obj' sa) as (o1 & sb & Hs). rewrite Hs in Hrun.
  destruct (upsert_spec obj obj' o1 k sa sa sb Hkey Hnoid Ha Hs) as (i & Ho1 & Hsb & Hrow).
  assert (bill_id o1 = Some i) as Hid by (by rewrite Ho1).
  (* what the first run kept *)
  pose proof (preserves_run _ _ _ _ _
                (Bill_save_frame inputs obj' (λ _ _, eq_refl)) Hs) as Isb.
  pose proof (preserves_run _ _ _ _ _ (relations_inputs o1 n) Hrun) as Is1.
  pose proof (preserves_run db_bill _ _ _ _
                (relations_frame E db_bill o1 n (λ _ _, eq_refl) (λ _ _, eq_refl)
                   (λ _ _, eq_refl) (λ _ _, eq_refl) (λ _ _, eq_refl)
                   (λ _ _, eq_refl) (λ _ _, eq_refl)) Hrun) as Bs1.
  (* the second run *)
  destruct (Hfields s1) as (ta & Hta & Pta & Ita); [congruence|].
  destruct (persisted_components _ _ Pta) as (Bta & _).
  assert (bills_with_key k (db_bill ta) = [(i, set_bill_id (Some i) obj)]) as Hrow'.
  { by rewrite Bta, Bs1, <- Ho1. }
  pose proof (upsert_again obj k i ta Hkey Hrow') as Hup. rewrite <- Ho1 in Hup.
  destruct (relations_again o1 n i Hid sb r s1 ta Hrun) as (t' & Hrel & Pt');
    [congruence..|].
  exists t'. split; [|congruence].
  rewrite process_unfold, (bind_ok _ _ _ _ _ Hta).
  by rewrite <- bind_assoc, (bind_ok _ _ _ _ _ Hup).
Qed.

End Idempotence.

Lemma process_idempotent_witness :
  let first := process (Demo.env true ∅) Bill_new Demo.hr1 Demo.s0 in
  (∃ o, first.1 = Ok o ∧ bill_id o = Some 1)
  ∧ ∃ s2, process (Demo.env true ∅) Bill_new Demo.hr1 first.2 = (first.1, s2)
          ∧ persisted s2 = persisted first.2.
Proof.
  split.
  - eexists. split; vm_compute; reflexivity.
  - apply (process_idempotent (Demo.env true ∅) Demo.hr1 Demo.s0).
Defined.

(** * Further properties of the parser *)

(** ** [normalize_name] *)

Lemma lower_char_space (c : ascii) : Str.is_space (Str.lower_char c) = Str.is_space c.
Proof. by destruct c as [[] [] [] [] [] [] [] []]. Qed.

Lemma lower_char_not_upper (c : ascii) : Str.is_upper (Str.lower_char c) = false.
Proof. by destruct c as [[] [] [] [] [] [] [] []]. Qed.

Lemma lower_starts_with_space (s : string) :
  Str.starts_with_space (Str.lower s) = Str.starts_with_space s.
Proof. destruct s; [done|]. apply lower_char_space. Qed.

Lemma lower_no_ws_pair (s : string) : no_ws_pair (Str.lower s) = no_ws_pair s.
Proof.
  induction s as [|c t IH]; [done|].
  cbn [Str.lower no_ws_pair].
  by rewrite lower_char_space, lower_starts_with_space, IH.
Qed.

Lemma lower_no_upper (s : string) :
  all_chars (λ c, negb (Str.is_upper c)) (Str.lower s) = true.
Proof.
  induction s as [|c t IH]; [done|].
  cbn [Str.lower all_chars]. by rewrite lower_char_not_upper, IH.
Qed.

Lemma lower_idem (s : string) : Str.lower (Str.lower s) = Str.lower s.
Proof.
  induction s as [|c t IH]; [done|].
  cbn [Str.lower]. rewrite IH. f_equal.
  unfold Str.lower_char at 1. by rewrite lower_char_not_upper.
Qed.

Lemma sub_ws_runs_after_run (s : string) :
  Str.starts_with_space (sub_ws_runs true s) = false.
Proof.
  induction s as [|c t IH]; [done|].
  cbn [sub_ws_runs]. destruct (Str.is_space c) eqn:Hc; [done|].
  cbn [Str.starts_with_space]. done.
Qed.

Lemma sub_ws_runs_head (s : string) :
  Str.starts_with_space s = false →
  Str.starts_with_space (sub_ws_runs false s) = false.
Proof.
  destruct s as [|c t]; [done|]. cbn [Str.starts_with_space sub_ws_runs].
  intros Hc. rewrite Hc. exact Hc.
Qed.

Lemma sub_ws_runs_no_ws_pair (s : string) :
  no_ws_pair (sub_ws_runs false s) = true ∧ no_ws_pair (sub_ws_runs true s) = true.
Proof.
  induction s as [|c t [IH1 IH2]]; [done|].
  cbn [sub_ws_runs]. destruct (Str.is_space c) eqn:Hc.
  - split; [|done]. destruct (Str.starts_with_space t) eqn:Ht.
    + cbn [no_ws_pair]. by rewrite sub_ws_runs_after_run, IH2.
    + cbn [no_ws_pair]. by rewrite Hc, (sub_ws_runs_head _ Ht), IH1.
  - cbn [no_ws_pair]. by rewrite Hc, IH1.
Qed.

Lemma sub_ws_runs_fixed (s : string) :
  no_ws_pair s = true → sub_ws_runs false s = s.
Proof.
  induction s as [|c t IH]; [done|].
  cbn [no_ws_pair sub_ws_runs]. intros [Hc Ht]%andb_prop.
  rewrite (IH Ht). destruct (Str.is_space c); [|done].
  by destruct (Str.starts_with_space t).
Qed.

(** X1: normalizing a name that is already normalized changes nothing,
    so the keys of the term cache are fixed points of the
    normalization. *)
Theorem normalize_name_idempotent (name : string) :
  normalize_name (normalize_name name) = normalize_name name.
Proof.
  unfold normalize_name.
  rewrite (sub_ws_runs_fixed (Str.lower _)).
  - apply lower_idem.
  - rewrite lower_no_ws_pair. apply sub_ws_runs_no_ws_pair.
Qed.

(** X2: in a normalized name no two whitespace characters are adjacent
    and no ASCII upper-case letter is left. *)
Theorem normalize_name_shape (name : string) :
  no_ws_pair (normalize_name name) = true
  ∧ all_chars (λ c, negb (Str.is_upper c)) (normalize_name name) = true.
Proof.
  unfold normalize_name. split.
  - rewrite lower_no_ws_pair. apply sub_ws_runs_no_ws_pair.
  - apply lower_no_upper.
Qed.

(** ** The person cache *)

Lemma load_persons_snoc (l : list Person) (x : Person) :
  load_persons (l ++ [x]) = <[person_pk x := x]> (load_persons l).
Proof. unfold load_persons. by rewrite foldl_app. Qed.

Lemma load_persons_lookup (l : list Person) (k : Z) (p : Person) :
  load_persons l !! k = Some p → p ∈ l ∧ person_pk p = k.
Proof.
  induction l as [|x l IH] using rev_ind; [done|].
  rewrite load_persons_snoc. destruct (decide (person_pk x = k)) as [<-|Hne].
  - rewrite lookup_insert_eq. intros [= <-]. split; [|done].
    apply elem_of_app. right. by apply list_elem_of_singleton.
  - rewrite lookup_insert_ne by done. intros [Hin Hk]%IH. split; [|done].
    apply elem_of_app. by left.
Qed.

Lemma load_persons_member (l : list Person) (p : Person) :
  p ∈ l → is_Some (load_persons l !! person_pk p).
Proof.
  induction l as [|x l IH] using rev_ind; [by intros ?%elem_of_nil|].
  rewrite load_persons_snoc. intros [Hin| ->%list_elem_of_singleton]%elem_of_app.
  - destruct (decide (person_pk x = person_pk p)) as [->|Hne].
    + rewrite lookup_insert_eq. by eexists.
    + rewrite lookup_insert_ne by done. by apply IH.
  - rewrite lookup_insert_eq. by eexists.
Qed.

(** X3: with a cold cache [get_person] answers from the Person table:
    it returns a person of the table with the primary key asked for, it
    raises [KeyError] exactly when the table holds none, and it leaves
    the cache loaded with the table. *)
Theorem get_person_cold_cache (v : option string) (pk : Z) (s : state) :
  PERSON_CACHE s = ∅ → PyInt.int v = Ok pk →
  let r := get_person v s in
  (∀ p, r.1 = Ok p → p ∈ db_person s ∧ person_pk p = pk)
  ∧ ((∃ p, p ∈ db_person s ∧ person_pk p = pk) → ∃ p, r.1 = Ok p)
  ∧ ((∀ p, p ∈ db_person s → person_pk p ≠ pk) → r.1 = Raise KeyError)
  ∧ r.2 = set_PERSON_CACHE (load_persons (db_person s)) s.
Proof.
  intros Hcold Hpk r. unfold r. clear r.
  rewrite (get_person_served v pk s Hpk). cbn [fst snd].
  assert (served_persons s = load_persons (db_person s)) as ->.
  { unfold served_persons. by rewrite decide_True. }
  split; [|split; [|split]]; [| | |done].
  - intros p Hp.
    destruct (load_persons (db_person s) !! pk) as [q|] eqn:Hq; [|done].
    injection Hp as ->. by apply load_persons_lookup.
  - intros (p & Hin & <-).
    destruct (load_persons_member _ _ Hin) as [q ->]. by exists q.
  - intros Hnone.
    destruct (load_persons (db_person s) !! pk) as [q|] eqn:Hq; [|done].
    apply load_persons_lookup in Hq as [Hin Hk]. by destruct (Hnone q Hin).
Qed.

Lemma get_person_cold_cache_witness :
  let r := get_person (Some "400002") Demo.s0 in
  (∀ p, r.1 = Ok p → p ∈ db_person Demo.s0 ∧ person_pk p = 400002)
  ∧ ((∃ p, p ∈ db_person Demo.s0 ∧ person_pk p = 400002) → ∃ p, r.1 = Ok p)
  ∧ ((∀ p, p ∈ db_person Demo.s0 → person_pk p ≠ 400002) → r.1 = Raise KeyError)
  ∧ r.2 = set_PERSON_CACHE (load_persons (db_person Demo.s0)) Demo.s0.
Proof.
  apply (get_person_cold_cache (Some "400002") 400002 Demo.s0); reflexivity.
Defined.

(** X4: once an id has been coerced and looked up, the cache is
    settled: every later lookup leaves the state as it is and answers as
    it would have answered at the start. *)
Theorem get_person_settles (v1 v2 : option string) (pk : Z) (s : state) :
  PyInt.int v1 = Ok pk →
  let s1 := (get_person v1 s).2 in
  get_person v2 s1 = ((get_person v2 s).1, s1).
Proof.
  intros Hpk s1. unfold s1. clear s1.
  rewrite (get_person_served v1 pk s Hpk). cbn [snd].
  destruct (PyInt.int v2) as [pk2|e] eqn:H2.
  - rewrite !(get_person_served v2 pk2 _ H2). cbn [fst].
    by rewrite !served_persons_warm.
  - unfold get_person. rewrite !bind_unfold, !lift_unfold. by rewrite H2.
Qed.

Lemma get_person_settles_witness :
  let s1 := (get_person (Some "999") Demo.s0).2 in
  get_person (Some "400001") s1 = ((get_person (Some "400001") Demo.s0).1, s1).
Proof. apply (get_person_settles (Some "999") (Some "400001") 999 Demo.s0). reflexivity. Defined.

(** X5: a warm cache is never refreshed: whatever the Person table has
    become, [get_person] answers from the cache alone and does not touch
    the state, so a person added to the table after the cache was loaded
    is not found. *)
Theorem get_person_warm_cache (v : option string) (persons : list Person) (s : state) :
  PERSON_CACHE s ≠ ∅ →
  get_person v (set_db_person persons s)
  = (match PyInt.int v with
     | Ok pk => match PERSON_CACHE s !! pk with
                | Some p => Ok p
                | None => Raise KeyError
                end
     | Raise e => Raise e
     end, set_db_person persons s).
Proof.
  intros Hwarm. destruct (PyInt.int v) as [pk|e] eqn:Hv.
  - rewrite (get_person_served v pk _ Hv).
    assert (served_persons (set_db_person persons s) = PERSON_CACHE s) as ->.
    { unfold served_persons. cbn [PERSON_CACHE set_db_person]. by rewrite decide_False. }
    f_equal.
  - unfold get_person. by rewrite bind_unfold, lift_unfold, Hv.
Qed.

Lemma get_person_warm_cache_witness :
  get_person (Some "400002") (set_db_person [mkPerson 400002 "B"] DemoCaches.warm)
  = (Raise KeyError, set_db_person [mkPerson 400002 "B"] DemoCaches.warm).
Proof.
  apply (get_person_warm_cache (Some "400002") [mkPerson 400002 "B"] DemoCaches.warm).
  by intros H%(f_equal (λ m : gmap Z Person, m !! 400001)).
Defined.

(** ** The term cache *)

Lemma load_terms_snoc (l : list BillTerm) (x : BillTerm)
    (c : gmap (option TermType * string) BillTerm) :
  load_terms (l ++ [x]) c
  = <[(term_type x, normalize_name (term_name x)) := x]> (load_terms l c).
Proof. unfold load_terms. by rewrite foldl_app. Qed.

Lemma load_terms_lookup (l : list BillTerm) (ty : option TermType) (nm : string)
    (t : BillTerm) :
  load_terms l ∅ !! (ty, nm) = Some t →
  t ∈ l ∧ term_type t = ty ∧ normalize_name (term_name t) = nm.
Proof.
  induction l as [|x l IH] using rev_ind; [done|].
  rewrite load_terms_snoc.
  destruct (decide ((term_type x, normalize_name (term_name x)) = (ty, nm))) as [Heq|Hne].
  - rewrite Heq, lookup_insert_eq. intros [= <-]. injection Heq as <- <-.
    split; [|done]. apply elem_of_app. right. by apply list_elem_of_singleton.
  - rewrite lookup_insert_ne by done. intros (Hin & Hk)%IH. split; [|done].
    apply elem_of_app. by left.
Qed.

Lemma load_terms_member (l : list BillTerm) (t : BillTerm) :
  t ∈ l → is_Some (load_terms l ∅ !! (term_type t, normalize_name (term_name t))).
Proof.
  induction l as [|x l IH] using rev_ind; [by intros ?%elem_of_nil|].
  rewrite load_terms_snoc. intros [Hin| ->%list_elem_of_singleton]%elem_of_app.
  - destruct (decide ((term_type x, normalize_name (term_name x))
                      = (term_type t, normalize_name (term_name t)))) as [->|Hne].
    + rewrite lookup_insert_eq. by eexists.
    + rewrite lookup_insert_ne by done. by apply IH.
  - rewrite lookup_insert_eq. by eexists.
Qed.

Lemma served_terms_cold (s : state) :
  TERM_CACHE s = ∅ → served_terms s = load_terms (db_billterm s) ∅.
Proof. intros H. unfold served_terms. by rewrite decide_True, H. Qed.

(** X6: with a cold cache [get_term] answers from the BillTerm table, by
    normalized name and within the scheme the congress selects (the new
    scheme from the 111th congress on): the term it returns is a row of
    that scheme whose name normalizes like the name asked for; a row
    like that is enough for the lookup to succeed; and it raises
    [KeyError] when there is none. *)
Theorem get_term_cold_cache (name : string) (c : option Z) (s : state) :
  TERM_CACHE s = ∅ →
  let r := get_term (Some name) c s in
  (∀ t, r.1 = Ok t →
     t ∈ db_billterm s ∧ term_type t = Some (term_scheme c)
     ∧ normalize_name (term_name t) = normalize_name name)
  ∧ (∀ t, t ∈ db_billterm s → term_type t = Some (term_scheme c) →
       normalize_name (term_name t) = normalize_name name → ∃ t', r.1 = Ok t')
  ∧ ((∀ t, t ∈ db_billterm s → term_type t = Some (term_scheme c) →
        normalize_name (term_name t) ≠ normalize_name name) →
     r.1 = Raise KeyError).
Proof.
  intros Hcold r. unfold r. clear r.
  rewrite get_term_served. cbn [fst]. rewrite (served_terms_cold s Hcold).
  fold (term_scheme c).
  split; [|split].
  - intros t Ht.
    destruct (load_terms (db_billterm s) ∅ !! (Some (term_scheme c), normalize_name name))
      as [q|] eqn:Hq; [|done].
    injection Ht as ->. by apply load_terms_lookup.
  - intros t Hin Hty Hnm.
    destruct (load_terms_member _ _ Hin) as [q Hq]. rewrite Hty, Hnm in Hq.
    rewrite Hq. by exists q.
  - intros Hnone.
    destruct (load_terms (db_billterm s) ∅ !! (Some (term_scheme c), normalize_name name))
      as [q|] eqn:Hq; [|done].
    apply load_terms_lookup in Hq as (Hin & Hty & Hnm).
    by destruct (Hnone q Hin Hty).
Qed.

Lemma get_term_cold_cache_witness :
  let r := get_term (Some "ARMED   forces") (Some 112) DemoCaches.terms in
  r.1 = Ok (mkBillTerm (Some 2) (Some TermType_new) "Armed Forces")
  ∧ (∀ t, r.1 = Ok t →
       t ∈ db_billterm DemoCaches.terms ∧ term_type t = Some (term_scheme (Some 112))
       ∧ normalize_name (term_name t) = normalize_name "ARMED   forces")
  ∧ (∀ t, t ∈ db_billterm DemoCaches.terms → term_type t = Some (term_scheme (Some 112)) →
       normalize_name (term_name t) = normalize_name "ARMED   forces" → ∃ t', r.1 = Ok t')
  ∧ ((∀ t, t ∈ db_billterm DemoCaches.terms → term_type t = Some (term_scheme (Some 112)) →
        normalize_name (term_name t) ≠ normalize_name "ARMED   forces") →
     r.1 = Raise KeyError).
Proof.
  split; [reflexivity|].
  apply (get_term_cold_cache "ARMED   forces" (Some 112) DemoCaches.terms). reflexivity.
Defined.

(** ** [BillProcessor.process] and the Bill table *)

Section ProcessTable.

Context (E : Env).

Lemma Processor_process_actions (obj0 obj : Bill) (n : node) (s s1 : state) :
  Processor_process (BillProcessor_schema E) obj0 n s = (Ok obj, s1) →
  major_actions obj = major_actions obj0.
Proof.
  unfold Processor_process. cbn.
  destruct (node_get n "type") as [vt|]; cbn; [|done].
  destruct (node_get n "session") as [vs|]; cbn; [|done].
  destruct (node_get n "number") as [vn|]; cbn; [|done].
  unfold lift.
  destruct (BillType_by_xml_code E (Some vt)) as [t|]; cbn; [|done].
  destruct (PyInt.of_string vs) as [c|]; cbn; [|done].
  destruct (PyInt.of_string vn) as [nn|]; cbn; [|done].
  by intros [= <- <-].
Qed.

Lemma process_sponsor_actions (obj0 obj : Bill) (n : node) (s s1 : state) :
  process_sponsor E obj0 n s = (Ok obj, s1) →
  major_actions obj = major_actions obj0.
Proof.
  unfold process_sponsor, try_except. rewrite bind_unfold.
  destruct (index0 (xpath1 "sponsor" n) s) as [[elem|e] s2].
  - rewrite bind_unfold.
    destruct (get_person (node_get elem "id") s2) as [[p|e] s3].
    + by intros [= <- <-].
    + destruct e; try done; by intros [= <- <-].
  - destruct e; try done; by intros [= <- <-].
Qed.

(** The field extractors never assign [major_actions]. *)
Lemma process_fields_actions (obj0 obj : Bill) (n : node) (s s1 : state) :
  process_fields E obj0 n s = (Ok obj, s1) →
  major_actions obj = major_actions obj0.
Proof.
  unfold process_fields. intros H.
  bind_inv H. apply Processor_process_actions in Hm as Ha.
  bind_inv H. unfold process_titles in Hm0. injection Hm0 as <- <-.
  bind_inv H. unfold process_introduced in Hm0.
  bind_inv Hm0. bind_inv Hm0. injection Hm0 as <- <-.
  bind_inv H. apply process_sponsor_actions in Hm0 as Ha3.
  unfold process_current_status in H.
  bind_inv H. bind_inv H. bind_inv H. injection H as <- <-.
  change (major_actions a0 = major_actions a) in Ha3.
  change (major_actions a0 = major_actions obj0).
  by rewrite Ha3.
Qed.

Lemma process_fields_db_bill (obj0 : Bill) (n : node) (s s1 : state) (r : result Bill) :
  process_fields E obj0 n s = (r, s1) → db_bill s1 = db_bill s.
Proof.
  apply (preserves_run db_bill), process_fields_frame. by intros.
Qed.

Lemma relations_db_bill (obj : Bill) (n : node) (s : state) :
  db_bill (relations E obj n s).2 = db_bill s.
Proof. by apply (relations_frame E db_bill obj n). Qed.

(** What [process] comes to once the fields are extracted: the bill is
    written under the id of the row that holds its key, or under a fresh
    id when there is none, and the relationship phases follow. *)
Lemma process_saved (n : node) (s s1 : state) (obj : Bill) :
  process_fields E Bill_new n s = (Ok obj, s1) →
  ∃ k, document_key E n = Some k ∧ natural_key obj = Some k
    ∧ db_bill s1 = db_bill s
    ∧ match bills_with_key k (db_bill s) with
      | [] =>
          process E Bill_new n s
          = relations E (set_bill_id (Some (next_id (db_bill s))) obj) n
              (set_db_bill (<[next_id (db_bill s)
                              := set_bill_id (Some (next_id (db_bill s))) obj]>
                              (db_bill s)) s1)
      | [(i, _)] =>
          process E Bill_new n s
          = relations E (set_bill_id (Some i) obj) n
              (set_db_bill (<[i := set_bill_id (Some i) obj]> (db_bill s)) s1)
      | _ => process E Bill_new n s = (Raise MultipleObjectsReturned, s1)
      end.
Proof.
  intros Hf.
  destruct (process_fields_key E _ _ _ _ _ Hf) as (Hdoc & [k Hkey] & Hnoid).
  pose proof (process_fields_db_bill _ _ _ _ _ Hf) as Hdb.
  exists k. split; [congruence|]. split; [done|]. split; [done|].
  rewrite process_unfold, (bind_ok _ _ _ _ _ Hf). rewrite <- Hdb.
  destruct (bills_with_key k (db_bill s1)) as [|[i b] [|? ?]] eqn:Hb.
  - rewrite (bind_ok _ _ _ _ _ (adopt_id_absent obj k s1 Hkey Hb)).
    unfold Bill_save at 1. rewrite Hnoid. cbn [bill_id Bill_new]. by msimp.
  - rewrite (bind_ok _ _ _ _ _ (adopt_id_found obj k i b s1 Hkey Hb)).
    unfold Bill_save at 1. cbn [bill_id set_bill_id]. by msimp.
  - rewrite bind_unfold. unfold adopt_id, try_except.
    change (mk_key (congress obj) (bill_type obj) (number obj))
      with (natural_key obj).
    rewrite Hkey. unfold Bill_objects_get. msimp. rewrite Hb. by msimp.
Qed.

End ProcessTable.

Section ProcessRows.

Context (E : Env).

Lemma bills_with_key_insert_other (k : bill_key) (bills : gmap Z Bill) (i : Z) (obj : Bill) :
  natural_key obj ≠ Some k →
  (length (bills_with_key k (<[i := obj]> bills)) ≤ length (bills_with_key k bills))%nat.
Proof.
  intros Hk. unfold bills_with_key.
  rewrite map_filter_insert_False by done.
  rewrite map_filter_delete, !length_map_to_list.
  apply map_subseteq_size, delete_subseteq.
Qed.

(** X7: when no Bill row has the natural key of the document, [process]
    inserts: the processed bill is stored under an id that no row had,
    it is then the only row of its key, every row that was in the table
    is still there unchanged, and the bill returned carries the new id.
    When the fields cannot be extracted the table is left as it was. *)
Theorem process_inserts_absent (n : node) (s : state) (k : bill_key) :
  document_key E n = Some k →
  bills_with_key k (db_bill s) = [] →
  let r := process E Bill_new n s in
  let i := next_id (db_bill s) in
  db_bill s !! i = None
  ∧ (∀ j b, db_bill s !! j = Some b → db_bill r.2 !! j = Some b)
  ∧ (∀ obj s1, process_fields E Bill_new n s = (Ok obj, s1) →
       db_bill r.2 = <[i := set_bill_id (Some i) obj]> (db_bill s)
       ∧ bills_with_key k (db_bill r.2) = [(i, set_bill_id (Some i) obj)])
  ∧ (∀ e s1, process_fields E Bill_new n s = (Raise e, s1) → db_bill r.2 = db_bill s)
  ∧ (∀ o, r.1 = Ok o → bill_id o = Some i ∧ db_bill r.2 !! i = Some o).
Proof.
  intros Hdoc Habs r i.
  pose proof (next_id_fresh (db_bill s)) as Hfresh. fold i in Hfresh.
  split; [done|].
  destruct (process_fields E Bill_new n s) as [[obj|e] s1] eqn:Hf.
  - destruct (process_saved E n s s1 obj Hf) as (k' & Hdoc' & Hkey & Hdb & Hp).
    assert (k' = k) as -> by congruence. rewrite Habs in Hp. fold i in Hp.
    assert (db_bill r.2 = <[i := set_bill_id (Some i) obj]> (db_bill s)) as Hr.
    { unfold r. by rewrite Hp, relations_db_bill. }
    split; [|split; [|split]].
    + intros j b Hj. rewrite Hr, lookup_insert_ne; [done|]. congruence.
    + intros obj' s1' [= <- <-]. split; [done|]. rewrite Hr.
      by apply bills_with_key_insert_absent.
    + done.
    + intros o Ho. unfold r in Ho. rewrite Hp in Ho.
      apply relations_returns in Ho. subst o. split; [done|].
      by rewrite Hr, lookup_insert_eq.
  - pose proof (process_fields_db_bill E _ _ _ _ _ Hf) as Hdb.
    unfold r. rewrite (process_fields_raises _ _ _ _ _ _ Hf). cbn [fst snd].
    rewrite Hdb. by repeat split.
Qed.

(** X8: [process] keeps the natural key unique: if no two rows of the
    Bill table share a key before a document is reconciled, none do
    afterwards, whether [process] returns or raises. *)
Theorem process_keeps_key_unique (n : node) (s : state) :
  key_unique (db_bill s) → key_unique (db_bill (process E Bill_new n s).2).
Proof.
  intros Huniq.
  destruct (process_fields E Bill_new n s) as [[obj|e] s1] eqn:Hf.
  2:{ rewrite (process_fields_raises _ _ _ _ _ _ Hf). cbn [snd].
      by rewrite (process_fields_db_bill E _ _ _ _ _ Hf). }
  destruct (process_saved E n s s1 obj Hf) as (k & Hdoc & Hkey & Hdb & Hp).
  assert (∀ i, (bills_with_key k (db_bill s) = []
                ∨ ∃ b, bills_with_key k (db_bill s) = [(i, b)]) →
               key_unique (<[i := set_bill_id (Some i) obj]> (db_bill s))) as Hins.
  { intros i Hi k'. destruct (decide (k' = k)) as [->|Hne].
    - destruct Hi as [Hi|[b Hi]].
      + by rewrite (bills_with_key_insert_absent k _ i _ Hi).
      + by rewrite (bills_with_key_update k _ i b _ Hi).
    - etrans; [|apply (Huniq k')]. apply bills_with_key_insert_other.
      rewrite natural_key_set_bill_id, Hkey. congruence. }
  pose proof (Huniq k) as Hlen.
  destruct (bills_with_key k (db_bill s)) as [|[i b] [|? ?]] eqn:Hb.
  - rewrite Hp, relations_db_bill. cbn [db_bill set_db_bill]. apply Hins. by left.
  - rewrite Hp, relations_db_bill. cbn [db_bill set_db_bill]. apply Hins.
    right. by exists b.
  - cbn [length] in Hlen. lia.
Qed.

Lemma process_returns_saved (n : node) (s s' : state) (o : Bill) :
  process E Bill_new n s = (Ok o, s') →
  ∃ i, bill_id o = Some i ∧ db_bill s' !! i = Some o.
Proof.
  intros Hp.
  destruct (process_fields E Bill_new n s) as [[obj|e] s1] eqn:Hf.
  2:{ by rewrite (process_fields_raises _ _ _ _ _ _ Hf) in Hp. }
  destruct (process_saved E n s s1 obj Hf) as (k & Hdoc & Hkey & Hdb & Hp').
  assert (∀ i, process E Bill_new n s
               = relations E (set_bill_id (Some i) obj) n
                   (set_db_bill (<[i := set_bill_id (Some i) obj]> (db_bill s)) s1) →
               ∃ i, bill_id o = Some i ∧ db_bill s' !! i = Some o) as Hrel.
  { intros i Hi. rewrite Hp in Hi.
    pose proof (relations_returns E _ n _ o (eq_sym (f_equal fst Hi))) as ->.
    exists i. split; [done|].
    pose proof (f_equal (λ x, db_bill x.2) Hi) as Hs'. cbn beta in Hs'.
    rewrite relations_db_bill in Hs'. cbn [snd] in Hs'. rewrite Hs'.
    cbn [db_bill set_db_bill]. by rewrite lookup_insert_eq. }
  destruct (bills_with_key k (db_bill s)) as [|[i b] [|? ?]]; [by eapply Hrel..|].
  by rewrite Hp in Hp'.
Qed.

Lemma process_returns_stored_actions (n : node) (s s' : state) (o : Bill) :
  process E Bill_new n s = (Ok o, s') → major_actions o = [].
Proof.
  intros Hp.
  destruct (process_fields E Bill_new n s) as [[obj|e] s1] eqn:Hf.
  2:{ by rewrite (process_fields_raises _ _ _ _ _ _ Hf) in Hp. }
  pose proof (process_fields_actions E _ _ _ _ _ Hf) as Hact.
  destruct (process_saved E n s s1 obj Hf) as (k & Hdoc & Hkey & Hdb & Hp').
  assert (∀ i, process E Bill_new n s
               = relations E (set_bill_id (Some i) obj) n
                   (set_db_bill (<[i := set_bill_id (Some i) obj]> (db_bill s)) s1) →
               major_actions o = []) as Hrel.
  { intros i Hi. rewrite Hp in Hi.
    by pose proof (relations_returns E _ n _ o (eq_sym (f_equal fst Hi))) as ->. }
  destruct (bills_with_key k (db_bill s)) as [|[i b] [|? ?]]; [by eapply Hrel..|].
  by rewrite Hp in Hp'.
Qed.

(** X9: the bill [process] returns is the stored one: it carries an id,
    the Bill table holds it under that id, and it has no major actions,
    whatever the row held before; they are assigned by the caller. *)
Theorem process_returns_stored_bill (n : node) (s s' : state) (o : Bill) :
  process E Bill_new n s = (Ok o, s') →
  major_actions o = []
  ∧ ∃ i, bill_id o = Some i ∧ db_bill s' !! i = Some o.
Proof.
  intros Hp. split.
  - by apply (process_returns_stored_actions n s s').
  - by apply (process_returns_saved n s).
Qed.

End ProcessRows.

Lemma process_inserts_absent_witness :
  let r := process (Demo.env true ∅) Bill_new Demo.hr1 Demo.s0 in
  let i := next_id (db_bill Demo.s0) in
  db_bill Demo.s0 !! i = None
  ∧ (∀ j b, db_bill Demo.s0 !! j = Some b → db_bill r.2 !! j = Some b)
  ∧ (∀ obj s1, process_fields (Demo.env true ∅) Bill_new Demo.hr1 Demo.s0 = (Ok obj, s1) →
       db_bill r.2 = <[i := set_bill_id (Some i) obj]> (db_bill Demo.s0)
       ∧ bills_with_key (111, 3, 1) (db_bill r.2) = [(i, set_bill_id (Some i) obj)])
  ∧ (∀ e s1, process_fields (Demo.env true ∅) Bill_new Demo.hr1 Demo.s0 = (Raise e, s1) →
       db_bill r.2 = db_bill Demo.s0)
  ∧ (∀ o, r.1 = Ok o → bill_id o = Some i ∧ db_bill r.2 !! i = Some o).
Proof.
  apply (process_inserts_absent (Demo.env true ∅) Demo.hr1 Demo.s0 (111, 3, 1));
    reflexivity.
Defined.

Lemma process_keeps_key_unique_witness :
  key_unique (db_bill (process (Demo.env true ∅) Bill_new Demo.hr1 DemoUpsert.present).2).
Proof.
  apply (process_keeps_key_unique (Demo.env true ∅) Demo.hr1 DemoUpsert.present).
  apply key_unique_singleton.
Defined.

Lemma process_returns_stored_bill_witness :
  let r := process (Demo.env true ∅) Bill_new Demo.hr1 DemoUpsert.present in
  ∃ o, r.1 = Ok o
    ∧ major_actions o = []
    ∧ ∃ i, bill_id o = Some i ∧ db_bill r.2 !! i = Some o.
Proof.
  eexists. split; [vm_compute; reflexivity|].
  apply (process_returns_stored_bill (Demo.env true ∅) Demo.hr1 DemoUpsert.present).
  vm_compute. reflexivity.
Defined.

(** ** [process_committees] and [process_terms] *)

Section Assignments.

Lemma set_log_same (s : state) : set_log (log s) s = s.
Proof. by destruct s. Qed.

Lemma committee_lookup_step (c : option string) (s : state) :
  codes_unique (db_committee s) →
  try_except
    (com ← Committee_objects_get c; mret (Some com))
    (λ e, match e with
          | Committee_DoesNotExist =>
              Some (log_msg ERROR ("Could not find committee " ++ fmt c) ;;
                    mret None)
          | _ => None
          end) s
  = match committees_with_code c (db_committee s) with
    | [] => (Ok None,
             set_log (log s ++ [(ERROR, "Could not find committee " +:+ fmt c)])%list s)
    | com :: _ => (Ok (Some com), s)
    end.
Proof.
  intros Huniq. pose proof (Huniq c) as Hlen.
  unfold try_except, Committee_objects_get, log_msg. msimp.
  destruct (committees_with_code c (db_committee s)) as [|com [|? ?]]; msimp; [done..|].
  cbn [length] in Hlen. lia.
Qed.

Lemma find_committees_loop (nodes : list node) (s : state) :
  codes_unique (db_committee s) →
  collect nodes (λ subnode,
    if decide (node_get subnode "code" = Some "") then mret None
    else
      try_except
        (com ← Committee_objects_get (node_get subnode "code"); mret (Some com))
        (λ e, match e with
              | Committee_DoesNotExist =>
                  Some (log_msg ERROR ("Could not find committee "
                                         ++ fmt (node_get subnode "code")) ;;
                        mret None)
              | _ => None
              end)) s
  = (Ok (committees_found (db_committee s) ((λ x, node_get x "code") <$> nodes)),
     set_log (log s ++ committee_errors (db_committee s)
                         ((λ x, node_get x "code") <$> nodes))%list s).
Proof.
  revert s. induction nodes as [|x nodes IH]; intros s Huniq.
  { cbn. by rewrite ret_unfold, app_nil_r, set_log_same. }
  cbn [collect fmap list_fmap]. rewrite bind_unfold.
  unfold committees_found, committee_errors, looked_up.
  destruct (decide (node_get x "code" = Some "")) as [Hblank|Hcode].
  - rewrite ret_unfold, bind_unfold, (IH s Huniq), ret_unfold.
    rewrite (filter_cons_False _ (node_get x "code")) by (by intros []).
    done.
  - rewrite (filter_cons_True _ (node_get x "code")) by done.
    rewrite bind_cons.
    rewrite (committee_lookup_step _ s Huniq).
    destruct (committees_with_code (node_get x "code") (db_committee s))
      as [|com l] eqn:Hc.
    + rewrite bind_unfold, (IH (set_log _ s) Huniq). msimp. cbn [db_committee set_log log].
      rewrite filter_cons_True by done. rewrite fmap_cons.
      cbn [app]. f_equal. unfold set_log. cbn. by rewrite <- app_assoc.
    + pose proof (Huniq (node_get x "code")) as Hlen. rewrite Hc in Hlen.
      destruct l; [|cbn [length] in Hlen; lia].
      rewrite bind_unfold, (IH _ Huniq). msimp.
      by rewrite filter_cons_False by (by rewrite Hc).
Qed.

(** X10: over a Committee table with unique codes [process_committees]
    never fails for a saved bill: the committees of the bill become
    exactly those whose code the document names (a full replace of the
    previous set), an element with the empty code is skipped without a
    message, every other code that no committee has is reported in the
    log once per element, and nothing else changes. *)
Theorem process_committees_replaces (obj : Bill) (n : node) (i : Z) (s : state) :
  bill_id obj = Some i → codes_unique (db_committee s) →
  process_committees obj n s
  = (Ok tt,
     set_bill_committees
       (<[i := list_to_set
                 (committee_id <$> committees_found (db_committee s) (committee_codes n))]>
          (bill_committees s))
       (set_log (log s ++ committee_errors (db_committee s) (committee_codes n))%list s)).
Proof.
  intros Hid Huniq. unfold process_committees, find_committees.
  rewrite bind_unfold, (find_committees_loop _ s Huniq).
  rewrite Hid. unfold pk_of. by msimp.
Qed.

Lemma term_lookup_step (name : option string) (c : option Z) (s : state) :
  try_except
    (t ← get_term name c; mret (Some t))
    (λ e, match e with
          | KeyError =>
              Some (log_msg ERROR ("Could not find term [name: " ++ fmt name ++ "]") ;;
                    mret None)
          | _ => None
          end) s
  = match name with
    | None => (Raise TypeError, set_TERM_CACHE (served_terms s) s)
    | Some nm =>
        match term_of (served_terms s) c nm with
        | Some t => (Ok (Some t), set_TERM_CACHE (served_terms s) s)
        | None =>
            (Ok None,
             set_log (log s ++ [(ERROR, "Could not find term [name: " +:+ nm +:+ "]")])%list
               (set_TERM_CACHE (served_terms s) s))
        end
    end.
Proof.
  unfold try_except. rewrite bind_unfold, get_term_served.
  destruct name as [nm|]; [|done].
  unfold term_of, term_scheme.
  destruct (served_terms s !! _) as [t|]; [by msimp|].
  unfold log_msg. by msimp.
Qed.

Lemma find_terms_loop (nodes : list node) (names : list string) (c : option Z) (s : state) :
  (λ x, node_get x "name") <$> nodes = Some <$> names →
  collect nodes (λ subnode,
    try_except
      (t ← get_term (node_get subnode "name") c; mret (Some t))
      (λ e, match e with
            | KeyError =>
                Some (log_msg ERROR ("Could not find term [name: "
                                       ++ fmt (node_get subnode "name") ++ "]") ;;
                      mret None)
            | _ => None
            end)) s
  = (Ok (terms_found (served_terms s) c names),
     set_log (log s ++ term_errors (served_terms s) c names)%list
       (set_TERM_CACHE (match names with
                        | [] => TERM_CACHE s
                        | _ => served_terms s
                        end) s)).
Proof.
  revert names s. induction nodes as [|x nodes IH]; intros [|nm names] s Hnames;
    try discriminate Hnames.
  { cbn. rewrite ret_unfold, app_nil_r. by destruct s. }
  rewrite !fmap_cons in Hnames. injection Hnames as Hx Hnames.
  cbn [collect]. rewrite bind_unfold.
  rewrite term_lookup_step, Hx.
  unfold terms_found, term_errors. cbn [omap list_omap].
  assert (∀ L, served_terms (set_log L (set_TERM_CACHE (served_terms s) s))
               = served_terms s) as Hwarm_log.
  { intros L. apply served_terms_warm. }
  assert (∀ (l : list string) s1, served_terms s1 = served_terms s →
            TERM_CACHE s1 = served_terms s →
            match l with [] => TERM_CACHE s1 | _ => served_terms s1 end
            = served_terms s) as Hcache.
  { intros [|? ?] s1 H1 H2; congruence. }
  destruct (term_of (served_terms s) c nm) as [t|] eqn:Ht.
  - rewrite bind_unfold, (IH names _ Hnames), ret_unfold.
    rewrite (Hcache names _ (served_terms_warm s) eq_refl), served_terms_warm.
    rewrite filter_cons_False by (by rewrite Ht). done.
  - rewrite bind_unfold, (IH names _ Hnames), ret_unfold.
    rewrite (Hcache names _ (Hwarm_log _) eq_refl), Hwarm_log.
    rewrite filter_cons_True by done. rewrite fmap_cons.
    f_equal. unfold set_log, set_TERM_CACHE. cbn. by rewrite <- app_assoc.
Qed.

(** X11: when every [subjects/term] element has a name,
    [process_terms] never fails for a saved bill: the terms of the bill
    become exactly the terms the cache serves for the names of the
    document, looked up by normalized name in the scheme of the
    congress (a full replace of the previous set); every name the cache
    does not hold is reported in the log and dropped; apart from the
    cache being loaded, nothing else changes. *)
Theorem process_terms_replaces (obj : Bill) (n : node) (c : option Z) (i : Z)
    (names : list string) (s : state) :
  bill_id obj = Some i → term_names n = Some <$> names →
  process_terms obj n c s
  = (Ok tt,
     set_bill_terms
       (<[i := list_to_set (omap term_id (terms_found (served_terms s) c names))]>
          (bill_terms s))
       (set_log (log s ++ term_errors (served_terms s) c names)%list
          (set_TERM_CACHE (match names with
                           | [] => TERM_CACHE s
                           | _ => served_terms s
                           end) s))).
Proof.
  intros Hid Hnames. unfold process_terms, find_terms.
  rewrite bind_unfold, (find_terms_loop _ names c s Hnames).
  rewrite Hid. unfold pk_of. by msimp.
Qed.

Lemma find_terms_nameless (nodes : list node) (c : option Z) (s : state) :
  None ∈ (λ x, node_get x "name") <$> nodes →
  (collect nodes (λ subnode,
    try_except
      (t ← get_term (node_get subnode "name") c; mret (Some t))
      (λ e, match e with
            | KeyError =>
                Some (log_msg ERROR ("Could not find term [name: "
                                       ++ fmt (node_get subnode "name") ++ "]") ;;
                      mret None)
            | _ => None
            end)) s).1 = Raise TypeError.
Proof.
  revert s. induction nodes as [|x nodes IH]; intros s; [by intros ?%elem_of_nil|].
  rewrite fmap_cons. intros Hin.
  cbn [collect]. rewrite bind_unfold. rewrite term_lookup_step.
  destruct (node_get x "name") as [nm|] eqn:Hx; [|done].
  apply elem_of_cons in Hin as [|Hin]; [done|].
  destruct (term_of (served_terms s) c nm);
    rewrite bind_unfold;
    match goal with
    | |- context [collect nodes ?b ?s1] =>
        pose proof (IH s1 Hin) as Htail; destruct (collect nodes b s1) as [[?|?] ?]
    end; cbn [fst] in Htail; by simplify_eq.
Qed.

(** X12: a [subjects/term] element without a name makes
    [process_terms] fail with a [TypeError], which it does not catch;
    the terms already assigned to the bill are left as they were,
    because the new list is assigned only after the loop. *)
Theorem process_terms_nameless (obj : Bill) (n : node) (c : option Z) (s : state) :
  None ∈ term_names n →
  let r := process_terms obj n c s in
  r.1 = Raise TypeError ∧ bill_terms r.2 = bill_terms s.
Proof.
  intros Hin r. unfold r. clear r.
  pose proof (find_terms_nameless _ c s Hin) as Hloop.
  pose proof (find_terms_frame_gen bill_terms n c (λ _ _, eq_refl)
                (λ nm c, get_term_frame bill_terms nm c (λ _ _, eq_refl)) s) as Hfr.
  unfold process_terms. rewrite bind_unfold. unfold find_terms in *.
  destruct (collect _ _ s) as [[?|e] s1]; cbn [fst snd] in *; by simplify_eq.
Qed.

End Assignments.

Lemma process_committees_replaces_witness :
  process_committees DemoRelations.saved DemoRelations.doc DemoRelations.state0
  = (Ok tt,
     set_bill_committees
       (<[1 := list_to_set
                 (committee_id <$> committees_found (db_committee DemoRelations.state0)
                                     (committee_codes DemoRelations.doc))]>
          (bill_committees DemoRelations.state0))
       (set_log (log DemoRelations.state0
                   ++ committee_errors (db_committee DemoRelations.state0)
                        (committee_codes DemoRelations.doc))%list
          DemoRelations.state0))
  ∧ committees_found (db_committee DemoRelations.state0)
      (committee_codes DemoRelations.doc) = [mkCommittee 1 "HSAG"]
  ∧ committee_errors (db_committee DemoRelations.state0)
      (committee_codes DemoRelations.doc)
    = [(ERROR, "Could not find committee XXXX")].
Proof.
  split; [|split; reflexivity].
  apply (process_committees_replaces DemoRelations.saved DemoRelations.doc 1
           DemoRelations.state0).
  - reflexivity.
  - intros code. unfold committees_with_code. cbn.
    destruct (decide (code = Some "HSAG")); cbn; lia.
Defined.

Lemma process_terms_replaces_witness :
  process_terms DemoRelations.saved DemoRelations.doc (Some 111) DemoRelations.state0
  = (Ok tt,
     set_bill_terms
       (<[1 := list_to_set
                 (omap term_id
                    (terms_found (served_terms DemoRelations.state0) (Some 111)
                       ["armed  FORCES"; "Taxation"]))]>
          (bill_terms DemoRelations.state0))
       (set_log (log DemoRelations.state0
                   ++ term_errors (served_terms DemoRelations.state0) (Some 111)
                        ["armed  FORCES"; "Taxation"])%list
          (set_TERM_CACHE (served_terms DemoRelations.state0) DemoRelations.state0)))
  ∧ terms_found (served_terms DemoRelations.state0) (Some 111)
      ["armed  FORCES"; "Taxation"]
    = [mkBillTerm (Some 2) (Some TermType_new) "Armed Forces"]
  ∧ term_errors (served_terms DemoRelations.state0) (Some 111)
      ["armed  FORCES"; "Taxation"]
    = [(ERROR, "Could not find term [name: Taxation]")].
Proof.
  split; [|split; reflexivity].
  apply (process_terms_replaces DemoRelations.saved DemoRelations.doc (Some 111) 1
           ["armed  FORCES"; "Taxation"] DemoRelations.state0); reflexivity.
Defined.

Lemma process_terms_nameless_witness :
  let r := process_terms DemoRelations.saved DemoRelations.nameless (Some 111)
             DemoRelations.state0 in
  r.1 = Raise TypeError ∧ bill_terms r.2 = bill_terms DemoRelations.state0.
Proof.
  apply (process_terms_nameless DemoRelations.saved DemoRelations.nameless (Some 111)
           DemoRelations.state0).
  apply list_elem_of_In. vm_compute. tauto.
Defined.

(** ** [process_consponsors] *)

Section Cosponsors.

Context (E : Env).

Lemma cosponsors_loop_entries (obj : Bill) (b : Z) (nodes : list node) (s s' : state) :
  bill_id obj = Some b →
  for_each nodes (cosponsor_node E obj) s = (Ok tt, s') →
  ∃ es, Forall2 (λ x e, cosponsor_entry E (served_persons s) x = Ok e) nodes es
    ∧ db_cosponsor s' = foldl (cosponsor_step b) (db_cosponsor s) es.
Proof.
  intros Hid. revert s. induction nodes as [|x nodes IH]; intros s Hrun.
  - injection Hrun as <-. by exists [].
  - cbn [for_each] in Hrun. rewrite bind_unfold in Hrun.
    pose proof (cosponsor_node_spec E obj b x s Hid) as Hx.
    destruct (cosponsor_entry E (served_persons s) x) as [e|ex] eqn:He.
    + rewrite Hx in Hrun. apply IH in Hrun as (es & Hall & Hdb).
      rewrite served_persons_step in Hall.
      exists (e :: es). split; [|done]. by constructor.
    + destruct Hx as (sx & Hsx & _). by rewrite Hsx in Hrun.
Qed.

Lemma cosponsor_chain_other (b : Z) (key : Z * Z) (o : option Cosponsor)
    (es : list cos_entry) :
  Forall (λ e, (entry_person e, b) ≠ key) es → cosponsor_chain b key o es = o.
Proof.
  induction es as [|e es IH] using rev_ind; [done|].
  intros [Hes He]%Forall_app. apply Forall_inv in He.
  rewrite cosponsor_chain_snoc, (IH Hes).
  destruct e as [[[pk j] w] r0]. cbn in *. by rewrite decide_False.
Qed.

Lemma cosponsor_chain_app (b : Z) (key : Z * Z) (o : option Cosponsor)
    (es1 es2 : list cos_entry) :
  cosponsor_chain b key o (es1 ++ es2)
  = cosponsor_chain b key (cosponsor_chain b key o es1) es2.
Proof. unfold cosponsor_chain. by rewrite foldl_app. Qed.

(** X13: whether it returns or raises, [process_consponsors] removes no
    Cosponsor row, leaves the rows of every other bill as they were, and
    never changes the role of a row that was there: a later run updates
    the two dates only. *)
Theorem process_consponsors_keeps_rows (obj : Bill) (n : node) (b : Z) (s : state) :
  bill_id obj = Some b →
  let s' := (process_consponsors E obj n s).2 in
  (∀ p b', b' ≠ b → db_cosponsor s' !! (p, b') = db_cosponsor s !! (p, b'))
  ∧ (∀ key ob, db_cosponsor s !! key = Some ob →
       ∃ ob', db_cosponsor s' !! key = Some ob' ∧ role ob' = role ob).
Proof.
  intros Hid s'. unfold s'. clear s'. unfold process_consponsors.
  destruct (for_each _ _ s) as [r s'] eqn:Hrun. cbn [snd].
  destruct (cosponsors_loop_delta E obj b _ s s' r Hid Hrun) as (es & -> & _).
  split.
  - intros p b' Hb'. rewrite cosponsor_fold_lookup. apply cosponsor_chain_other.
    apply Forall_forall. intros e _. congruence.
  - intros key ob Hob. rewrite cosponsor_fold_lookup, Hob.
    destruct (cosponsor_chain_dates_only b key es) as [Hsame|(j & w & Hset)].
    + rewrite Hsame. by exists ob.
    + destruct (Hset (Some ob)) as (r' & -> & Hr'). eexists. split; [done|].
      by apply Hr'.
Qed.

(** X14: after [process_consponsors] has returned, the row of each
    person the document lists carries the two dates of the last
    reference to that person: [joined] as parsed, and [withdrawn] as
    parsed or null when the attribute is missing or empty, so that a
    withdrawal that is no longer in the document is erased. *)
Theorem process_consponsors_records_dates (obj : Bill) (n : node) (b : Z)
    (s s' : state) (before after : list node) (subnode : node) (e : cos_entry) :
  bill_id obj = Some b →
  process_consponsors E obj n s = (Ok tt, s') →
  xpath2 "cosponsors" "cosponsor" n = (before ++ subnode :: after)%list →
  cosponsor_entry E (served_persons s) subnode = Ok e →
  (∀ x e', x ∈ after → cosponsor_entry E (served_persons s) x = Ok e' →
     entry_person e' ≠ entry_person e) →
  ∃ ob, db_cosponsor s' !! (entry_person e, b) = Some ob
    ∧ joined ob = e.1.1.2 ∧ withdrawn ob = e.1.2.
Proof.
  intros Hid Hrun Hsplit He Hafter. unfold process_consponsors in Hrun.
  rewrite Hsplit in Hrun.
  destruct (cosponsors_loop_entries obj b _ s s' Hid Hrun) as (es & Hall & ->).
  apply Forall2_app_inv_l in Hall as (es1 & es2' & Hes1 & Hes2 & ->).
  apply Forall2_cons_inv_l in Hes2 as (e0 & es2 & He0 & Hes2 & ->).
  rewrite He in He0. injection He0 as <-.
  rewrite cosponsor_fold_lookup, cosponsor_chain_app.
  change (e :: es2) with ([e] ++ es2)%list. rewrite cosponsor_chain_app.
  rewrite (cosponsor_chain_other _ _ _ es2).
  - destruct e as [[[pk j] w] r0]. cbn. rewrite decide_True by done.
    by eexists.
  - apply Forall_forall. intros e' He'.
    apply list_elem_of_lookup in He' as [i Hi].
    destruct (Forall2_lookup_r _ _ _ _ _ Hes2 Hi) as (x & Hx & Hxe).
    apply list_elem_of_lookup_2 in Hx.
    intros [= Heq]. by apply (Hafter x e' Hx Hxe).
Qed.

End Cosponsors.

Lemma process_consponsors_keeps_rows_witness :
  let s' := (process_consponsors (Demo.env true ∅) DemoRelations.saved Demo.hr1 Demo.s0).2 in
  (∀ p b', b' ≠ 1 → db_cosponsor s' !! (p, b') = db_cosponsor Demo.s0 !! (p, b'))
  ∧ (∀ key ob, db_cosponsor Demo.s0 !! key = Some ob →
       ∃ ob', db_cosponsor s' !! key = Some ob' ∧ role ob' = role ob).
Proof.
  apply (process_consponsors_keeps_rows (Demo.env true ∅) DemoRelations.saved Demo.hr1 1
           Demo.s0).
  reflexivity.
Defined.

Lemma process_consponsors_records_dates_witness :
  let r := process_consponsors (Demo.env true ∅) DemoRelations.saved Demo.hr1 Demo.s0 in
  ∃ ob, db_cosponsor r.2 !! (400002, 1) = Some ob
    ∧ joined ob = 102 ∧ withdrawn ob = None.
Proof.
  apply (process_consponsors_records_dates (Demo.env true ∅) DemoRelations.saved Demo.hr1 1
           Demo.s0 _ [] [] (Node "cosponsor" [("id", "400002"); ("joined", "102")] None [])
           (400002, 102, None, Some 400002)).
  - reflexivity.
  - vm_compute. reflexivity.
  - reflexivity.
  - reflexivity.
  - by intros x e' ?%elem_of_nil.
Defined.

(** ** [process_relatedbills] *)

Section RelatedFailure.

Context (E : Env).

(** X15: the related-bill rows of a bill are deleted before the
    references of the document are read, so a reference that cannot be
    read costs the bill its old rows: [process_relatedbills] raises the
    error of that reference and leaves the bill with the rows of the
    references that precede it only; what follows the reference is not
    recorded, and the rows of other bills are kept. *)
Theorem process_relatedbills_stops_at_unreadable (obj : Bill) (n : node) (b : Z)
    (s : state) (before after : list node) (bad : node) (e : exn) :
  bill_id obj = Some b →
  key_unique (db_bill s) →
  xpath2 "relatedbills" "bill" n = (before ++ bad :: after)%list →
  (∀ subnode, subnode ∈ before → readable_ref E subnode) →
  related_target E (db_bill s) bad = Raise e → e ≠ Bill_DoesNotExist →
  process_relatedbills E obj n s
  = (Raise e,
     set_db_relatedbill
       (filter (λ r, rb_bill r ≠ b) (db_relatedbill s)
          ++ omap (related_row E (db_bill s) b) before) s).
Proof.
  intros Hid Hu Hsplit Hbefore Hbad Hne. unfold process_relatedbills.
  rewrite Hid, Hsplit.
  rewrite bind_unfold. cbn [pk_of mret M_ret]. rewrite bind_unfold. cbn [modify].
  rewrite for_each_app, bind_unfold, related_loop.
  2:{ intros subnode Hin. cbn. apply related_target_readable; auto. }
  cbn [for_each]. rewrite bind_unfold, related_step. cbn [db_bill set_db_relatedbill].
  rewrite Hbad. destruct e; try done; by destruct s.
Qed.

End RelatedFailure.

Lemma process_relatedbills_stops_at_unreadable_witness :
  process_relatedbills (Demo.env true ∅) (set_bill_id (Some 5) Bill_new)
    DemoBroken.doc DemoUpsert.present
  = (Raise TypeError,
     set_db_relatedbill
       (filter (λ r, rb_bill r ≠ 5) (db_relatedbill DemoUpsert.present)
          ++ omap (related_row (Demo.env true ∅) (db_bill DemoUpsert.present) 5)
               [Node "bill" [("session", "111"); ("type", "hr"); ("number", "1");
                             ("relation", "identical")] None []])
       DemoUpsert.present)
  ∧ (filter (λ r, rb_bill r ≠ 5) (db_relatedbill DemoUpsert.present)
       ++ omap (related_row (Demo.env true ∅) (db_bill DemoUpsert.present) 5)
            [Node "bill" [("session", "111"); ("type", "hr"); ("number", "1");
                          ("relation", "identical")] None []])%list
    = [mkRelatedBill 6 5 (Some "other"); mkRelatedBill 5 5 (Some "identical")].
Proof.
  split; [|by vm_compute].
  apply (process_relatedbills_stops_at_unreadable (Demo.env true ∅)
           (set_bill_id (Some 5) Bill_new) DemoBroken.doc 5 DemoUpsert.present
           [Node "bill" [("session", "111"); ("type", "hr"); ("number", "1");
                         ("relation", "identical")] None []]
           [Node "bill" [("session", "111"); ("type", "hr"); ("number", "1");
                         ("relation", "rule")] None []]
           (Node "bill" [("session", "111"); ("type", "hr")] None [])
           TypeError).
  - reflexivity.
  - apply key_unique_singleton.
  - reflexivity.
  - intros subnode ->%list_elem_of_singleton.
    split; [by eexists|]. split; [by eexists|]. right. by eexists.
  - reflexivity.
  - discriminate.
Defined.

(** ** [main]: the skip path *)

Section Skipping.

Context (E : Env).

Lemma get_by_path_found (fname : string) (g : string * string * string)
    (c t nn i : Z) (b : Bill) (s : state) :
  BillPath.search fname = Some g →
  BillType_by_xml_code E (Some g.1.2) = Ok t →
  PyInt.int (Some g.1.1) = Ok c → PyInt.int (Some g.2) = Ok nn →
  bills_with_key (c, t, nn) (db_bill s) = [(i, b)] →
  get_by_path E (BillPath.search fname) s = (Ok (set_bill_id (Some i) b), s).
Proof.
  intros -> Ht Hc Hn Hb. unfold get_by_path, groups, Bill_objects_get.
  munfold. rewrite Ht, Hc, Hn. cbn. by rewrite Hb.
Qed.

(** What the skip path does when it finds the Bill of the path. *)
Lemma skip_path_found (opts : options) (fname : string) (f : file)
    (g : string * string * string) (c t nn i : Z) (b : Bill) (s : state) :
  disk E !! fname = Some f →
  db_file s !! fname = Some (file_signature f) →
  force opts = false →
  BillPath.search fname = Some g →
  BillType_by_xml_code E (Some g.1.2) = Ok t →
  PyInt.int (Some g.1.1) = Ok c → PyInt.int (Some g.2) = Ok nn →
  bills_with_key (c, t, nn) (db_bill s) = [(i, b)] →
  let seen := set_seen_bill_ids (seen_bill_ids s ++ [Some i]) s in
  skip_path E opts fname s
  = (Ok true,
     match (if negb (disable_indexing opts) && negb (disable_events opts)
            then changed_text E s (textfile_of g) else None) with
     | Some sig =>
         set_db_file (<[textfile_of g := sig]> (db_file s))
           (set_events (events s ++ [Some i]) (set_indexed (indexed s ++ [Some i]) seen))
     | None => seen
     end).
Proof.
  intros Hf Hsig Hforce Hg Ht Hc Hn Hb seen.
  unfold skip_path.
  rewrite (bind_ok _ _ _ _ _ (File_is_changed_eq E fname f s Hf)).
  rewrite Hforce, bool_decide_eq_true_2 by done. cbn [negb andb].
  unfold try_except. rewrite bind_unfold.
  rewrite (get_by_path_found fname g c t nn i b s Hg Ht Hc Hn Hb).
  rewrite Hg. cbn [groups]. msimp. cbn [bill_id set_bill_id]. fold seen.
  unfold changed_text, path_exists.
  destruct (negb (disable_indexing opts) && negb (disable_events opts)); cbn [andb];
    [|by msimp].
  destruct (disk E !! textfile_of g) as [f'|] eqn:Hf'.
  2:{ rewrite bool_decide_eq_false_2 by (by intros [? ?]). by msimp. }
  rewrite bool_decide_eq_true_2 by (by eexists).
  rewrite (bind_ok _ _ _ _ _ (File_is_changed_eq E _ f' _ Hf')).
  change (db_file seen) with (db_file s).
  destruct (bool_decide (db_file s !! textfile_of g = Some (file_signature f')));
    cbn [negb]; [by msimp|].
  unfold update_object, create_events, File_save_file. rewrite Hf'. by msimp.
Qed.

(** X16: when the change tracker reports the file unchanged, the run is
    not forced and the Bill of the path exists, the file is not parsed:
    the id of the bill is noted as seen and no table is written.  Only
    when indexing and events are both enabled and the text of the bill
    exists with a signature that is not on record is the bill indexed
    again, its events created, and the signature of the text recorded. *)
Theorem main_bill_file_skips (opts : options) (fname : string) (f : file)
    (g : string * string * string) (c t nn i : Z) (b : Bill) (s : state) :
  disk E !! fname = Some f →
  db_file s !! fname = Some (file_signature f) →
  force opts = false →
  BillPath.search fname = Some g →
  BillType_by_xml_code E (Some g.1.2) = Ok t →
  PyInt.int (Some g.1.1) = Ok c → PyInt.int (Some g.2) = Ok nn →
  bills_with_key (c, t, nn) (db_bill s) = [(i, b)] →
  let seen := set_seen_bill_ids (seen_bill_ids s ++ [Some i]) s in
  main_bill_file E opts fname s
  = (Ok tt,
     match (if negb (disable_indexing opts) && negb (disable_events opts)
            then changed_text E s (textfile_of g) else None) with
     | Some sig =>
         set_db_file (<[textfile_of g := sig]> (db_file s))
           (set_events (events s ++ [Some i]) (set_indexed (indexed s ++ [Some i]) seen))
     | None => seen
     end).
Proof.
  intros Hf Hsig Hforce Hg Ht Hc Hn Hb seen.
  unfold main_bill_file. rewrite bind_unfold.
  by rewrite (skip_path_found opts fname f g c t nn i b s Hf Hsig Hforce Hg Ht Hc Hn Hb).
Qed.

(** X17: whatever it finds and however it ends, the skip path writes to
    no table: only the change records, the list of seen ids and the
    calls to the index and the event generator can differ afterwards. *)
Theorem skip_path_keeps_tables (opts : options) (fname : string) (s : state) :
  tables (skip_path E opts fname s).2 = tables s.
Proof.
  revert s. change (preserves tables (skip_path E opts fname)).
  unfold skip_path, File_is_changed, File_save_file, get_by_path, groups,
    update_object, create_events.
  solve_preserves; apply Bill_objects_get_frame.
Qed.

End Skipping.

Lemma main_bill_file_skips_witness :
  main_bill_file (Demo.env true DemoRun.files) DemoFiles.opts DemoFiles.good_path
    DemoRun.tracked
  = (Ok tt,
     set_db_file (<[DemoRun.text_path := 3]> (db_file DemoRun.tracked))
       (set_events [Some 5]
          (set_indexed [Some 5] (set_seen_bill_ids [Some 5] DemoRun.tracked)))).
Proof.
  apply (main_bill_file_skips (Demo.env true DemoRun.files) DemoFiles.opts
           DemoFiles.good_path (mkFile 8 (Some Demo.hr1)) ("111", "hr", "1") 111 3 1 5
           DemoUpsert.old_hr1 DemoRun.tracked); by vm_compute.
Defined.

(** ** [main]: parsing a bill file *)

Section Parsing.

Context (E : Env).

Lemma process_frame {V} (f : state → V) (obj : Bill) (n : node) :
  (∀ c s, f (set_log c s) = f s) →
  (∀ c s, f (set_PERSON_CACHE c s) = f s) →
  (∀ c s, f (set_TERM_CACHE c s) = f s) →
  (∀ c s, f (set_db_bill c s) = f s) →
  (∀ c s, f (set_bill_committees c s) = f s) →
  (∀ c s, f (set_bill_terms c s) = f s) →
  (∀ c s, f (set_db_cosponsor c s) = f s) →
  (∀ c s, f (set_db_relatedbill c s) = f s) →
  preserves f (process E obj n).
Proof.
  intros.
  change (process E obj n)
    with (obj ← process_fields E obj n; obj ← adopt_id obj; obj ← Bill_save obj;
          relations E obj n).
  apply preserves_bind; [by apply process_fields_frame|intros ?].
  apply preserves_bind; [apply adopt_id_frame|intros ?].
  apply preserves_bind; [by apply Bill_save_frame|intros ?].
  by apply relations_frame.
Qed.

Lemma collect_actions (l : list node) (s : state) :
  collect l (λ axn,
    d ← lift (parse_datetime E (Some (attr_string axn "datetime")));
    st ← lift (BillStatus_by_xml_code E (Some (attr_string axn "state")));
    mret (Some (repr_datetime E d, st, child_text axn))) s
  = (actions_of E l, s).
Proof.
  induction l as [|axn l IH]; [done|].
  cbn [collect actions_of]. unfold action_of. rewrite bind_unfold. msimp.
  destruct (parse_datetime E _) as [d|e]; [|done]. msimp.
  destruct (BillStatus_by_xml_code E _) as [st|e]; [|done]. msimp.
  rewrite IH. cbn [result_bind]. by destruct (actions_of E l).
Qed.

(** What the body of the loop over the [bill] elements comes to. *)
Lemma reconcile_node_unfold (opts : options) (fname : string) (tree n : node) (s : state) :
  reconcile_node E opts fname false tree n s
  = match process E Bill_new n s with
    | (Ok o, sp) =>
        let seen := set_seen_bill_ids (seen_bill_ids sp ++ [bill_id o]) sp in
        match actions_of E (xpath_actions tree) with
        | Ok acts =>
            ((Bill_save (set_major_actions acts o) ≫= λ bill,
              (if negb (disable_indexing opts) then update_object bill else mret tt) ;;
              if negb (disable_events opts) then create_events bill else mret tt) seen)
        | Raise e => (Raise e, seen)
        end
    | (Raise e, sp) => (Raise e, sp)
    end.
Proof.
  unfold reconcile_node. cbn [negb]. rewrite bind_unfold.
  destruct (process E Bill_new n s) as [[o|e] sp]; [|done].
  rewrite bind_unfold, modify_unfold, bind_unfold, collect_actions.
  by destruct (actions_of E (xpath_actions tree)).
Qed.

Lemma reconcile_node_db_file (opts : options) (fname : string) (tree n : node) :
  preserves db_file (reconcile_node E opts fname false tree n).
Proof.
  unfold reconcile_node, update_object, create_events. cbn [negb].
  apply preserves_bind; [by apply process_frame|intros ?].
  apply preserves_bind; [solve_preserves|intros ?].
  apply preserves_bind; [solve_preserves|intros ?].
  apply preserves_bind; [by apply Bill_save_frame|intros ?].
  solve_preserves.
Qed.

(** X18: the change record of a bill file is written exactly when the
    file has been reconciled without error: if [parse_file] returns, the
    record of the file holds its current signature; if it raises, at
    whatever point, the change records are as they were, so the file
    still counts as changed on the next run if it did on this one. *)
Theorem parse_file_records_success_only (opts : options) (fname : string) (s : state) :
  let r := parse_file E opts fname s in
  (r.1 = Ok tt →
     ∃ f, disk E !! fname = Some f
          ∧ db_file r.2 = <[fname := file_signature f]> (db_file s))
  ∧ (∀ e, r.1 = Raise e → db_file r.2 = db_file s).
Proof.
  intros r. unfold r. clear r. unfold parse_file, etree_parse, File_save_file.
  destruct (disk E !! fname) as [f|]; [|by split].
  destruct (file_root f) as [root|]; [|by split].
  rewrite bind_unfold, ret_unfold, bind_unfold. cbn [negb].
  pose proof (preserves_for_each db_file (xpath_root "bill" root)
                (reconcile_node E opts fname false root)
                (reconcile_node_db_file opts fname root) s) as Hfr.
  destruct (for_each _ _ s) as [[[]|e] s1]; cbn [snd] in Hfr.
  - rewrite modify_unfold. cbn [fst snd db_file set_db_file]. rewrite Hfr.
    split; [|done]. intros _. by exists f.
  - by split.
Qed.

(** X19: a well-formed file whose root element is not [bill] is
    recorded as processed although nothing in it was reconciled: no
    table is written, no error is raised, and the change tracker then
    reports the file unchanged.  The next pass that is not forced does
    not skip it quietly for all that: when the name of the file does not
    match the pattern of the bill files the pass raises an
    [AttributeError], and when no Bill has the key read off the name the
    file is parsed again, to the same effect. *)
Theorem parse_file_other_root (opts : options) (fname : string) (f : file)
    (root : node) (s : state) :
  disk E !! fname = Some f → file_root f = Some root → node_tag root ≠ "bill" →
  let s' := set_db_file (<[fname := file_signature f]> (db_file s)) s in
  parse_file E opts fname s = (Ok tt, s')
  ∧ File_is_changed E fname s' = (Ok false, s')
  ∧ (force opts = false → BillPath.search fname = None →
       main_bill_file E opts fname s' = (Raise AttributeError, s'))
  ∧ (∀ g c t nn, force opts = false → BillPath.search fname = Some g →
       BillType_by_xml_code E (Some g.1.2) = Ok t →
       PyInt.int (Some g.1.1) = Ok c → PyInt.int (Some g.2) = Ok nn →
       bills_with_key (c, t, nn) (db_bill s) = [] →
       main_bill_file E opts fname s' = (Ok tt, s')).
Proof.
  intros Hf Hroot Htag s'.
  assert (∀ st, parse_file E opts fname st
                = (Ok tt, set_db_file (<[fname := file_signature f]> (db_file st)) st))
    as Hparse.
  { intros st. unfold parse_file, etree_parse, File_save_file.
    rewrite Hf, Hroot, bind_unfold, ret_unfold. unfold xpath_root.
    rewrite decide_False by done. cbn [for_each negb]. by msimp. }
  assert (db_file s' !! fname = Some (file_signature f)) as Hsig.
  { unfold s'. cbn [db_file set_db_file]. by rewrite lookup_insert_eq. }
  assert (File_is_changed E fname s' = (Ok false, s')) as Hsame.
  { rewrite (File_is_changed_eq E fname f s' Hf).
    by rewrite bool_decide_eq_true_2. }
  split; [apply Hparse|]. split; [done|]. split.
  - intros Hforce Hnone. unfold main_bill_file, skip_path.
    rewrite bind_unfold, (bind_ok _ _ _ _ _ Hsame), Hforce. cbn [negb andb].
    rewrite Hnone. unfold try_except, get_by_path. cbn [groups]. by msimp.
  - intros g c t nn Hforce Hg Ht Hc Hn Hb. unfold main_bill_file.
    rewrite bind_unfold,
      (skip_path_absent E opts fname f g c t nn s' Hf Hsig Hforce Hg Ht Hc Hn Hb).
    rewrite (Hparse s'). f_equal. unfold s'. cbn [db_file set_db_file].
    by rewrite insert_insert_eq.
Qed.

(** X20: when the body of the loop over the [bill] elements returns, the
    bill [process] returned has been stored a second time with the major
    actions of the document, one entry per action element that has a
    state, in document order; its id is noted as seen; it has been
    indexed once unless indexing is disabled, and its events have been
    created once unless events are disabled. *)
Theorem reconcile_node_stores_actions (opts : options) (fname : string) (tree n : node)
    (s s' : state) :
  reconcile_node E opts fname false tree n s = (Ok tt, s') →
  ∃ o sp i acts,
    process E Bill_new n s = (Ok o, sp) ∧ bill_id o = Some i
    ∧ actions_of E (xpath_actions tree) = Ok acts
    ∧ db_bill s' = <[i := set_major_actions acts o]> (db_bill sp)
    ∧ seen_bill_ids s' = (seen_bill_ids s ++ [Some i])%list
    ∧ indexed s' = (indexed s ++ if disable_indexing opts then [] else [Some i])%list
    ∧ events s' = (events s ++ if disable_events opts then [] else [Some i])%list.
Proof.
  rewrite reconcile_node_unfold.
  destruct (process E Bill_new n s) as [[o|e] sp] eqn:Hp; [|done].
  destruct (process_returns_saved E n s sp o Hp) as (i & Hi & _).
  pose proof (preserves_run _ _ _ _ _
                (process_frame (λ s, (seen_bill_ids s, indexed s, events s)) Bill_new n (λ _ _, eq_refl) (λ _ _, eq_refl)
                   (λ _ _, eq_refl) (λ _ _, eq_refl) (λ _ _, eq_refl)
                   (λ _ _, eq_refl) (λ _ _, eq_refl) (λ _ _, eq_refl)) Hp) as Hfr.
  cbn beta in Hfr. injection Hfr as Hseen Hidx Hev.
  destruct (actions_of E (xpath_actions tree)) as [acts|e]; [|done].
  cbn zeta. unfold Bill_save, update_object, create_events.
  cbn [bill_id set_major_actions]. rewrite Hi. msimp.
  intros Hrun. exists o, sp, i, acts.
  split; [done|]. split; [done|]. split; [done|].
  destruct (disable_indexing opts), (disable_events opts); cbn [negb] in Hrun;
    msimp in Hrun; injection Hrun as <-; cbn;
    rewrite ?app_nil_r, ?Hseen, ?Hidx, ?Hev, ?Hi; done.
Qed.

(** X21: an action element that cannot be read (a date that does not
    parse, a status code that is not in the table) stops the
    reconciliation of the file after [process] has stored the bill: the
    error is raised, the row of the bill is the one [process] wrote,
    without any major action, and the bill is neither indexed nor given
    events. *)
Theorem reconcile_node_unreadable_action (opts : options) (fname : string) (tree n : node)
    (s sp : state) (o : Bill) (e : exn) :
  process E Bill_new n s = (Ok o, sp) →
  actions_of E (xpath_actions tree) = Raise e →
  let r := reconcile_node E opts fname false tree n s in
  r.1 = Raise e
  ∧ (∃ i, bill_id o = Some i ∧ db_bill r.2 !! i = Some o ∧ major_actions o = [])
  ∧ indexed r.2 = indexed s ∧ events r.2 = events s.
Proof.
  intros Hp Hacts r. unfold r. clear r.
  rewrite reconcile_node_unfold, Hp, Hacts. cbn [fst snd].
  destruct (process_returns_saved E n s sp o Hp) as (i & Hi & Hrow).
  pose proof (process_returns_stored_actions E n s sp o Hp) as Hnone.
  pose proof (preserves_run _ _ _ _ _
                (process_frame (λ s, (indexed s, events s)) Bill_new n (λ _ _, eq_refl) (λ _ _, eq_refl)
                   (λ _ _, eq_refl) (λ _ _, eq_refl) (λ _ _, eq_refl)
                   (λ _ _, eq_refl) (λ _ _, eq_refl) (λ _ _, eq_refl)) Hp) as Hfr.
  cbn beta in Hfr. injection Hfr as Hidx Hev.
  split; [done|]. split; [by exists i|]. done.
Qed.

End Parsing.

Lemma parse_file_records_success_only_witness :
  let r := parse_file (Demo.env true DemoActions.files) DemoFiles.opts
             DemoFiles.good_path Demo.s0 in
  r.1 = Ok tt
  ∧ ∃ f, disk (Demo.env true DemoActions.files) !! DemoFiles.good_path = Some f
         ∧ db_file r.2 = <[DemoFiles.good_path := file_signature f]> (db_file Demo.s0).
Proof.
  split; [by vm_compute|].
  apply (parse_file_records_success_only (Demo.env true DemoActions.files) DemoFiles.opts
           DemoFiles.good_path Demo.s0).
  by vm_compute.
Defined.

Lemma parse_file_other_root_witness :
  let E := Demo.env true DemoActions.files in
  let s' := set_db_file (<[DemoFiles.bad_path := 9]> (db_file Demo.s0)) Demo.s0 in
  parse_file E DemoFiles.opts DemoFiles.bad_path Demo.s0 = (Ok tt, s')
  ∧ File_is_changed E DemoFiles.bad_path s' = (Ok false, s')
  ∧ (force DemoFiles.opts = false → BillPath.search DemoFiles.bad_path = None →
       main_bill_file E DemoFiles.opts DemoFiles.bad_path s' = (Raise AttributeError, s'))
  ∧ (∀ g c t nn, force DemoFiles.opts = false →
       BillPath.search DemoFiles.bad_path = Some g →
       BillType_by_xml_code E (Some g.1.2) = Ok t →
       PyInt.int (Some g.1.1) = Ok c → PyInt.int (Some g.2) = Ok nn →
       bills_with_key (c, t, nn) (db_bill Demo.s0) = [] →
       main_bill_file E DemoFiles.opts DemoFiles.bad_path s' = (Ok tt, s')).
Proof.
  apply (parse_file_other_root (Demo.env true DemoActions.files) DemoFiles.opts
           DemoFiles.bad_path (mkFile 9 (Some DemoActions.not_a_bill))
           DemoActions.not_a_bill Demo.s0); [reflexivity..|discriminate].
Defined.

Lemma reconcile_node_stores_actions_witness :
  let E := Demo.env true DemoActions.files in
  let r := reconcile_node E DemoFiles.opts DemoFiles.good_path false
             DemoActions.good DemoActions.good Demo.s0 in
  actions_of E (xpath_actions DemoActions.good)
    = Ok [("datetime", 1, "Introduced in House")]
  ∧ ∃ o sp i acts,
      process E Bill_new DemoActions.good Demo.s0 = (Ok o, sp) ∧ bill_id o = Some i
      ∧ actions_of E (xpath_actions DemoActions.good) = Ok acts
      ∧ db_bill r.2 = <[i := set_major_actions acts o]> (db_bill sp)
      ∧ seen_bill_ids r.2 = (seen_bill_ids Demo.s0 ++ [Some i])%list
      ∧ indexed r.2
        = (indexed Demo.s0 ++ if disable_indexing DemoFiles.opts then [] else [Some i])%list
      ∧ events r.2
        = (events Demo.s0 ++ if disable_events DemoFiles.opts then [] else [Some i])%list.
Proof.
  split; [by vm_compute|].
  apply (reconcile_node_stores_actions (Demo.env true DemoActions.files) DemoFiles.opts
           DemoFiles.good_path DemoActions.good DemoActions.good Demo.s0).
  by vm_compute.
Defined.

Lemma reconcile_node_unreadable_action_witness :
  let E := Demo.env true DemoActions.files in
  let r := reconcile_node E DemoFiles.opts DemoFiles.good_path false
             DemoActions.bad DemoActions.bad Demo.s0 in
  ∃ o, (process E Bill_new DemoActions.bad Demo.s0).1 = Ok o
    ∧ r.1 = Raise ValueError
    ∧ (∃ i, bill_id o = Some i ∧ db_bill r.2 !! i = Some o ∧ major_actions o = [])
    ∧ indexed r.2 = indexed Demo.s0 ∧ events r.2 = events Demo.s0.
Proof.
  eexists. split; [by vm_compute|].
  eapply (reconcile_node_unreadable_action (Demo.env true DemoActions.files) DemoFiles.opts
            DemoFiles.good_path DemoActions.bad DemoActions.bad Demo.s0);
    by vm_compute.
Defined.

(** ** [main]: the bill terms *)

Section TermNodes.

Context (E : Env).

Lemma term_of_node (k : TermType) (n : node) (nm : string) (s : state) :
  node_get n "value" = Some nm →
  TermProcessor_process BillTerm_new n s = (Ok (mkBillTerm None None nm), s).
Proof.
  intros Hn. unfold TermProcessor_process, Processor_process. cbn. by rewrite Hn.
Qed.

Lemma BillTerm_save_fresh (k : TermType) (nm : string) (s : state) :
  BillTerm_save E (fresh_term k nm) s
  = if save_refused E (db_billterm s) k nm then (Raise IntegrityError, s)
    else (Ok (inserted_term (db_billterm s) k nm),
          set_db_billterm (db_billterm s ++ [inserted_term (db_billterm s) k nm]) s).
Proof.
  unfold BillTerm_save, save_refused. msimp.
  by destruct (billterm_unique E && clashes (fresh_term k nm) (db_billterm s)).
Qed.

(** What the subterm branch does on a name that the index of the
    existing terms does not hold. *)
Lemma subterm_node_miss (k : TermType) (parent : BillTerm) (p : Z) (subnode : node)
    (nm : string) (s : state) :
  term_id parent = Some p →
  node_get subnode "value" = Some nm →
  existing_terms s !! (k, nm) = None →
  subterm_node E k parent subnode s
  = let logged := set_log (log s ++ [created_message k parent nm]) s in
    if save_refused E (db_billterm s) k nm
    then (Ok tt, set_log (log logged ++ [(ERROR, "Duplicated term " +:+ nm)]) logged)
    else
      let new := inserted_term (db_billterm s) k nm in
      (Ok tt,
       set_terms_parsed ({[term_id new]} ∪ terms_parsed s)
         (set_existing_terms (<[(k, nm) := new]> (existing_terms s))
            (set_billterm_subterms
               (<[p := {[next_term_id (db_billterm s)]}
                       ∪ default ∅ (billterm_subterms s !! p)]> (billterm_subterms s))
               (set_db_billterm (db_billterm s ++ [new]) logged)))).
Proof.
  intros Hp Hn Hex. unfold subterm_node.
  rewrite (bind_ok _ _ _ _ _ (term_of_node k subnode nm s Hn)).
  change (with_term_type k (mkBillTerm None None nm)) with (fresh_term k nm).
  unfold try_except at 1.
  assert (∀ m : BillTerm → M unit,
            (existing_lookup (fresh_term k nm) ≫= m) s = (Raise KeyError, s)) as ->.
  { intros m. unfold existing_lookup. cbn [term_type fresh_term int_term_type].
    msimp. cbn [term_name fresh_term]. by rewrite Hex. }
  unfold try_except, log_msg. rewrite bind_unfold, modify_unfold.
  assert ((DEBUG, "Created " +:+ term_name match k with
                                          | TermType_old => fresh_term k nm
                                          | TermType_new => parent
                                          end) = created_message k parent nm) as ->.
  { by destruct k. }
  rewrite bind_unfold, BillTerm_save_fresh. cbn [db_billterm set_log].
  cbn zeta. destruct (save_refused E (db_billterm s) k nm).
  - rewrite Hn. by msimp.
  - unfold subterms_add, existing_store, parsed_add. rewrite Hp.
    cbn [pk_of term_id term_type term_name inserted_term int_term_type]. by msimp.
Qed.

(** X22: a subterm that is created is registered: the first node of a
    name that the index does not hold inserts one row, attaches it to
    its parent in the subterm relation, puts it in the index of the
    existing terms and marks it seen; every later node of that name,
    under whichever parent, finds it in the index, attaches it to that
    parent and inserts nothing. *)
Theorem subterm_node_creates_once (k : TermType) (parent : BillTerm) (p : Z)
    (subnode : node) (nm : string) (s : state) :
  term_id parent = Some p →
  node_get subnode "value" = Some nm →
  existing_terms s !! (k, nm) = None →
  save_refused E (db_billterm s) k nm = false →
  let new := inserted_term (db_billterm s) k nm in
  let j := next_term_id (db_billterm s) in
  let r1 := subterm_node E k parent subnode s in
  r1.1 = Ok tt
  ∧ term_id new = Some j
  ∧ db_billterm r1.2 = (db_billterm s ++ [new])%list
  ∧ billterm_subterms r1.2
    = <[p := {[j]} ∪ default ∅ (billterm_subterms s !! p)]> (billterm_subterms s)
  ∧ existing_terms r1.2 = <[(k, nm) := new]> (existing_terms s)
  ∧ terms_parsed r1.2 = {[term_id new]} ∪ terms_parsed s
  ∧ (∀ parent' p', term_id parent' = Some p' →
       let r2 := subterm_node E k parent' subnode r1.2 in
       r2.1 = Ok tt ∧ db_billterm r2.2 = db_billterm r1.2
       ∧ billterm_subterms r2.2
         = <[p' := {[j]} ∪ default ∅ (billterm_subterms r1.2 !! p')]>
             (billterm_subterms r1.2)
       ∧ existing_terms r2.2 = existing_terms r1.2
       ∧ terms_parsed r2.2 = {[term_id new]} ∪ terms_parsed r1.2).
Proof.
  intros Hp Hn Hex Hsave new j r1. unfold r1. clear r1.
  rewrite (subterm_node_miss k parent p subnode nm s Hp Hn Hex). cbn zeta.
  rewrite Hsave. cbn [fst snd]. fold new. fold j.
  split; [done|]. split; [done|]. split; [done|]. split; [done|].
  split; [done|]. split; [done|].
  intros parent' p' Hp'.
  rewrite (subterm_reuse E k parent' p' subnode nm new j); [done|done|done| |done].
  cbn [existing_terms set_terms_parsed set_existing_terms]. by rewrite lookup_insert_eq.
Qed.

(** X23: a subterm whose save the table refuses is tolerated: when the
    index does not hold the name but the table, under the uniqueness
    constraint, holds a term of that scheme and name, the node raises
    nothing; the refusal is reported in the log, and the table, the
    subterm relation, the index and the set of seen terms stay as they
    were. *)
Theorem subterm_node_duplicate_logged (k : TermType) (parent : BillTerm) (p : Z)
    (subnode : node) (nm : string) (s : state) :
  term_id parent = Some p →
  node_get subnode "value" = Some nm →
  existing_terms s !! (k, nm) = None →
  save_refused E (db_billterm s) k nm = true →
  subterm_node E k parent subnode s
  = (Ok tt,
     set_log (log s ++ [created_message k parent nm;
                        (ERROR, "Duplicated term " +:+ nm)])%list s).
Proof.
  intros Hp Hn Hex Hsave.
  rewrite (subterm_node_miss k parent p subnode nm s Hp Hn Hex). cbn zeta.
  rewrite Hsave. f_equal. unfold set_log. cbn. by rewrite <- app_assoc.
Qed.

Lemma top_term_miss (k : TermType) (n : node) (nm : string) (s : state) :
  node_get n "value" = Some nm →
  existing_terms s !! (k, nm) = None →
  top_term E k n s
  = let logged := set_log (log s ++ [(DEBUG, "Created " +:+ nm)]) s in
    if save_refused E (db_billterm s) k nm then (Raise IntegrityError, logged)
    else
      let new := inserted_term (db_billterm s) k nm in
      (Ok new,
       set_billterm_subterms
         (delete (next_term_id (db_billterm s)) (billterm_subterms s))
         (set_db_billterm (db_billterm s ++ [new]) logged)).
Proof.
  intros Hn Hex. unfold top_term.
  rewrite (bind_ok _ _ _ _ _ (term_of_node k n nm s Hn)).
  change (with_term_type k (mkBillTerm None None nm)) with (fresh_term k nm).
  unfold try_except at 1.
  assert (∀ m : BillTerm → M BillTerm,
            (existing_lookup (fresh_term k nm) ≫= m) s = (Raise KeyError, s)) as ->.
  { intros m. unfold existing_lookup. cbn [term_type fresh_term int_term_type].
    msimp. cbn [term_name fresh_term]. by rewrite Hex. }
  unfold log_msg. rewrite bind_unfold, modify_unfold.
  rewrite bind_unfold, BillTerm_save_fresh. cbn [db_billterm set_log term_name fresh_term].
  cbn zeta. destruct (save_refused E (db_billterm s) k nm); [done|].
  unfold subterms_clear. cbn [pk_of term_id inserted_term]. by msimp.
Qed.

Lemma clashes_inserted (rows : list BillTerm) (k : TermType) (nm : string) :
  clashes (fresh_term k nm) (rows ++ [inserted_term rows k nm]) = true.
Proof.
  unfold clashes. rewrite existsb_app. apply orb_true_iff. right.
  cbn. by rewrite bool_decide_eq_true_2.
Qed.

(** X24: a top term that is created is not registered: it is neither
    put in the index of the existing terms nor marked seen.  So a second
    top-term node of the same name misses the index again and saves
    again: under the uniqueness constraint the save is refused with an
    [IntegrityError] that nothing on this path catches; without the
    constraint a second row of the same scheme and name is inserted. *)
Theorem top_term_not_registered (k : TermType) (n : node) (nm : string) (s : state) :
  node_get n "value" = Some nm →
  existing_terms s !! (k, nm) = None →
  save_refused E (db_billterm s) k nm = false →
  let new := inserted_term (db_billterm s) k nm in
  let r1 := top_term E k n s in
  let r2 := top_term E k n r1.2 in
  r1.1 = Ok new
  ∧ db_billterm r1.2 = (db_billterm s ++ [new])%list
  ∧ existing_terms r1.2 = existing_terms s
  ∧ terms_parsed r1.2 = terms_parsed s
  ∧ (if billterm_unique E
     then r2.1 = Raise IntegrityError ∧ db_billterm r2.2 = db_billterm r1.2
     else ∃ new2, r2.1 = Ok new2 ∧ term_id new2 ≠ term_id new
                  ∧ term_type new2 = term_type new ∧ term_name new2 = term_name new
                  ∧ db_billterm r2.2 = (db_billterm s ++ [new; new2])%list).
Proof.
  intros Hn Hex Hsave new r1 r2. unfold r2, r1. clear r1 r2.
  rewrite (top_term_miss k n nm s Hn Hex). cbn zeta. rewrite Hsave. cbn [fst snd].
  fold new. split; [done|]. split; [done|]. split; [done|]. split; [done|].
  match goal with
  | |- context [top_term E k n ?s1] => set (st := s1)
  end.
  assert (db_billterm st = (db_billterm s ++ [new])%list) as Hrows by done.
  assert (save_refused E (db_billterm st) k nm = billterm_unique E) as Hsr.
  { unfold save_refused. rewrite Hrows. unfold new. rewrite clashes_inserted.
    by rewrite andb_true_r. }
  rewrite (top_term_miss k n nm st Hn Hex). cbn zeta. rewrite Hsr.
  destruct (billterm_unique E); cbn [fst snd]; [done|].
  exists (inserted_term (db_billterm st) k nm). split; [done|].
  cbn [db_billterm set_billterm_subterms set_db_billterm set_log].
  rewrite Hrows, <- app_assoc. split; [|done].
  unfold new. cbn [term_id inserted_term]. intros [= Heq]. revert Heq.
  unfold next_term_id. rewrite omap_app, foldr_app.
  cbn [omap list_omap term_id foldr inserted_term]. unfold next_term_id.
  generalize (omap term_id (db_billterm s)). intros l.
  assert (0 ≤ foldr Z.max 0 l)%Z as Hpos.
  { induction l as [|x l IHl]; cbn; lia. }
  assert (∀ a, (0 ≤ a → foldr Z.max a l = Z.max a (foldr Z.max 0 l))%Z) as Hmax.
  { intros a Ha. clear Hpos. induction l as [|x l IHl]; cbn; [lia|]. rewrite IHl. lia. }
  rewrite Hmax by lia. lia.
Qed.

End TermNodes.

Section Pruning.

Lemma filter_all {A} (P : A → Prop) `{!∀ x, Decision (P x)} (l : list A) :
  (∀ x, x ∈ l → P x) → filter P l = l.
Proof.
  induction l as [|x l IH]; intros Hall; [done|].
  rewrite filter_cons_True by (apply Hall; by left).
  f_equal. apply IH. intros y Hy. apply Hall. by right.
Qed.

Lemma prune_step (v : BillTerm) (s : state) :
  ∃ s1,
    (parsed ← gets terms_parsed;
     if decide (term_id v ∈ parsed) then mret tt
     else log_msg DEBUG ("Deleted " ++ term_name v) ;; BillTerm_delete v) s = (Ok tt, s1)
    ∧ terms_parsed s1 = terms_parsed s
    ∧ db_billterm s1
      = filter (λ r, ¬ (term_id v = term_id r ∧ term_id v ∉ terms_parsed s)) (db_billterm s).
Proof.
  rewrite bind_unfold, gets_unfold.
  destruct (decide (term_id v ∈ terms_parsed s)) as [Hin|Hout].
  - exists s. rewrite ret_unfold. split; [done|]. split; [done|].
    symmetry. apply filter_all. intros r _ [_ ?]. done.
  - unfold log_msg, BillTerm_delete. msimp.
    destruct (term_id v) as [i|] eqn:Hv; msimp; eexists; (split; [done|]);
      (split; [done|]); cbn [db_billterm set_billterm_subterms set_db_billterm set_log];
      apply list_filter_iff; intros r; split.
    + intros Hne [Heq _]. by apply Hne.
    + intros Hne Heq. apply Hne. by split.
    + intros Hne [Heq _]. by apply Hne.
    + intros Hne Heq. apply Hne. by split.
Qed.

Lemma prune_loop (l : list BillTerm) (s : state) :
  ∃ s',
    for_each l (λ term,
      parsed ← gets terms_parsed;
      if decide (term_id term ∈ parsed) then mret tt
      else log_msg DEBUG ("Deleted " ++ term_name term) ;; BillTerm_delete term) s
    = (Ok tt, s')
    ∧ terms_parsed s' = terms_parsed s
    ∧ db_billterm s'
      = filter (λ r, ¬ Exists (λ v, term_id v = term_id r ∧ term_id v ∉ terms_parsed s) l)
          (db_billterm s).
Proof.
  revert s. induction l as [|v l IH]; intros s.
  - exists s. split; [done|]. split; [done|].
    symmetry. apply filter_all. intros r _ H. by apply Exists_nil in H.
  - cbn [for_each]. rewrite bind_unfold.
    destruct (prune_step v s) as (s1 & -> & Hp1 & Hdb1).
    destruct (IH s1) as (s' & -> & Hp' & Hdb').
    exists s'. split; [done|]. split; [congruence|].
    rewrite Hdb', Hdb1, Hp1, list_filter_filter.
    apply list_filter_iff. intros r. rewrite Exists_cons. tauto.
Qed.

(** X25: the pruning loop at the end of the term pass raises nothing
    and deletes exactly the rows whose id is that of a term of the index
    of the existing terms that was not seen, keeping the order of the
    others.  So a row whose id was marked seen stays, and a term of the
    index that was not seen is gone. *)
Theorem prune_terms_deletes_unseen (s : state) :
  let r := prune_terms s in
  r.1 = Ok tt
  ∧ db_billterm r.2
    = filter (λ row, ¬ doomed (existing_terms s) (terms_parsed s) row) (db_billterm s)
  ∧ (∀ row, row ∈ db_billterm s → term_id row ∈ terms_parsed s → row ∈ db_billterm r.2)
  ∧ (∀ k nm t, existing_terms s !! (k, nm) = Some t → term_id t ∉ terms_parsed s →
       t ∉ db_billterm r.2).
Proof.
  intros r. unfold r. clear r. unfold prune_terms.
  rewrite bind_unfold, gets_unfold.
  destruct (prune_loop (map_to_list (existing_terms s)).*2 s) as (s' & -> & _ & Hdb).
  cbn [fst snd]. fold (doomed (existing_terms s) (terms_parsed s)) in Hdb.
  split; [done|]. split; [done|]. rewrite Hdb. split.
  - intros row Hrow Hseen. apply list_elem_of_filter. split; [|done].
    intros (v & _ & Hid & Hout)%Exists_exists. apply Hout. by rewrite Hid.
  - intros k nm t Ht Hout [Hnot _]%list_elem_of_filter. apply Hnot.
    apply Exists_exists. exists t. split; [|done].
    apply list_elem_of_fmap. exists ((k, nm), t). split; [done|].
    by apply elem_of_map_to_list.
Qed.

End Pruning.

Lemma subterm_node_creates_once_witness :
  let E := Demo.env true ∅ in
  let new := inserted_term (db_billterm DemoSubterms.fresh) TermType_new "Farms" in
  let j := next_term_id (db_billterm DemoSubterms.fresh) in
  let r1 := subterm_node E TermType_new DemoSubterms.parent DemoSubterms.subnode
              DemoSubterms.fresh in
  (j = 2 ∧ billterm_subterms r1.2 !! 1 = Some {[ 2 ]})
  ∧ r1.1 = Ok tt
  ∧ term_id new = Some j
  ∧ db_billterm r1.2 = (db_billterm DemoSubterms.fresh ++ [new])%list
  ∧ billterm_subterms r1.2
    = <[1 := {[j]} ∪ default ∅ (billterm_subterms DemoSubterms.fresh !! 1)]>
        (billterm_subterms DemoSubterms.fresh)
  ∧ existing_terms r1.2
    = <[(TermType_new, "Farms") := new]> (existing_terms DemoSubterms.fresh)
  ∧ terms_parsed r1.2 = {[term_id new]} ∪ terms_parsed DemoSubterms.fresh
  ∧ (∀ parent' p', term_id parent' = Some p' →
       let r2 := subterm_node E TermType_new parent' DemoSubterms.subnode r1.2 in
       r2.1 = Ok tt ∧ db_billterm r2.2 = db_billterm r1.2
       ∧ billterm_subterms r2.2
         = <[p' := {[j]} ∪ default ∅ (billterm_subterms r1.2 !! p')]>
             (billterm_subterms r1.2)
       ∧ existing_terms r2.2 = existing_terms r1.2
       ∧ terms_parsed r2.2 = {[term_id new]} ∪ terms_parsed r1.2).
Proof.
  split; [split; by vm_compute|].
  apply (subterm_node_creates_once (Demo.env true ∅) TermType_new DemoSubterms.parent 1
           DemoSubterms.subnode "Farms" DemoSubterms.fresh); reflexivity.
Defined.

Lemma subterm_node_duplicate_logged_witness :
  subterm_node (Demo.env true ∅) TermType_new DemoSubterms.parent DemoSubterms.subnode
    DemoSubterms.unindexed
  = (Ok tt,
     set_log (log DemoSubterms.unindexed
                ++ [created_message TermType_new DemoSubterms.parent "Farms";
                    (ERROR, "Duplicated term Farms")])%list DemoSubterms.unindexed).
Proof.
  apply (subterm_node_duplicate_logged (Demo.env true ∅) TermType_new DemoSubterms.parent 1
           DemoSubterms.subnode "Farms" DemoSubterms.unindexed); reflexivity.
Defined.

Lemma top_term_not_registered_witness :
  let E := Demo.env true ∅ in
  let new := inserted_term (db_billterm Demo.empty_state) TermType_new "Agriculture" in
  let r1 := top_term E TermType_new (DemoTerms.top "Agriculture") Demo.empty_state in
  let r2 := top_term E TermType_new (DemoTerms.top "Agriculture") r1.2 in
  r1.1 = Ok new
  ∧ db_billterm r1.2 = (db_billterm Demo.empty_state ++ [new])%list
  ∧ existing_terms r1.2 = existing_terms Demo.empty_state
  ∧ terms_parsed r1.2 = terms_parsed Demo.empty_state
  ∧ r2.1 = Raise IntegrityError ∧ db_billterm r2.2 = db_billterm r1.2.
Proof.
  apply (top_term_not_registered (Demo.env true ∅) TermType_new
           (DemoTerms.top "Agriculture") "Agriculture" Demo.empty_state); reflexivity.
Defined.

Lemma prune_terms_deletes_unseen_witness :
  let r := prune_terms DemoSubterms.to_prune in
  db_billterm r.2
  = [ mkBillTerm (Some 2) (Some TermType_old) "B";
      mkBillTerm (Some 3) (Some TermType_new) "C" ]
  ∧ r.1 = Ok tt
  ∧ db_billterm r.2
    = filter (λ row, ¬ doomed (existing_terms DemoSubterms.to_prune)
                         (terms_parsed DemoSubterms.to_prune) row)
        (db_billterm DemoSubterms.to_prune)
  ∧ (∀ row, row ∈ db_billterm DemoSubterms.to_prune →
       term_id row ∈ terms_parsed DemoSubterms.to_prune → row ∈ db_billterm r.2)
  ∧ (∀ k nm t, existing_terms DemoSubterms.to_prune !! (k, nm) = Some t →
       term_id t ∉ terms_parsed DemoSubterms.to_prune → t ∉ db_billterm r.2).
Proof.
  split; [by vm_compute|].
  apply (prune_terms_deletes_unseen DemoSubterms.to_prune).
Defined.

(** ** The names of the bill files *)

Section FileNames.

Lemma append_assoc (a b c : string) : (a +:+ b) +:+ c = a +:+ (b +:+ c).
Proof. induction a as [|x a IH]; [done|]. by rewrite !append_String, IH. Qed.

Lemma append_empty_r (a : string) : a +:+ "" = a.
Proof. induction a as [|x a IH]; [done|]. by rewrite append_String, IH. Qed.

Lemma rev_app_append (s1 s2 : string) :
  String.rev_app s1 s2 = String.rev s1 +:+ s2.
Proof.
  revert s2. induction s1 as [|a s1 IH]; intros s2; [done|].
  unfold String.rev. cbn [String.rev_app]. rewrite (IH (String a s2)), (IH (String a "")).
  by rewrite append_assoc.
Qed.

Lemma rev_String (c : ascii) (s : string) :
  String.rev (String c s) = String.rev s +:+ String c "".
Proof. unfold String.rev at 1. cbn [String.rev_app]. apply rev_app_append. Qed.

Lemma rev_append (a b : string) :
  String.rev (a +:+ b) = String.rev b +:+ String.rev a.
Proof.
  induction a as [|x a IH].
  - by rewrite append_empty, append_empty_r.
  - by rewrite append_String, !rev_String, IH, append_assoc.
Qed.

Lemma rev_rev (s : string) : String.rev (String.rev s) = s.
Proof.
  induction s as [|c s IH]; [done|].
  by rewrite rev_String, rev_append, IH.
Qed.

Lemma all_chars_append (p : ascii → bool) (a b : string) :
  all_chars p (a +:+ b) = all_chars p a && all_chars p b.
Proof.
  induction a as [|x a IH]; [done|].
  rewrite append_String. cbn [all_chars]. by rewrite IH, andb_assoc.
Qed.

Lemma all_chars_rev (p : ascii → bool) (s : string) :
  all_chars p (String.rev s) = all_chars p s.
Proof.
  induction s as [|c s IH]; [done|].
  rewrite rev_String, all_chars_append, IH. cbn [all_chars].
  by rewrite andb_true_r, andb_comm.
Qed.

Lemma rev_nonempty (s : string) : s ≠ "" → String.rev s ≠ "".
Proof.
  intros Hs Hr. apply Hs. by rewrite <- (rev_rev s), Hr.
Qed.

Lemma run_of_rev (p : ascii → bool) (s : string) : run_of p s → run_of p (String.rev s).
Proof.
  intros [Hne Hall]. split; [by apply rev_nonempty|]. by rewrite all_chars_rev.
Qed.

Lemma span_append (p : ascii → bool) (a b : string) :
  all_chars p a = true → stops p b → BillPath.span p (a +:+ b) = (a, b).
Proof.
  intros Ha Hb. induction a as [|x a IH].
  - rewrite append_empty. destruct b as [|c b]; [done|].
    cbn in *. by rewrite Hb.
  - cbn [all_chars] in Ha. apply andb_prop in Ha as [Hx Ha].
    rewrite append_String. cbn [BillPath.span]. by rewrite Hx, (IH Ha).
Qed.

Lemma span_spec (p : ascii → bool) (s a b : string) :
  BillPath.span p s = (a, b) → s = a +:+ b ∧ all_chars p a = true.
Proof.
  revert a b. induction s as [|c s IH]; intros a b.
  - by intros [= <- <-].
  - cbn [BillPath.span]. destruct (p c) eqn:Hc.
    + destruct (BillPath.span p s) as [a' b'] eqn:Hs. intros [= <- <-].
      destruct (IH a' b' eq_refl) as [-> Ha]. split; [done|].
      cbn [all_chars]. by rewrite Hc, Ha.
    + by intros [= <- <-].
Qed.

Lemma strip_prefix_append (p s : string) : BillPath.strip_prefix p (p +:+ s) = Some s.
Proof.
  induction p as [|c p IH]; [done|].
  rewrite append_String. cbn [BillPath.strip_prefix]. by rewrite decide_True.
Qed.

Lemma strip_prefix_spec (p s r : string) :
  BillPath.strip_prefix p s = Some r → s = p +:+ r.
Proof.
  revert s. induction p as [|c p IH]; intros s.
  - by intros [= ->].
  - destruct s as [|d s]; [done|]. cbn [BillPath.strip_prefix].
    destruct (decide (c = d)) as [->|]; [|done].
    intros ->%IH. by rewrite append_String.
Qed.

Lemma nonempty_run (s : string) : s ≠ "" → BillPath.nonempty s = Some s.
Proof. by destruct s. Qed.

Lemma nonempty_spec (s r : string) : BillPath.nonempty s = Some r → r = s ∧ s ≠ "".
Proof. destruct s; [done|]. by intros [= <-]. Qed.

Lemma stops_run (p q : ascii → bool) (s t : string) :
  (∀ c, q c = true → p c = false) → run_of q s → stops p (s +:+ t).
Proof.
  intros Hpq [Hne Hall]. destruct s as [|c s]; [done|].
  rewrite append_String. cbn in *. apply Hpq. by apply andb_prop in Hall as [? _].
Qed.

Lemma lower_not_digit (c : ascii) : Str.is_lower c = true → Str.is_digit c = false.
Proof. by destruct c as [[] [] [] [] [] [] [] []]. Qed.

(** X26: the pattern that reads the natural key off the name of a bill
    file recovers the three parts of every name of the data layout: for
    a congress and a number made of digits and a type made of lower-case
    letters, under any directory, the search finds exactly the congress,
    the type and the number. *)
Theorem search_bill_file_name (pre congress type number : string) :
  run_of Str.is_digit congress → run_of Str.is_lower type →
  run_of Str.is_digit number →
  BillPath.search (bill_file_name pre congress type number)
  = Some (congress, type, number).
Proof.
  intros Hc Ht Hn. unfold BillPath.search, bill_file_name.
  rewrite !rev_append.
  change (String.rev ".xml") with "lmx.". change (String.rev "/bills/") with "/sllib/".
  change (String.rev "/") with "/".
  rewrite !append_assoc.
  change ("lmx." +:+ ?r) with (String "l" (String "m" (String "x" (String "." r)))).
  lazy iota. rewrite decide_False by done.
  change (String "l" (String "m" (String "x" (String "." ?r)))) with ("lmx." +:+ r).
  rewrite strip_prefix_append. cbn [mbind option_bind].
  destruct (run_of_rev _ _ Hc) as [Hc1 Hc2], (run_of_rev _ _ Ht) as [Ht1 Ht2],
    (run_of_rev _ _ Hn) as [Hn1 Hn2].
  rewrite (span_append Str.is_digit _ _ Hn2)
    by (apply (stops_run _ Str.is_lower); [apply lower_not_digit|by apply run_of_rev]).
  rewrite (nonempty_run _ Hn1). cbn [mbind option_bind].
  rewrite (span_append Str.is_lower _ _ Ht2) by done.
  rewrite (nonempty_run _ Ht1). cbn [mbind option_bind].
  rewrite strip_prefix_append. cbn [mbind option_bind].
  rewrite (span_append Str.is_digit _ _ Hc2) by done.
  rewrite (nonempty_run _ Hc1). cbn [mbind option_bind].
  change ("/" +:+ ?r) with (String "/" r). cbn [BillPath.strip_prefix].
  rewrite decide_True by done. cbn [mbind option_bind].
  by rewrite !rev_rev.
Qed.

End FileNames.

Section FileNameGroups.

Lemma digit_not_space (c : ascii) : Str.is_digit c = true → Str.is_space c = false.
Proof. by destruct c as [[] [] [] [] [] [] [] []]. Qed.

Lemma drop_spaces_stops (s : string) : stops Str.is_space s → Str.drop_spaces s = s.
Proof. destruct s as [|c s]; [done|]. cbn. by intros ->. Qed.

Lemma run_of_stops (p q : ascii → bool) (s : string) :
  (∀ c, q c = true → p c = false) → run_of q s → stops p s.
Proof.
  intros Hpq Hs. rewrite <- (append_empty_r s). by apply (stops_run p q).
Qed.

Lemma strip_digits (s : string) : run_of Str.is_digit s → PyInt.strip s = s.
Proof.
  intros Hs. unfold PyInt.strip.
  rewrite (drop_spaces_stops s) by (by apply (run_of_stops _ Str.is_digit), Hs; apply digit_not_space).
  rewrite (drop_spaces_stops (String.rev s)).
  - apply rev_rev.
  - apply (run_of_stops _ Str.is_digit); [apply digit_not_space|by apply run_of_rev].
Qed.

Lemma digits_total (acc : Z) (s : string) :
  all_chars Str.is_digit s = true → is_Some (PyInt.digits acc s).
Proof.
  revert acc. induction s as [|c s IH]; intros acc; [by eexists|].
  cbn [all_chars PyInt.digits]. intros [-> Hs]%andb_prop. by apply IH.
Qed.

(** [int] accepts every run of digits. *)
Lemma int_of_digits (s : string) :
  run_of Str.is_digit s → ∃ z, PyInt.int (Some s) = Ok z.
Proof.
  intros Hs. unfold PyInt.int, PyInt.of_string. rewrite (strip_digits s Hs).
  destruct Hs as [Hne Hall]. destruct s as [|c t]; [done|].
  destruct (digits_total 0 (String c t) Hall) as [z Hz].
  assert (PyInt.unsigned (String c t) = Some z) as Hu by done.
  cbn [all_chars] in Hall. apply andb_prop in Hall as [Hc _].
  exists z.
  destruct c as [[] [] [] [] [] [] [] []]; try discriminate Hc; by rewrite Hu.
Qed.

(** X27: whenever the pattern matches the name of a file, the name is a
    name of the data layout (possibly followed by one newline), the
    first and the third group are runs of digits and the second a run of
    lower-case letters; so the two coercions to [int] that the lookup by
    path performs on the groups cannot fail. *)
Theorem search_groups (fname : string) (g : string * string * string) :
  BillPath.search fname = Some g →
  run_of Str.is_digit g.1.1 ∧ run_of Str.is_lower g.1.2 ∧ run_of Str.is_digit g.2
  ∧ (∃ pre, fname = bill_file_name pre g.1.1 g.1.2 g.2
            ∨ fname = bill_file_name pre g.1.1 g.1.2 g.2 +:+ String Str.newline "")
  ∧ (∃ c, PyInt.int (Some g.1.1) = Ok c) ∧ (∃ nn, PyInt.int (Some g.2) = Ok nn).
Proof.
  unfold BillPath.search.
  set (r := match String.rev fname with
            | String c t => if decide (c = Str.newline) then t else String.rev fname
            | EmptyString => String.rev fname
            end).
  assert (fname = String.rev r ∨ fname = String.rev r +:+ String Str.newline "") as Hname.
  { unfold r. destruct (String.rev fname) as [|c t] eqn:Hrev.
    - left. by rewrite <- Hrev, rev_rev.
    - destruct (decide (c = Str.newline)) as [->|].
      + right. by rewrite <- rev_String, <- Hrev, rev_rev.
      + left. by rewrite <- Hrev, rev_rev. }
  clearbody r.
  destruct (BillPath.strip_prefix "lmx." r) as [r1|] eqn:H1; [|done].
  cbn [mbind option_bind].
  destruct (BillPath.span Str.is_digit r1) as [d3 r2] eqn:H2.
  destruct (BillPath.nonempty d3) as [d3'|] eqn:H3; [|done]. cbn [mbind option_bind].
  destruct (BillPath.span Str.is_lower r2) as [l2 r3] eqn:H4.
  destruct (BillPath.nonempty l2) as [l2'|] eqn:H5; [|done]. cbn [mbind option_bind].
  destruct (BillPath.strip_prefix "/sllib/" r3) as [r4|] eqn:H6; [|done].
  cbn [mbind option_bind].
  destruct (BillPath.span Str.is_digit r4) as [d1 r5] eqn:H7.
  destruct (BillPath.nonempty d1) as [d1'|] eqn:H8; [|done]. cbn [mbind option_bind].
  destruct (BillPath.strip_prefix "/" r5) as [r6|] eqn:H9; [|done].
  cbn [mbind option_bind]. intros [= <-]. cbn [fst snd].
  apply strip_prefix_spec in H1 as ->, H6 as ->, H9 as ->.
  apply span_spec in H2 as [-> Hd3], H4 as [-> Hl2], H7 as [-> Hd1].
  apply nonempty_spec in H3 as [-> Hn3], H5 as [-> Hn2], H8 as [-> Hn1].
  assert (run_of Str.is_digit (String.rev d1)) as R1 by (by apply run_of_rev).
  assert (run_of Str.is_lower (String.rev l2)) as R2 by (by apply run_of_rev).
  assert (run_of Str.is_digit (String.rev d3)) as R3 by (by apply run_of_rev).
  split; [done|]. split; [done|]. split; [done|]. split.
  - exists (String.rev r6).
    assert (String.rev ("lmx." +:+ d3 +:+ l2 +:+ "/sllib/" +:+ d1 +:+ "/" +:+ r6)
            = bill_file_name (String.rev r6) (String.rev d1) (String.rev l2) (String.rev d3))
      as Hrev.
    { unfold bill_file_name. rewrite !rev_append, !append_assoc. done. }
    rewrite <- Hrev. done.
  - split; by apply int_of_digits.
Qed.

End FileNameGroups.

Lemma search_bill_file_name_witness :
  BillPath.search (bill_file_name "data/us" "111" "hr" "1") = Some ("111", "hr", "1")
  ∧ bill_file_name "data/us" "111" "hr" "1" = DemoFiles.good_path.
Proof.
  split; [|reflexivity].
  apply (search_bill_file_name "data/us" "111" "hr" "1"); by split.
Defined.

Lemma search_groups_witness :
  let g := ("111", "hr", "1") in
  run_of Str.is_digit g.1.1 ∧ run_of Str.is_lower g.1.2 ∧ run_of Str.is_digit g.2
  ∧ (∃ pre, DemoFiles.good_path = bill_file_name pre g.1.1 g.1.2 g.2
            ∨ DemoFiles.good_path
              = bill_file_name pre g.1.1 g.1.2 g.2 +:+ String Str.newline "")
  ∧ (∃ c, PyInt.int (Some g.1.1) = Ok c) ∧ (∃ nn, PyInt.int (Some g.2) = Ok nn).
Proof. apply (search_groups DemoFiles.good_path ("111", "hr", "1")). reflexivity. Defined.

(** ** [main]: a run over unchanged files *)

Section UnchangedRun.

Context (E : Env).

Lemma skipped_loop (opts : options) (files : list string) (ids : list Z)
    (seen0 : list (option Z)) (s : state) :
  force opts = false →
  Forall2 (skipped_for E opts s) files ids →
  for_each files (main_bill_file E opts) (set_seen_bill_ids seen0 s)
  = (Ok tt, set_seen_bill_ids (seen0 ++ (Some <$> ids))%list s).
Proof.
  intros Hforce Hall. revert seen0.
  induction Hall as [|fname i files ids Hskip Hall IH]; intros seen0.
  - cbn. by rewrite app_nil_r.
  - destruct Hskip as (f & g & c & t & nn & b & Hf & Hsig & Hg & Ht & Hc & Hn & Hb & Htext).
    cbn [for_each]. rewrite bind_unfold. unfold main_bill_file at 1.
    rewrite bind_unfold.
    rewrite (skip_path_found E opts fname f g c t nn i b (set_seen_bill_ids seen0 s)
               Hf Hsig Hforce Hg Ht Hc Hn Hb).
    cbn zeta. rewrite ret_unfold.
    change (changed_text E (set_seen_bill_ids seen0 s) (textfile_of g))
      with (changed_text E s (textfile_of g)).
    rewrite Htext.
    change (set_seen_bill_ids
              (seen_bill_ids (set_seen_bill_ids seen0 s) ++ [Some i])%list
              (set_seen_bill_ids seen0 s))
      with (set_seen_bill_ids (seen0 ++ [Some i])%list s).
    rewrite IH. by rewrite fmap_cons, <- app_assoc.
Qed.

(** X28: a run that is not forced, over files that are all unchanged
    and whose bills all exist, writes nothing: no file is parsed, no
    table and no change record is touched, nothing is indexed and no
    event is created; the run only collects the ids of the bills, in the
    order of the files. *)
Theorem main_bills_unchanged_run (opts : options) (files : list string) (ids : list Z)
    (s : state) :
  force opts = false →
  Forall2 (skipped_for E opts s) files ids →
  main_bills E opts files s = (Ok tt, set_seen_bill_ids (Some <$> ids) s).
Proof.
  intros Hforce Hall. unfold main_bills. rewrite bind_unfold, modify_unfold.
  apply (skipped_loop opts files ids [] s Hforce Hall).
Qed.

End UnchangedRun.

Lemma main_bills_unchanged_run_witness :
  main_bills (Demo.env true DemoFiles.files) DemoFiles.opts [DemoFiles.good_path]
    DemoRun.tracked
  = (Ok tt, set_seen_bill_ids (Some <$> [5]) DemoRun.tracked).
Proof.
  apply (main_bills_unchanged_run (Demo.env true DemoFiles.files) DemoFiles.opts
           [DemoFiles.good_path] [5] DemoRun.tracked); [reflexivity|].
  constructor; [|constructor].
  exists (mkFile 8 (Some Demo.hr1)), ("111", "hr", "1"), 111, 3, 1, DemoUpsert.old_hr1.
  repeat split; by vm_compute.
Defined.

(** ** Running a file again *)

Section Commutes.

Context (g : state → state).

Lemma commutes_ret {A} (a : A) : commutes g (mret a : M A).
Proof. by intros s. Qed.

Lemma commutes_raise {A} (e : exn) : commutes g (raise e : M A).
Proof. by intros s. Qed.

Lemma commutes_lift {A} (r : result A) : commutes g (lift r).
Proof. by intros s. Qed.

Lemma commutes_gets {A} (f : state → A) :
  (∀ s, f (g s) = f s) → commutes g (gets f).
Proof. intros Hf s. unfold gets. cbn. by rewrite Hf. Qed.

Lemma commutes_modify (h : state → state) :
  (∀ s, h (g s) = g (h s)) → commutes g (modify h).
Proof. intros Hh s. unfold modify. cbn. by rewrite Hh. Qed.

Lemma commutes_bind {A B} (m : M A) (k : A → M B) :
  commutes g m → (∀ a, commutes g (k a)) → commutes g (m ≫= k).
Proof.
  intros Hm Hk s. rewrite !bind_unfold, (Hm s).
  destruct (m s) as [[a|e] s1]; cbn [fst snd]; [|done]. apply Hk.
Qed.

Lemma commutes_try {A} (m : M A) (h : exn → option (M A)) :
  commutes g m → (∀ e k, h e = Some k → commutes g k) →
  commutes g (try_except m h).
Proof.
  intros Hm Hh s. unfold try_except. rewrite (Hm s).
  destruct (m s) as [[a|e] s1]; cbn [fst snd]; [done|].
  destruct (h e) as [k|] eqn:He; [|done]. by apply (Hh e).
Qed.

Lemma commutes_for_each {A} (l : list A) (body : A → M unit) :
  (∀ x, commutes g (body x)) → commutes g (for_each l body).
Proof.
  intros Hb. induction l as [|x l IH]; [apply commutes_ret|].
  cbn [for_each]. apply commutes_bind; [apply Hb|by intros _].
Qed.

Lemma commutes_collect {A B} (l : list A) (body : A → M (option B)) :
  (∀ x, commutes g (body x)) → commutes g (collect l body).
Proof.
  intros Hb. induction l as [|x l IH]; [apply commutes_ret|].
  cbn [collect]. apply commutes_bind; [apply Hb|intros r].
  apply commutes_bind; [apply IH|intros rs]. apply commutes_ret.
Qed.

Lemma commutes_index0 {A} (l : list A) : commutes g (index0 l).
Proof. destruct l; [apply commutes_raise|apply commutes_ret]. Qed.

End Commutes.

Ltac commutes_step :=
  lazymatch goal with
  | |- commutes _ (mbind _ _) => apply commutes_bind; [|intros ?]
  | |- commutes _ (mret _) => apply commutes_ret
  | |- commutes _ (raise _) => apply commutes_raise
  | |- commutes _ (lift _) => apply commutes_lift
  | |- commutes _ (gets _) => apply commutes_gets; intros ?; reflexivity
  | |- commutes _ (modify _) => apply commutes_modify; intros ?; reflexivity
  | |- commutes _ (index0 _) => apply commutes_index0
  | |- commutes _ (try_except _ _) =>
      apply commutes_try; [|intros [] ? ?; simplify_eq]
  | |- commutes _ (for_each _ _) => apply commutes_for_each; intros ?
  | |- commutes _ (collect _ _) => apply commutes_collect; intros ?
  | |- commutes _ (match ?x with _ => _ end) => destruct x
  | |- commutes _ (let _ := _ in _) => lazy zeta
  end.

Ltac solve_commutes := repeat commutes_step.

Section FileRecords.

Context (E : Env).

(** The relationship phases neither read nor write the change
    records. *)
Lemma relations_commutes (F : gmap string Z) (obj : Bill) (n : node) :
  commutes (set_db_file F) (relations E obj n).
Proof.
  unfold relations, process_committees, find_committees, Committee_objects_get,
    process_terms, find_terms, get_term, process_consponsors, cosponsor_node,
    get_person, Cosponsor_get_or_create, Cosponsor_save, process_relatedbills,
    relatedbill_node, related_lookup, Bill_objects_get, pk_of, log_msg.
  solve_commutes.
Qed.

End FileRecords.

Section RunAgain.

Context (E : Env).

Lemma persisted_parts (s t : state) :
  persisted s = persisted t
  ↔ relation_tables s = relation_tables t ∧ db_bill s = db_bill t ∧ db_file s = db_file t.
Proof.
  unfold persisted, relation_tables. split.
  - intros [= -> -> -> -> -> -> -> -> -> ->]. done.
  - intros ([= -> -> -> -> -> -> -> ->] & -> & ->). done.
Qed.

Lemma state_db_file_eta (X : gmap string Z) (Y : gmap Z Bill) (s : state) :
  set_db_file (db_file s) (set_db_file X (set_db_bill Y s)) = set_db_bill Y s.
Proof. by destruct s. Qed.

(** [process] can be run again on the document from every state that
    reads like the state of the first run and holds the tables the first
    run left, whatever the change records are and even if the row of the
    bill has been written since with another bill of the same key: it
    ends as it ended, puts the row back, and leaves the other tables and
    the change records alone. *)
Lemma process_again (n : node) (s sp t : state) (r : result Bill) :
  process E Bill_new n s = (r, sp) →
  inputs t = inputs s →
  relation_tables t = relation_tables sp →
  (db_bill t = db_bill sp
   ∨ ∃ o i x, r = Ok o ∧ bill_id o = Some i ∧ natural_key x = natural_key o
              ∧ db_bill t = <[i := x]> (db_bill sp)) →
  ∃ t', process E Bill_new n t = (r, t')
        ∧ relation_tables t' = relation_tables sp
        ∧ db_bill t' = db_bill sp ∧ db_file t' = db_file t.
Proof.
  intros Hrun It Rt Hbill.
  rewrite process_unfold, bind_unfold in Hrun.
  destruct (process_fields E Bill_new n s) as [rf sa] eqn:Hf.
  destruct (phases_keep_inputs E Bill_new n None) as (Kf & _).
  pose proof (preserves_run _ _ _ _ _ Kf Hf) as Isa.
  destruct (inputs_components _ _ It) as (_ & Hsp & _).
  destruct (reads_replay served_persons _ _ _ t _
              (process_fields_reads E Bill_new n) Hf Hsp) as [ta Hta].
  pose proof (preserves_run _ _ _ _ _
                (process_fields_frame E persisted Bill_new n (λ _ _, eq_refl)) Hta) as Pta.
  apply persisted_parts in Pta as (Rta & Bta & Fta).
  pose proof (preserves_run _ _ _ _ _ Kf Hta) as Ita.
  destruct rf as [obj|e].
  2:{ injection Hrun as <- <-.
      destruct Hbill as [Hb|(o & ? & ? & ? & _)]; [|done].
      exists ta. rewrite process_unfold, (bind_raise _ _ _ _ _ Hta).
      split; [done|]. split; [congruence|]. split; congruence. }
  destruct (process_fields_key E _ _ _ _ _ Hf) as (_ & [k Hkey] & Hnoid).
  rewrite bind_unfold in Hrun.
  destruct (adopt_id obj sa) as [ra sa'] eqn:Ha.
  pose proof (preserves_run (λ s, s) _ _ _ _ (adopt_id_frame _ obj) Ha) as Hsa'.
  cbn beta in Hsa'. subst sa'.
  destruct ra as [obj'|e].
  2:{ injection Hrun as <- <-.
      destruct Hbill as [Hb|(o & ? & ? & ? & _)]; [|done].
      assert (db_bill ta = db_bill sa) as Bsa by congruence.
      destruct (reads_replay db_bill _ _ _ ta _ (adopt_id_reads obj) Ha Bsa) as [tb Htb].
      pose proof (preserves_run (λ s, s) _ _ _ _ (adopt_id_frame _ obj) Htb) as Htb'.
      cbn beta in Htb'. subst tb.
      exists ta. rewrite process_unfold, (bind_ok _ _ _ _ _ Hta), (bind_raise _ _ _ _ _ Htb).
      split; [done|]. split; [congruence|]. split; congruence. }
  rewrite bind_unfold in Hrun.
  destruct (Bill_save_returns obj' sa) as (o1 & sb & Hs). rewrite Hs in Hrun.
  destruct (upsert_spec obj obj' o1 k sa sa sb Hkey Hnoid Ha Hs) as (i & Ho1 & Hsb & Hrow).
  assert (bill_id o1 = Some i) as Hid by (by rewrite Ho1).
  assert (natural_key o1 = Some k) as Hk1 by (by rewrite Ho1, natural_key_set_bill_id).
  pose proof (f_equal (λ x, db_bill x.2) Hrun) as Bsp. cbn beta in Bsp.
  rewrite relations_db_bill in Bsp. cbn [snd] in Bsp.
  rewrite Bsp in Hrow.
  destruct (bills_with_key_lookup _ _ _ _ Hrow) as [Hi _].
  (* the row of the bill in the state of the second run *)
  assert (∃ x, natural_key x = Some k ∧ db_bill t = <[i := x]> (db_bill sp))
    as (x & Hkx & Bt).
  { destruct Hbill as [Hb|(o & i' & x & -> & Hi' & Hkx & Hb)].
    - exists o1. split; [done|]. by rewrite insert_id.
    - pose proof (relations_returns E o1 n sb o (f_equal fst Hrun)) as ->.
      assert (i' = i) as -> by congruence.
      exists x. split; [congruence|done]. }
  assert (bills_with_key k (db_bill ta) = [(i, x)]) as Hrow'.
  { rewrite Bta, Bt. by apply (bills_with_key_update k _ i o1). }
  pose proof (adopt_id_found obj k i x ta Hkey Hrow') as Hadopt. rewrite <- Ho1 in Hadopt.
  assert (Bill_save o1 ta = (Ok o1, set_db_bill (db_bill sp) ta)) as Hsave.
  { unfold Bill_save. rewrite Hid. msimp.
    by rewrite Bta, Bt, insert_insert_eq, insert_id. }
  (* the relationship phases, first with the change records of the first run *)
  set (tb0 := set_db_file (db_file sp) (set_db_bill (db_bill sp) ta)).
  destruct (relations_again E o1 n i Hid sb r sp tb0 Hrun) as (t0' & Hrel & Pt0').
  { change (inputs tb0) with (inputs ta). rewrite Ita, It, <- Isa.
    symmetry. apply (preserves_run _ _ _ _ _
                       (Bill_save_frame inputs obj' (λ _ _, eq_refl)) Hs). }
  { done. }
  { apply persisted_parts. split; [|done].
    change (relation_tables tb0) with (relation_tables ta). congruence. }
  apply persisted_parts in Pt0' as (Rt0 & Bt0 & Ft0).
  pose proof (relations_commutes E (db_file ta) o1 n tb0) as Hcomm.
  unfold tb0 in Hcomm at 1. rewrite state_db_file_eta, Hrel in Hcomm. cbn [fst snd] in Hcomm.
  exists (set_db_file (db_file ta) t0').
  split.
  - rewrite process_unfold, (bind_ok _ _ _ _ _ Hta), (bind_ok _ _ _ _ _ Hadopt).
    by rewrite (bind_ok _ _ _ _ _ Hsave).
  - change (relation_tables (set_db_file (db_file ta) t0')) with (relation_tables t0').
    change (db_bill (set_db_file (db_file ta) t0')) with (db_bill t0').
    change (db_file (set_db_file (db_file ta) t0')) with (db_file ta).
    rewrite Rt0, Bt0. change (relation_tables tb0) with (relation_tables ta).
    split; [congruence|]. split; [done|congruence].
Qed.

End RunAgain.

Section FileAgain.

Context (E : Env).

Lemma process_inputs (obj : Bill) (n : node) : preserves inputs (process E obj n).
Proof.
  destruct (phases_keep_inputs E obj n None) as (Kf & _).
  change (process E obj n)
    with (obj ← process_fields E obj n; obj ← adopt_id obj; obj ← Bill_save obj;
          relations E obj n).
  apply preserves_bind; [done|intros ?].
  apply preserves_bind; [apply adopt_id_frame|intros ?].
  apply preserves_bind; [by apply Bill_save_frame|intros ?].
  apply relations_inputs.
Qed.

(** The second save of the loop body and the two calls that follow it. *)
Lemma save_and_publish (opts : options) (bill : Bill) (i : Z) (st : state) :
  bill_id bill = Some i →
  ∃ st',
    (Bill_save bill ≫= λ bill,
      (if negb (disable_indexing opts) then update_object bill else mret tt) ;;
      if negb (disable_events opts) then create_events bill else mret tt) st
    = (Ok tt, st')
    ∧ inputs st' = inputs st ∧ relation_tables st' = relation_tables st
    ∧ db_bill st' = <[i := bill]> (db_bill st) ∧ db_file st' = db_file st.
Proof.
  intros Hid. unfold Bill_save, update_object, create_events. rewrite Hid.
  destruct (disable_indexing opts), (disable_events opts); cbn [negb]; msimp;
    eexists; (split; [done|]); done.
Qed.

Lemma state_db_file_same (s : state) : set_db_file (db_file s) s = s.
Proof. by destruct s. Qed.

(** The body of the loop over the [bill] elements can be run again from
    the state it left, whatever the change records have become. *)
Lemma reconcile_node_again (opts : options) (fname : string) (tree n : node)
    (s s1 : state) (r : result unit) (F : gmap string Z) :
  reconcile_node E opts fname false tree n s = (r, s1) →
  ∃ s2, reconcile_node E opts fname false tree n (set_db_file F s1) = (r, s2)
        ∧ relation_tables s2 = relation_tables s1
        ∧ db_bill s2 = db_bill s1 ∧ db_file s2 = F.
Proof.
  rewrite !reconcile_node_unfold.
  destruct (process E Bill_new n s) as [[o|e] sp] eqn:Hp.
  2:{ intros [= <- <-].
      destruct (process_again E n s sp (set_db_file F sp) (Raise e) Hp) as (t' & -> & Rt & Bt & Ft).
      - apply (preserves_run _ _ _ _ _ (process_inputs Bill_new n) Hp).
      - done.
      - by left.
      - by exists t'. }
  pose proof (preserves_run _ _ _ _ _ (process_inputs Bill_new n) Hp) as Isp.
  destruct (process_returns_saved E n s sp o Hp) as (i & Hi & Hrow).
  destruct (actions_of E (xpath_actions tree)) as [acts|e].
  2:{ intros [= <- <-].
      destruct (process_again E n s sp
                  (set_db_file F (set_seen_bill_ids (seen_bill_ids sp ++ [bill_id o]) sp))
                  (Ok o) Hp) as (t' & -> & Rt & Bt & Ft); [done|done|by left|].
      eexists. split; [done|]. done. }
  cbn zeta.
  destruct (save_and_publish opts (set_major_actions acts o) i
              (set_seen_bill_ids (seen_bill_ids sp ++ [bill_id o]) sp) Hi)
    as (st' & -> & Ist & Rst & Bst & Fst).
  intros [= <- <-].
  destruct (process_again E n s sp (set_db_file F st') (Ok o) Hp)
    as (t' & -> & Rt & Bt & Ft).
  { change (inputs (set_db_file F st')) with (inputs st'). by rewrite Ist. }
  { change (relation_tables (set_db_file F st')) with (relation_tables st'). by rewrite Rst. }
  { right. exists o, i, (set_major_actions acts o). by repeat split. }
  destruct (save_and_publish opts (set_major_actions acts o) i
              (set_seen_bill_ids (seen_bill_ids t' ++ [bill_id o]) t') Hi)
    as (st2 & -> & Ist2 & Rst2 & Bst2 & Fst2).
  exists st2. split; [done|].
  rewrite Rst2, Bst2, Fst2, Rst, Bst. cbn [db_bill set_seen_bill_ids].
  change (relation_tables (set_seen_bill_ids ?l ?x)) with (relation_tables x).
  change (db_file (set_seen_bill_ids ?l ?x)) with (db_file x).
  by rewrite Rt, Bt, Ft.
Qed.

(** X29: parsing and reconciling a bill file a second time, from the
    state the first pass left, ends as the first pass ended and leaves
    every table and every change record as the first pass left them:
    the row of the bill is rewritten by [process] without its major
    actions and then stored again with them, no relationship row is
    added or removed, and the record of the file is written again with
    the same signature.  What is not persisted (the log, the list of
    seen ids, the calls to the index and the event generator) is not
    part of the statement. *)
Theorem parse_file_idempotent (opts : options) (fname : string) (s : state) :
  let first := parse_file E opts fname s in
  ∃ s2, parse_file E opts fname first.2 = (first.1, s2)
        ∧ persisted s2 = persisted first.2.
Proof.
  intros first. unfold first. clear first.
  unfold parse_file, etree_parse, File_save_file.
  destruct (disk E !! fname) as [f|]; [|by exists s].
  destruct (file_root f) as [root|]; [|by exists s].
  rewrite !bind_unfold, !ret_unfold. cbn [negb]. unfold xpath_root.
  destruct (decide (node_tag root = "bill")) as [Htag|Htag].
  - cbn [for_each]. rewrite !bind_unfold.
    destruct (reconcile_node E opts fname false root root s) as [r s1] eqn:Hr.
    destruct r as [[]|e].
    + rewrite ret_unfold, modify_unfold. cbn [fst snd].
      destruct (reconcile_node_again opts fname root root s s1 (Ok tt)
                  (<[fname := file_signature f]> (db_file s1)) Hr)
        as (s2 & -> & R2 & B2 & F2).
      rewrite ret_unfold, modify_unfold. eexists. split; [done|].
      apply persisted_parts.
      cbn [db_bill db_file set_db_file].
      change (relation_tables (set_db_file ?x ?y)) with (relation_tables y).
      by rewrite R2, B2, F2, insert_insert_eq.
    + cbn [fst snd].
      destruct (reconcile_node_again opts fname root root s s1 (Raise e) (db_file s1) Hr)
        as (s2 & Hr2 & R2 & B2 & F2).
      rewrite state_db_file_same in Hr2. rewrite Hr2.
      exists s2. split; [done|]. by apply persisted_parts.
  - cbn [for_each]. msimp. cbn [fst snd]. msimp. eexists. split; [done|].
    apply persisted_parts. cbn [db_bill db_file set_db_file].
    by rewrite insert_insert_eq.
Qed.

End FileAgain.

Lemma parse_file_idempotent_witness :
  let E := Demo.env true DemoActions.files in
  let first := parse_file E DemoFiles.opts DemoFiles.good_path Demo.s0 in
  first.1 = Ok tt
  ∧ ∃ s2, parse_file E DemoFiles.opts DemoFiles.good_path first.2 = (first.1, s2)
          ∧ persisted s2 = persisted first.2.
Proof.
  split; [by vm_compute|].
  apply (parse_file_idempotent (Demo.env true DemoActions.files) DemoFiles.opts
           DemoFiles.good_path Demo.s0).
Defined.

(** ** [main]: the run after a reconciliation *)

Section NextRun.

Context (E : Env).

(** After [process] has returned, the bill it returned is the only row
    of the key of the document. *)
Lemma process_row (n : node) (s sp : state) (o : Bill) :
  process E Bill_new n s = (Ok o, sp) →
  ∃ k i, document_key E n = Some k ∧ natural_key o = Some k ∧ bill_id o = Some i
         ∧ bills_with_key k (db_bill sp) = [(i, o)].
Proof.
  intros Hp.
  destruct (process_fields E Bill_new n s) as [[obj|e] s1] eqn:Hf.
  2:{ by rewrite (process_fields_raises _ _ _ _ _ _ Hf) in Hp. }
  destruct (process_saved E n s s1 obj Hf) as (k & Hdoc & Hkey & Hdb & Hp').
  assert (∀ i, (bills_with_key k (db_bill s) = []
                ∨ ∃ b, bills_with_key k (db_bill s) = [(i, b)]) →
               process E Bill_new n s
               = relations E (set_bill_id (Some i) obj) n
                   (set_db_bill (<[i := set_bill_id (Some i) obj]> (db_bill s)) s1) →
               ∃ k i, document_key E n = Some k ∧ natural_key o = Some k
                      ∧ bill_id o = Some i ∧ bills_with_key k (db_bill sp) = [(i, o)])
    as Hrel.
  { intros i Hrow Hi. rewrite Hp in Hi.
    pose proof (relations_returns E _ n _ o (eq_sym (f_equal fst Hi))) as ->.
    exists k, i. split; [done|]. split; [by rewrite natural_key_set_bill_id|].
    split; [done|].
    pose proof (f_equal (λ x, db_bill x.2) Hi) as Hs'. cbn beta in Hs'.
    rewrite relations_db_bill in Hs'. cbn [snd] in Hs'. rewrite Hs'.
    cbn [db_bill set_db_bill].
    destruct Hrow as [Hrow|[b Hrow]].
    - apply bills_with_key_insert_absent; [done|]. by rewrite natural_key_set_bill_id.
    - apply (bills_with_key_update k _ i b); [done|]. by rewrite natural_key_set_bill_id. }
  destruct (bills_with_key k (db_bill s)) as [|[i b] [|? ?]] eqn:Hb.
  - apply (Hrel _ (or_introl eq_refl) Hp').
  - apply (Hrel i); [right; by exists b|done].
  - by rewrite Hp in Hp'.
Qed.

(** X30: once a bill file has been parsed and reconciled, the next pass
    over it that is not forced takes the skip path, provided the name of
    the file gives the natural key of its document: the bill found by
    the path is the one the reconciliation stored, its id is noted as
    seen, and no table is written. *)
Theorem parsed_file_is_skipped (opts : options) (fname : string) (f : file) (root : node)
    (g : string * string * string) (c t nn : Z) (s s1 : state) :
  disk E !! fname = Some f → file_root f = Some root → node_tag root = "bill" →
  BillPath.search fname = Some g →
  BillType_by_xml_code E (Some g.1.2) = Ok t →
  PyInt.int (Some g.1.1) = Ok c → PyInt.int (Some g.2) = Ok nn →
  document_key E root = Some (c, t, nn) →
  force opts = false →
  parse_file E opts fname s = (Ok tt, s1) →
  ∃ i b s2,
    bills_with_key (c, t, nn) (db_bill s1) = [(i, b)]
    ∧ main_bill_file E opts fname s1 = (Ok tt, s2)
    ∧ seen_bill_ids s2 = (seen_bill_ids s1 ++ [Some i])%list
    ∧ tables s2 = tables s1.
Proof.
  intros Hf Hroot Htag Hg Ht Hc Hn Hdoc Hforce.
  unfold parse_file, etree_parse, File_save_file. rewrite Hf, Hroot.
  rewrite bind_unfold, ret_unfold. unfold xpath_root. rewrite decide_True by done.
  cbn [for_each negb]. rewrite !bind_unfold, reconcile_node_unfold.
  destruct (process E Bill_new root s) as [[o|e] sp] eqn:Hp; [|done].
  destruct (process_row root s sp o Hp) as (k & i & Hdoc' & Hko & Hi & Hrow).
  assert (k = (c, t, nn)) as -> by congruence.
  destruct (actions_of E (xpath_actions root)) as [acts|e]; [|done].
  cbn zeta.
  destruct (save_and_publish opts (set_major_actions acts o) i
              (set_seen_bill_ids (seen_bill_ids sp ++ [bill_id o]) sp) Hi)
    as (st' & -> & Ist & Rst & Bst & Fst).
  rewrite ret_unfold, modify_unfold. intros [= <-].
  assert (bills_with_key (c, t, nn)
            (db_bill (set_db_file (<[fname := file_signature f]> (db_file st')) st'))
          = [(i, set_major_actions acts o)]) as Hrow1.
  { cbn [db_bill set_db_file]. rewrite Bst. cbn [db_bill set_seen_bill_ids].
    by apply (bills_with_key_update _ _ i o). }
  set (s1 := set_db_file (<[fname := file_signature f]> (db_file st')) st') in *.
  assert (db_file s1 !! fname = Some (file_signature f)) as Hsig.
  { unfold s1. cbn [db_file set_db_file]. by rewrite lookup_insert_eq. }
  exists i, (set_major_actions acts o). eexists. split; [done|].
  unfold main_bill_file. rewrite bind_unfold.
  rewrite (skip_path_found E opts fname f g c t nn i (set_major_actions acts o) s1
             Hf Hsig Hforce Hg Ht Hc Hn Hrow1). rewrite ret_unfold.
  split; [done|]. cbn zeta.
  by destruct (if negb (disable_indexing opts) && negb (disable_events opts)
               then changed_text E _ (textfile_of g) else None).
Qed.

End NextRun.

Lemma parsed_file_is_skipped_witness :
  let E := Demo.env true DemoActions.files in
  let s1 := (parse_file E DemoFiles.opts DemoFiles.good_path Demo.s0).2 in
  ∃ i b s2,
    bills_with_key (111, 3, 1) (db_bill s1) = [(i, b)]
    ∧ main_bill_file E DemoFiles.opts DemoFiles.good_path s1 = (Ok tt, s2)
    ∧ seen_bill_ids s2 = (seen_bill_ids s1 ++ [Some i])%list
    ∧ tables s2 = tables s1.
Proof.
  apply (parsed_file_is_skipped (Demo.env true DemoActions.files) DemoFiles.opts
           DemoFiles.good_path (mkFile 8 (Some DemoActions.good)) DemoActions.good
           ("111", "hr", "1") 111 3 1 Demo.s0); by vm_compute.
Defined.

(** ** [main]: the skip path abandoned *)

Section SkipFallback.

Context (E : Env).

(** Reconciling a [bill] element neither reads nor writes the change
    records. *)
Lemma reconcile_node_commutes (F : gmap string Z) (opts : options) (fname : string)
    (tree n : node) :
  commutes (set_db_file F) (reconcile_node E opts fname false tree n).
Proof.
  unfold reconcile_node. cbn [negb].
  apply commutes_bind; [|intros bill].
  - change (process E Bill_new n)
      with (obj ← process_fields E Bill_new n; obj ← adopt_id obj; obj ← Bill_save obj;
            relations E obj n).
    apply commutes_bind; [|intros ?].
    { unfold process_fields, Processor_process, process_titles, process_introduced,
        process_sponsor, process_current_status, get_person.
      solve_commutes. }
    apply commutes_bind; [|intros ?].
    { unfold adopt_id, Bill_objects_get. solve_commutes. }
    apply commutes_bind; [|intros ?].
    { unfold Bill_save. solve_commutes. }
    apply relations_commutes.
  - unfold Bill_save, update_object, create_events. solve_commutes.
Qed.

(** Parsing a file does not depend on the change records it starts
    from: from other change records it ends the same way and leaves the
    same state, the change records apart, to which it adds the same
    record. *)
Lemma parse_file_any_records (opts : options) (fname : string) (F : gmap string Z)
    (s : state) :
  let r := parse_file E opts fname s in
  let r' := parse_file E opts fname (set_db_file F s) in
  r'.1 = r.1
  ∧ set_db_file ∅ r'.2 = set_db_file ∅ r.2
  ∧ (r.1 = Ok tt →
       ∃ f, disk E !! fname = Some f
            ∧ db_file r.2 = <[fname := file_signature f]> (db_file s)
            ∧ db_file r'.2 = <[fname := file_signature f]> F).
Proof.
  intros r r'. unfold r, r'. clear r r'.
  unfold parse_file, etree_parse, File_save_file.
  destruct (disk E !! fname) as [f|]; [|by repeat split].
  destruct (file_root f) as [root|]; [|by repeat split].
  rewrite !bind_unfold, !ret_unfold. cbn [negb]. rewrite !bind_unfold.
  pose proof (commutes_for_each (set_db_file F) (xpath_root "bill" root)
                (reconcile_node E opts fname false root)
                (reconcile_node_commutes F opts fname root) s) as Hcomm.
  pose proof (preserves_for_each db_file (xpath_root "bill" root)
                (reconcile_node E opts fname false root)
                (reconcile_node_db_file E opts fname root) s) as Hfr.
  rewrite Hcomm.
  destruct (for_each _ _ s) as [[[]|e] s1]; cbn [fst snd] in *.
  - rewrite !modify_unfold. cbn [fst snd db_file set_db_file].
    split; [done|]. split; [done|]. intros _. exists f. by rewrite Hfr.
  - by repeat split.
Qed.

(** C10: when the change tracker reports the file unchanged and the run
    is not forced, but no Bill has the natural key read off the path,
    the skip path is abandoned and the file is parsed and reconciled as
    a changed file is.  The loop body is then the parse-and-reconcile
    part, and it is what the forced run does.  From change records under
    which the file counts as changed it ends the same way and leaves the
    same state, the change records apart.  And the document is
    reconciled: its [bill] element goes through [process]; an error of
    [process] or of an action element is raised; otherwise the bill
    [process] stored is stored again with the major actions of the
    document, it is noted as seen, indexed and given events unless that
    is disabled, and the signature of the file is recorded. *)
Theorem skip_path_falls_back (opts : options) (fname : string) (f : file)
    (g : string * string * string) (c t nn : Z) (s : state) :
  disk E !! fname = Some f →
  db_file s !! fname = Some (file_signature f) →
  force opts = false →
  BillPath.search fname = Some g →
  BillType_by_xml_code E (Some g.1.2) = Ok t →
  PyInt.int (Some g.1.1) = Ok c → PyInt.int (Some g.2) = Ok nn →
  bills_with_key (c, t, nn) (db_bill s) = [] →
  let r := main_bill_file E opts fname s in
  skip_path E opts fname s = (Ok false, s)
  ∧ r = parse_file E opts fname s
  ∧ r = main_bill_file E (set_force true opts) fname s
  ∧ (∀ F, F !! fname ≠ Some (file_signature f) →
       let r' := main_bill_file E opts fname (set_db_file F s) in
       r'.1 = r.1 ∧ set_db_file ∅ r'.2 = set_db_file ∅ r.2
       ∧ (r.1 = Ok tt →
            db_file r.2 = <[fname := file_signature f]> (db_file s)
            ∧ db_file r'.2 = <[fname := file_signature f]> F))
  ∧ (∀ root, file_root f = Some root → node_tag root = "bill" →
       match process E Bill_new root s with
       | (Raise e, sp) => r = (Raise e, sp)
       | (Ok o, sp) =>
           ∃ i, bill_id o = Some i ∧ db_bill sp !! i = Some o
             ∧ seen_bill_ids r.2 = (seen_bill_ids s ++ [Some i])%list
             ∧ relation_tables r.2 = relation_tables sp
             ∧ match actions_of E (xpath_actions root) with
               | Raise e =>
                   r.1 = Raise e ∧ db_bill r.2 = db_bill sp ∧ db_file r.2 = db_file s
                   ∧ indexed r.2 = indexed s ∧ events r.2 = events s
               | Ok acts =>
                   r.1 = Ok tt
                   ∧ db_bill r.2 = <[i := set_major_actions acts o]> (db_bill sp)
                   ∧ db_file r.2 = <[fname := file_signature f]> (db_file s)
                   ∧ indexed r.2
                     = (indexed s ++ if disable_indexing opts then [] else [Some i])%list
                   ∧ events r.2
                     = (events s ++ if disable_events opts then [] else [Some i])%list
               end
       end).
Proof.
  intros Hf Hsig Hforce Hg Ht Hc Hn Hb r.
  pose proof (skip_path_absent E opts fname f g c t nn s Hf Hsig Hforce Hg Ht Hc Hn Hb)
    as Hskip.
  assert (r = parse_file E opts fname s) as Hr.
  { unfold r, main_bill_file. by rewrite bind_unfold, Hskip. }
  assert (∀ o s', force o = true ∨ db_file s' !! fname ≠ Some (file_signature f) →
            disk E !! fname = Some f →
            main_bill_file E o fname s' = parse_file E o fname s') as Hchanged.
  { intros o s' Hc' Hf'. unfold main_bill_file.
    by rewrite bind_unfold, (skip_path_forced E o fname f s' Hf' Hc'). }
  split; [done|]. split; [done|]. split; [|split].
  - rewrite Hr. rewrite (Hchanged (set_force true opts) s (or_introl eq_refl) Hf).
    reflexivity.
  - intros F HF r'. unfold r'. clear r'.
    rewrite (Hchanged opts (set_db_file F s) (or_intror HF) Hf), Hr.
    destruct (parse_file_any_records opts fname F s) as (H1 & H2 & H3).
    split; [done|]. split; [done|]. intros Hok.
    destruct (H3 Hok) as (f' & Hf' & Hd & Hd').
    assert (f' = f) as -> by congruence. done.
  - intros root Hroot Htag. rewrite Hr. clear Hr r.
    unfold parse_file, etree_parse, File_save_file. rewrite Hf, Hroot.
    rewrite bind_unfold, ret_unfold. unfold xpath_root. rewrite decide_True by done.
    cbn [for_each negb]. rewrite !bind_unfold, reconcile_node_unfold.
    destruct (process E Bill_new root s) as [[o|e] sp] eqn:Hp; [|done].
    destruct (process_returns_saved E root s sp o Hp) as (i & Hi & Hrow).
    pose proof (preserves_run _ _ _ _ _
                  (process_frame E (λ s, (seen_bill_ids s, indexed s, events s, db_file s))
                     Bill_new root (λ _ _, eq_refl) (λ _ _, eq_refl)
                     (λ _ _, eq_refl) (λ _ _, eq_refl) (λ _ _, eq_refl)
                     (λ _ _, eq_refl) (λ _ _, eq_refl) (λ _ _, eq_refl)) Hp) as Hfr.
    cbn beta in Hfr. injection Hfr as Hseen Hidx Hev Hfile.
    exists i. split; [done|]. split; [done|].
    destruct (actions_of E (xpath_actions root)) as [acts|e].
    + cbn zeta. unfold Bill_save, update_object, create_events.
      cbn [bill_id set_major_actions]. rewrite Hi.
      destruct (disable_indexing opts), (disable_events opts); cbn [negb]; msimp;
        cbn; rewrite ?app_nil_r, ?Hseen, ?Hidx, ?Hev, ?Hfile, ?Hi; done.
    + cbn. rewrite Hi, Hseen, Hidx, Hev, Hfile. done.
Qed.

End SkipFallback.

Lemma skip_path_falls_back_witness :
  let E := Demo.env true DemoFiles.files in
  let r := main_bill_file E DemoFiles.opts DemoFiles.good_path DemoSkip.tracked in
  (r.1 = Ok tt ∧ (map_to_list (db_bill DemoSkip.tracked)).*1 = []
   ∧ (map_to_list (db_bill r.2)).*1 = [1])
  ∧ skip_path E DemoFiles.opts DemoFiles.good_path DemoSkip.tracked
    = (Ok false, DemoSkip.tracked)
  ∧ r = parse_file E DemoFiles.opts DemoFiles.good_path DemoSkip.tracked
  ∧ r = main_bill_file E (set_force true DemoFiles.opts) DemoFiles.good_path
          DemoSkip.tracked
  ∧ (∀ F, F !! DemoFiles.good_path ≠ Some 8 →
       let r' := main_bill_file E DemoFiles.opts DemoFiles.good_path
                   (set_db_file F DemoSkip.tracked) in
       r'.1 = r.1 ∧ set_db_file ∅ r'.2 = set_db_file ∅ r.2
       ∧ (r.1 = Ok tt →
            db_file r.2 = <[DemoFiles.good_path := 8]> (db_file DemoSkip.tracked)
            ∧ db_file r'.2 = <[DemoFiles.good_path := 8]> F))
  ∧ (∀ root, Some Demo.hr1 = Some root → node_tag root = "bill" →
       match process E Bill_new root DemoSkip.tracked with
       | (Raise e, sp) => r = (Raise e, sp)
       | (Ok o, sp) =>
           ∃ i, bill_id o = Some i ∧ db_bill sp !! i = Some o
             ∧ seen_bill_ids r.2 = (seen_bill_ids DemoSkip.tracked ++ [Some i])%list
             ∧ relation_tables r.2 = relation_tables sp
             ∧ match actions_of E (xpath_actions root) with
               | Raise e =>
                   r.1 = Raise e ∧ db_bill r.2 = db_bill sp
                   ∧ db_file r.2 = db_file DemoSkip.tracked
                   ∧ indexed r.2 = indexed DemoSkip.tracked
                   ∧ events r.2 = events DemoSkip.tracked
               | Ok acts =>
                   r.1 = Ok tt
                   ∧ db_bill r.2 = <[i := set_major_actions acts o]> (db_bill sp)
                   ∧ db_file r.2
                     = <[DemoFiles.good_path := 8]> (db_file DemoSkip.tracked)
                   ∧ indexed r.2
                     = (indexed DemoSkip.tracked
                          ++ if disable_indexing DemoFiles.opts then [] else [Some i])%list
                   ∧ events r.2
                     = (events DemoSkip.tracked
                          ++ if disable_events DemoFiles.opts then [] else [Some i])%list
               end
       end).
Proof.
  split; [by vm_compute|].
  apply (skip_path_falls_back (Demo.env true DemoFiles.files) DemoFiles.opts
           DemoFiles.good_path (mkFile 8 (Some Demo.hr1)) ("111", "hr", "1")
           111 3 1 DemoSkip.tracked).
  all: vm_compute; reflexivity.
Defined.
